(** * Resume desktop application: data model, serialisation and LaTeX rendering

    A shallow embedding of
      - [models/type_validator.py] and [type_validator.py] (value objects),
      - [models/models.py] and [models.py] (aggregates, [to_dict], [from_dict]),
      - [latex/converter.py] (the renderer),
    followed by the properties established about them.

    Python strings are sequences of Unicode code points, exceptions are
    explicit results, and [datetime.today()] reads an explicit clock. *)

From Stdlib Require Import String Ascii.
From Stdlib Require Import List Bool NArith ZArith Arith Lia Floats Permutation Sorted.
Import ListNotations.

Set Implicit Arguments.
Set Warnings "-register-all".
Local Open Scope N_scope.

(** ** Python strings *)

Definition char := N.
Definition pystr := list char.

(** An ASCII literal of the source as a Python string. *)
Definition lit (s : string) : pystr := map N_of_ascii (list_ascii_of_string s).

Fixpoint str_eqb (a b : pystr) : bool :=
  match a, b with
  | [], [] => true
  | x :: a', y :: b' => N.eqb x y && str_eqb a' b'
  | _, _ => false
  end.

(** [not s] for a string, [not l] for a list. *)
Definition is_empty {A : Type} (l : list A) : bool :=
  match l with [] => true | _ :: _ => false end.

(** [sep.join(parts)] *)
Fixpoint join (sep : pystr) (parts : list pystr) : pystr :=
  match parts with
  | [] => []
  | [p] => p
  | p :: rest => p ++ sep ++ join sep rest
  end.

(** [s.startswith(prefix)] *)
Fixpoint startswith (s prefix : pystr) : bool :=
  match prefix, s with
  | [], _ => true
  | p :: prefix', c :: s' => N.eqb c p && startswith s' prefix'
  | _ :: _, [] => false
  end.

(** [needle in s] for strings. *)
Fixpoint contains (s needle : pystr) : bool :=
  startswith s needle ||
  match s with
  | [] => false
  | _ :: s' => contains s' needle
  end.

Definition NEWLINE : char := 10.

(** ** Exceptions *)

Inductive exn :=
| ValueError (msg : pystr)
| TypeError
| KeyError (key : pystr)
| AttributeError.

(** The outcome of a call.  [IllTyped] marks an argument that does not have
    the type its annotation declares; the embedding does not follow the
    source past that point. *)
Inductive result (A : Type) :=
| Ok (a : A)
| Raise (e : exn)
| IllTyped.

Arguments Ok {A} a.
Arguments Raise {A} e.
Arguments IllTyped {A}.

Definition bind {A B : Type} (r : result A) (k : A -> result B) : result B :=
  match r with
  | Ok a => k a
  | Raise e => Raise e
  | IllTyped => IllTyped
  end.

Notation "x <- r ;; k" := (bind r (fun x => k))
  (at level 61, r at next level, right associativity).

(** A list comprehension whose body may raise: the first failure aborts. *)
Fixpoint map_result {A B : Type} (f : A -> result B) (l : list A) : result (list B) :=
  match l with
  | [] => Ok []
  | a :: l' => b <- f a ;; bs <- map_result f l' ;; Ok (b :: bs)
  end.

(** ** What the interpreter supplies

    The parts of the Python runtime that the program calls and that depend on
    the interpreter's Unicode database, hash seed and float formatting.  On
    ASCII the embedding fixes the behaviour of the character classes and of
    [str.lower] itself; the [uni_] fields are consulted for code points from
    128 on only. *)
Record Runtime := {
  uni_decimal : char -> option N;   (* value of a decimal digit (category Nd) *)
  uni_isdigit : char -> bool;       (* [str.isdigit] *)
  uni_word : char -> bool;          (* the class [\w] *)
  uni_space : char -> bool;         (* the class [\s], [str.isspace] *)
  uni_lower : pystr -> pystr;       (* [str.lower] of a string that is not all ASCII *)
  set_order : list pystr -> list pystr;  (* iteration order of [set(l)] *)
  float_repr : float -> pystr       (* [str(x)] of a float *)
}.

Definition is_ascii (c : char) : bool := c <? 128.
Definition in_range (lo hi c : char) : bool := (lo <=? c) && (c <=? hi).

Section Characters.
Variable rt : Runtime.

Definition ascii_digit (c : char) : bool := in_range 48 57 c.

(** [int(c)] for a one-character string matched by [\d]. *)
Definition digit_value (c : char) : option N :=
  if is_ascii c then (if ascii_digit c then Some (c - 48) else None)
  else uni_decimal rt c.

(** The class [\d] of a [str] pattern. *)
Definition re_d (c : char) : bool :=
  match digit_value c with Some _ => true | None => false end.

(** The class [\s] of a [str] pattern; also [str.isspace]. *)
Definition re_s (c : char) : bool :=
  if is_ascii c then in_range 9 13 c || in_range 28 32 c else uni_space rt c.

(** The class [\w] of a [str] pattern. *)
Definition re_w (c : char) : bool :=
  if is_ascii c
  then in_range 48 57 c || in_range 65 90 c || in_range 97 122 c || N.eqb c 95
  else uni_word rt c.

(** [ch.isdigit()] *)
Definition isdigit (c : char) : bool :=
  if is_ascii c then ascii_digit c else uni_isdigit rt c.

Definition ascii_lower (c : char) : char :=
  if in_range 65 90 c then c + 32 else c.

(** [s.lower()] *)
Definition lower (s : pystr) : pystr :=
  if forallb is_ascii s then map ascii_lower s else uni_lower rt s.

Fixpoint lstrip (s : pystr) : pystr :=
  match s with
  | c :: s' => if re_s c then lstrip s' else s
  | [] => []
  end.

(** [s.strip()] *)
Definition strip (s : pystr) : pystr := rev (lstrip (rev (lstrip s))).
End Characters.

(** ** Regular expressions

    The patterns of the validators, matched by derivatives.  All of them have
    the shape [^R$] and are used through [re.match]. *)
Inductive regex :=
| Void
| Eps
| Sym (p : char -> bool)
| Cat (r s : regex)
| Alt (r s : regex)
| Star (r : regex).

Fixpoint nullable (r : regex) : bool :=
  match r with
  | Void => false
  | Eps => true
  | Sym _ => false
  | Cat r s => nullable r && nullable s
  | Alt r s => nullable r || nullable s
  | Star _ => true
  end.

Definition mkCat (r s : regex) : regex :=
  match r with
  | Void => Void
  | Eps => s
  | _ => Cat r s
  end.

Definition mkAlt (r s : regex) : regex :=
  match r, s with
  | Void, _ => s
  | _, Void => r
  | _, _ => Alt r s
  end.

Fixpoint deriv (c : char) (r : regex) : regex :=
  match r with
  | Void => Void
  | Eps => Void
  | Sym p => if p c then Eps else Void
  | Cat r s =>
      mkAlt (mkCat (deriv c r) s) (if nullable r then deriv c s else Void)
  | Alt r s => mkAlt (deriv c r) (deriv c s)
  | Star r => mkCat (deriv c r) (Star r)
  end.

(** [r] matches the whole of [s]. *)
Fixpoint matches (r : regex) (s : pystr) : bool :=
  match s with
  | [] => nullable r
  | c :: s' => matches (deriv c r) s'
  end.

Definition Opt (r : regex) : regex := Alt r Eps.
Definition Plus (r : regex) : regex := Cat r (Star r).
Definition Chr (c : char) : regex := Sym (N.eqb c).

Fixpoint Lit (s : pystr) : regex :=
  match s with
  | [] => Eps
  | c :: s' => Cat (Chr c) (Lit s')
  end.

(** [r{n}] *)
Fixpoint Rep (r : regex) (n : nat) : regex :=
  match n with
  | O => Eps
  | S n' => Cat r (Rep r n')
  end.

(** [.] without DOTALL: anything but a newline. *)
Definition Dot : regex := Sym (fun c => negb (N.eqb c NEWLINE)).

(** [re.match("^R$", s)]: [$] holds at the end of the string and also just
    before a newline that is the last character. *)
Definition re_match_anchored (r : regex) (s : pystr) : bool :=
  matches r s ||
  match rev s with
  | c :: before => N.eqb c NEWLINE && matches r (rev before)
  | [] => false
  end.


(** ** [datetime] and the clock *)

(** A naive [datetime]; [micros] is the time of day (hour, minute, second and
    microsecond) in microseconds since midnight. *)
Record datetime := mkdt { year : N; month : N; day : N; micros : N }.

(** Comparison of two [datetime]s: field by field, most significant first. *)
Definition dt_compare (a b : datetime) : comparison :=
  match year a ?= year b with
  | Eq =>
      match month a ?= month b with
      | Eq =>
          match day a ?= day b with
          | Eq => micros a ?= micros b
          | c => c
          end
      | c => c
      end
  | c => c
  end.

(** [a >= b] *)
Definition dt_ge (a b : datetime) : bool :=
  match dt_compare a b with Lt => false | _ => true end.

(** [a > b] *)
Definition dt_gt (a b : datetime) : bool :=
  match dt_compare a b with Gt => true | _ => false end.

(** The successive values [datetime.today()] returns. *)
Definition clock := nat -> datetime.

(** A computation that may read the clock: it is run from the index of the
    next reading and returns, with its value, the index it leaves. *)
Definition M (A : Type) := clock -> nat -> result (A * nat).

Definition ret {A : Type} (a : A) : M A := fun _ i => Ok (a, i).

Definition bindM {A B : Type} (m : M A) (k : A -> M B) : M B :=
  fun clk i =>
    match m clk i with
    | Ok (a, j) => k a clk j
    | Raise e => Raise e
    | IllTyped => IllTyped
    end.

Notation "x <~ m ;; k" := (bindM m (fun x => k))
  (at level 61, m at next level, right associativity).

Definition lift {A : Type} (r : result A) : M A :=
  fun _ i => match r with Ok a => Ok (a, i) | Raise e => Raise e | IllTyped => IllTyped end.

(** [datetime.today()] *)
Definition today : M datetime := fun clk i => Ok (clk i, S i).

Fixpoint mapM {A B : Type} (f : A -> M B) (l : list A) : M (list B) :=
  match l with
  | [] => ret []
  | a :: l' => b <~ f a ;; bs <~ mapM f l' ;; ret (b :: bs)
  end.

(** The value of a computation, whatever index it leaves. *)
Definition value_of {A : Type} (r : result (A * nat)) : result A :=
  match r with Ok (a, _) => Ok a | Raise e => Raise e | IllTyped => IllTyped end.

(** ** [datetime.strptime(s, "%d-%m-%Y")]

    The library's function as the validators use it; its messages are
    abridged. *)

Definition is_leap (y : N) : bool :=
  (y mod 4 =? 0) && (negb (y mod 100 =? 0) || (y mod 400 =? 0)).

Definition days_in_month (y m : N) : N :=
  if m =? 2 then (if is_leap y then 29 else 28)
  else if (m =? 4) || (m =? 6) || (m =? 9) || (m =? 11) then 30
  else 31.

Fixpoint first_some {A B : Type} (f : A -> option B) (l : list A) : option B :=
  match l with
  | [] => None
  | a :: l' => match f a with Some b => Some b | None => first_some f l' end
  end.

Section Strptime.
Variable rt : Runtime.

(** The directive [%d], [3[0-1]|[1-2]\d|0[1-9]|[1-9]| [1-9]]: every way it
    matches a prefix of [s], in the order of the alternatives, with the number
    read and the rest of the string. *)
Definition day_alts (s : pystr) : list (N * pystr) :=
  match s with
  | c1 :: c2 :: rest =>
      (if (c1 =? 51) && in_range 48 49 c2 then [(30 + (c2 - 48), rest)] else []) ++
      (if in_range 49 50 c1
       then match digit_value rt c2 with
            | Some v => [(10 * (c1 - 48) + v, rest)]
            | None => []
            end
       else []) ++
      (if (c1 =? 48) && in_range 49 57 c2 then [(c2 - 48, rest)] else []) ++
      (if in_range 49 57 c1 then [(c1 - 48, c2 :: rest)] else []) ++
      (if (c1 =? 32) && in_range 49 57 c2 then [(c2 - 48, rest)] else [])
  | [c1] => if in_range 49 57 c1 then [(c1 - 48, [])] else []
  | [] => []
  end.

(** The directive [%m], [1[0-2]|0[1-9]|[1-9]]. *)
Definition month_alts (s : pystr) : list (N * pystr) :=
  match s with
  | c1 :: c2 :: rest =>
      (if (c1 =? 49) && in_range 48 50 c2 then [(10 + (c2 - 48), rest)] else []) ++
      (if (c1 =? 48) && in_range 49 57 c2 then [(c2 - 48, rest)] else []) ++
      (if in_range 49 57 c1 then [(c1 - 48, c2 :: rest)] else [])
  | [c1] => if in_range 49 57 c1 then [(c1 - 48, [])] else []
  | [] => []
  end.

(** The directive [%Y], [\d\d\d\d]. *)
Definition year_digits (s : pystr) : option (N * pystr) :=
  match s with
  | c1 :: c2 :: c3 :: c4 :: rest =>
      match digit_value rt c1, digit_value rt c2, digit_value rt c3, digit_value rt c4 with
      | Some a, Some b, Some c, Some d => Some (1000 * a + 100 * b + 10 * c + d, rest)
      | _, _, _, _ => None
      end
  | _ => None
  end.

Definition HYPHEN : char := 45.

(** The first match of the format's pattern at the start of [s]: day, month,
    year and what is left of the string. *)
Definition strptime_match (s : pystr) : option (N * N * N * pystr) :=
  first_some
    (fun '(d, s1) =>
       match s1 with
       | c :: s2 =>
           if c =? HYPHEN then
             first_some
               (fun '(m, s3) =>
                  match s3 with
                  | c' :: s4 =>
                      if c' =? HYPHEN then
                        match year_digits s4 with
                        | Some (y, rest) => Some (d, m, y, rest)
                        | None => None
                        end
                      else None
                  | [] => None
                  end)
               (month_alts s2)
           else None
       | [] => None
       end)
    (day_alts s).

Definition strptime (s : pystr) : result datetime :=
  match strptime_match s with
  | None => Raise (ValueError (lit "time data does not match format"))
  | Some (d, m, y, rest) =>
      if negb (is_empty rest) then Raise (ValueError (lit "unconverted data remains"))
      else if y =? 0 then Raise (ValueError (lit "year 0 is out of range"))
      else if days_in_month y m <? d then Raise (ValueError (lit "day is out of range for month"))
      else Ok (mkdt y m d 0)
  end.
End Strptime.

(** ** [models/type_validator.py] *)

Module Email.
Record t := mk { value : pystr }.

(** [[^@\s]+] *)
Definition part (rt : Runtime) : regex :=
  Plus (Sym (fun c => negb ((c =? 64) || re_s rt c))).

(** [^[^@\s]+@[^@\s]+\.[^@\s]+$] *)
Definition _regex (rt : Runtime) : regex :=
  Cat (part rt) (Cat (Chr 64) (Cat (part rt) (Cat (Chr 46) (part rt)))).

Definition init (rt : Runtime) (value : pystr) : result t :=
  if negb (re_match_anchored (_regex rt) value)
  then Raise (ValueError (lit "Invalid email address: " ++ value ++
                          lit ". Format should be similar to 'name@domain.com'"))
  else Ok (mk value).

Definition str (self : t) : pystr := value self.
End Email.

Module PhoneNumber.
Record t := mk { value : pystr }.

(** [^\d{10}$] *)
Definition _regex (rt : Runtime) : regex := Rep (Sym (re_d rt)) 10.

Definition init (rt : Runtime) (value : pystr) : result t :=
  if negb (re_match_anchored (_regex rt) value)
  then Raise (ValueError (lit "Invalid phone number: " ++ value ++
                          lit ". Should be a 10 digit number."))
  else Ok (mk value).

Definition str (self : t) : pystr := value self.
End PhoneNumber.

Module Website.
Record t := mk { value : pystr }.

(** [[\w\-]] *)
Definition word_or_dash (rt : Runtime) : regex :=
  Sym (fun c => re_w rt c || (c =? 45)).

(** [^(https?://)?(www\.)?[\w\-]+(\.[\w\-]+)+[/#?]?.*$] *)
Definition _url_regex (rt : Runtime) : regex :=
  Cat (Opt (Cat (Lit (lit "http")) (Cat (Opt (Chr 115)) (Lit (lit "://")))))
 (Cat (Opt (Lit (lit "www.")))
 (Cat (Plus (word_or_dash rt))
 (Cat (Plus (Cat (Chr 46) (Plus (word_or_dash rt))))
 (Cat (Opt (Sym (fun c => (c =? 47) || (c =? 35) || (c =? 63))))
      (Star Dot))))).

Definition init (rt : Runtime) (value : pystr) : result t :=
  if negb (re_match_anchored (_url_regex rt) value)
  then Raise (ValueError (lit "Invalid URL: " ++ value))
  else Ok (mk value).

Definition str (self : t) : pystr := value self.
End Website.

(** [class LinkedIn(Website)]: the prefix check, then the parent's constructor. *)
Module LinkedIn.
Definition t := Website.t.

Definition init (rt : Runtime) (value : pystr) : result t :=
  if negb (startswith value (lit "https://www.linkedin.com/"))
  then Raise (ValueError (lit "Invalid LinkedIn URL: " ++ value))
  else Website.init rt value.
End LinkedIn.

(** [class GitHub(Website)] *)
Module GitHub.
Definition t := Website.t.

Definition init (rt : Runtime) (value : pystr) : result t :=
  if negb (startswith value (lit "https://github.com/"))
  then Raise (ValueError (lit "Invalid GitHub URL: " ++ value))
  else Website.init rt value.
End GitHub.

Module Date.
Record t := mk { value : pystr }.

Definition PRESENT : pystr := lit "present".

Definition init (rt : Runtime) (value : pystr) : result t :=
  if str_eqb (lower rt value) PRESENT then Ok (mk PRESENT)
  else
    match strptime rt value with
    | Ok _ => Ok (mk value)
    | Raise (ValueError _) =>
        Raise (ValueError (lit "Invalid date (expected dd-mm-yyyy): " ++ value))
    | Raise e => Raise e
    | IllTyped => IllTyped
    end.

Definition to_datetime (rt : Runtime) (self : t) : M datetime :=
  if str_eqb (value self) PRESENT then today
  else lift (strptime rt (value self)).

Definition str (self : t) : pystr := value self.
End Date.

(** ** [type_validator.py]: the same checks, made in [__new__]

    The classes end [__new__] with [str.__new__(cls, value)] but are declared
    without the base [str]: the call raises [TypeError], [cls] not being a
    subtype of [str], so a constructor raises on every value that it does
    not reject and no instance is ever made. *)
Module StrValidator.

(** [str.__new__(cls, value)] for a class [cls] that does not derive from
    [str]. *)
Definition str_new (value : pystr) : result pystr := Raise TypeError.

Definition Email (rt : Runtime) (value : pystr) : result pystr :=
  if negb (re_match_anchored (Email._regex rt) value)
  then Raise (ValueError (lit "Invalid email address: " ++ value ++
                          lit ". Format should be similar to 'name@domain.com'"))
  else str_new value.

Definition PhoneNumber (rt : Runtime) (value : pystr) : result pystr :=
  if negb (re_match_anchored (PhoneNumber._regex rt) value)
  then Raise (ValueError (lit "Invalid phone number: " ++ value ++
                          lit ". Should be a 10 digit number."))
  else str_new value.

Definition Website (rt : Runtime) (value : pystr) : result pystr :=
  if negb (re_match_anchored (Website._url_regex rt) value)
  then Raise (ValueError (lit "Invalid URL: " ++ value))
  else str_new value.

(** [class LinkedIn(Website)]: the prefix check, then [super().__new__]. *)
Definition LinkedIn (rt : Runtime) (value : pystr) : result pystr :=
  if negb (startswith value (lit "https://www.linkedin.com/"))
  then Raise (ValueError (lit "Invalid LinkedIn URL: " ++ value))
  else Website rt value.

(** [class GitHub(Website)] *)
Definition GitHub (rt : Runtime) (value : pystr) : result pystr :=
  if negb (startswith value (lit "https://github.com/"))
  then Raise (ValueError (lit "Invalid GitHub URL: " ++ value))
  else Website rt value.

Definition Date (rt : Runtime) (value : pystr) : result pystr :=
  if str_eqb (lower rt value) Date.PRESENT then str_new Date.PRESENT
  else
    match strptime rt value with
    | Ok _ => str_new value
    | Raise (ValueError _) =>
        Raise (ValueError (lit "Invalid date (expected dd-mm-yyyy): " ++ value))
    | Raise e => Raise e
    | IllTyped => IllTyped
    end.
End StrValidator.

(** ** Plain records: what [to_dict] builds and [from_dict] reads *)

Inductive pyval :=
| VNone
| VStr (s : pystr)
| VFloat (x : float)
| VList (items : list pyval)
| VDict (entries : list (pystr * pyval)).

Fixpoint assoc (k : pystr) (entries : list (pystr * pyval)) : option pyval :=
  match entries with
  | [] => None
  | (k', v) :: rest => if str_eqb k' k then Some v else assoc k rest
  end.

(** Truth value of a plain value. *)
Definition truthy (v : pyval) : bool :=
  match v with
  | VNone => false
  | VStr s => negb (is_empty s)
  | VFloat x => negb (PrimFloat.eqb x 0)
  | VList items => negb (is_empty items)
  | VDict entries => negb (is_empty entries)
  end.

(** [d.get(k, default)]; only a dict has the method. *)
Definition py_get (d : pyval) (k : string) (default : pyval) : result pyval :=
  match d with
  | VDict entries =>
      Ok (match assoc (lit k) entries with Some v => v | None => default end)
  | _ => Raise AttributeError
  end.

(** [d[k]] for a string key. *)
Definition py_item (d : pyval) (k : string) : result pyval :=
  match d with
  | VDict entries =>
      match assoc (lit k) entries with
      | Some v => Ok v
      | None => Raise (KeyError (lit k))
      end
  | _ => Raise TypeError
  end.

(** The elements [for x in v] goes through. *)
Definition py_iter (v : pyval) : result (list pyval) :=
  match v with
  | VList items => Ok items
  | VDict entries => Ok (map (fun kv => VStr (fst kv)) entries)
  | VStr s => Ok (map (fun c => VStr [c]) s)
  | VNone | VFloat _ => Raise TypeError
  end.

(** A value that the annotations declare to be a [str]. *)
Definition as_str (v : pyval) : result pystr :=
  match v with VStr s => Ok s | _ => IllTyped end.

(** The argument of a validator that hands it to [re.match]: anything but a
    string is a [TypeError] there. *)
Definition regex_arg (v : pyval) : result pystr :=
  match v with VStr s => Ok s | _ => Raise TypeError end.

(** The argument of a validator that first calls a [str] method on it. *)
Definition method_arg (v : pyval) : result pystr :=
  match v with VStr s => Ok s | _ => Raise AttributeError end.

(** ** [models/models.py] *)

Module Header.
Record t := mk {
  name : pystr;
  email : option Email.t;
  number : option PhoneNumber.t;
  linkedin : option LinkedIn.t;
  portfolio : option Website.t;
  github : option GitHub.t
}.

Definition init (name : pystr) (email : option Email.t)
    (number : option PhoneNumber.t) (linkedin : option LinkedIn.t)
    (portfolio : option Website.t) (github : option GitHub.t) : result t :=
  Ok (mk name email number linkedin portfolio github).

(** [str(x) if x else None]; a validator object is always true. *)
Definition opt_str {A : Type} (str : A -> pystr) (x : option A) : pyval :=
  match x with Some a => VStr (str a) | None => VNone end.

Definition to_dict (self : t) : pyval :=
  VDict [ (lit "name", VStr (name self));
          (lit "email", opt_str Email.str (email self));
          (lit "number", opt_str PhoneNumber.str (number self));
          (lit "linkedin", opt_str Website.str (linkedin self));
          (lit "portfolio", opt_str Website.str (portfolio self));
          (lit "github", opt_str Website.str (github self)) ].
End Header.

Module SkillType.
(** [skills] is a [set]: its elements, in the order iteration yields them. *)
Record t := mk { name : pystr; skills : list pystr }.

Definition init (name : pystr) (skills : list pystr) : result t :=
  if is_empty skills then Raise (ValueError (lit "Skills cannot be empty."))
  else Ok (mk name skills).
End SkillType.

Module SkillSection.
Record t := mk { skill_types : list SkillType.t }.

Definition init (skill_types : list SkillType.t) : result t := Ok (mk skill_types).

Definition to_dict (self : t) : pyval :=
  VDict [ (lit "skill_types",
           VList (map (fun st =>
                         VDict [ (lit "name", VStr (SkillType.name st));
                                 (lit "skills", VList (map VStr (SkillType.skills st))) ])
                      (skill_types self))) ].
End SkillSection.

Module BulletPoint.
Record t := mk { text : pystr }.

Definition init (text : pystr) : result t :=
  if is_empty text then Raise (ValueError (lit "Bullet point text cannot be empty."))
  else if (255 <? List.length text)%nat
  then Raise (ValueError (lit "Bullet point text cannot exceed 255 characters."))
  else Ok (mk text).

Definition to_dict (self : t) : pyval := VDict [ (lit "text", VStr (text self)) ].
End BulletPoint.

Definition throw {A : Type} (e : exn) : M A := fun _ _ => Raise e.

Module Experience.
Record t := mk {
  position : pystr;
  company : pystr;
  description : list BulletPoint.t;
  start_date : Date.t;
  end_date : Date.t
}.

Definition init (rt : Runtime) (position company : pystr)
    (description : list BulletPoint.t) (start_date : Date.t)
    (end_date : option Date.t) : M t :=
  if is_empty position || is_empty company
  then throw (ValueError (lit "Position and company cannot be empty."))
  else if is_empty description
  then throw (ValueError (lit "Description cannot be empty."))
  else
    end_date <~ match end_date with
                | None => lift (Date.init rt (lit "present"))
                | Some d => ret d
                end ;;
    s <~ Date.to_datetime rt start_date ;;
    e <~ Date.to_datetime rt end_date ;;
    if dt_ge s e
    then throw (ValueError (lit "Start date cannot be after end date or present time."))
    else
      s' <~ Date.to_datetime rt start_date ;;
      now <~ today ;;
      if dt_gt s' now
      then throw (ValueError (lit "Start date cannot be after end date or present time."))
      else ret (mk position company description start_date end_date).

Definition to_dict (self : t) : pyval :=
  VDict [ (lit "position", VStr (position self));
          (lit "company", VStr (company self));
          (lit "description", VList (map BulletPoint.to_dict (description self)));
          (lit "start_date", VStr (Date.str (start_date self)));
          (lit "end_date", VStr (Date.str (end_date self))) ].
End Experience.

Module ExperienceSection.
Record t := mk { experiences : list Experience.t }.

Definition init (experiences : list Experience.t) : result t := Ok (mk experiences).

Definition to_dict (self : t) : pyval :=
  VDict [ (lit "experiences", VList (map Experience.to_dict (experiences self))) ].
End ExperienceSection.

Module Project.
Record t := mk {
  name : pystr;
  skills : list pystr;
  description : list BulletPoint.t;
  link : option Website.t
}.

Definition init (name : pystr) (skills : list pystr)
    (description : list BulletPoint.t) (link : option Website.t) : result t :=
  if is_empty name || is_empty skills
  then Raise (ValueError (lit "Name and skills cannot be empty."))
  else if is_empty description
  then Raise (ValueError (lit "Description cannot be empty."))
  else Ok (mk name skills description link).

Definition to_dict (self : t) : pyval :=
  VDict [ (lit "name", VStr (name self));
          (lit "skills", VList (map VStr (skills self)));
          (lit "description", VList (map BulletPoint.to_dict (description self)));
          (lit "link", Header.opt_str Website.str (link self)) ].
End Project.

Module ProjectSection.
Record t := mk { projects : list Project.t }.

Definition init (projects : list Project.t) : result t := Ok (mk projects).

Definition to_dict (self : t) : pyval :=
  VDict [ (lit "projects", VList (map Project.to_dict (projects self))) ].
End ProjectSection.

Module Education.
Record t := mk {
  school : pystr;
  degree : pystr;
  start_date : Date.t;
  awards : list pystr;
  gpa : option float
}.

(** [gpa is not None and (gpa < 0.0 or gpa > 4.0)] *)
Definition gpa_out_of_range (gpa : option float) : bool :=
  match gpa with
  | Some g => PrimFloat.ltb g 0 || PrimFloat.ltb 4 g
  | None => false
  end.

Definition init (rt : Runtime) (school degree : pystr) (start_date : Date.t)
    (awards : option (list pystr)) (gpa : option float) : M t :=
  if is_empty degree || is_empty school
  then throw (ValueError (lit "Degree and school cannot be empty."))
  else
    s <~ Date.to_datetime rt start_date ;;
    now <~ today ;;
    if dt_ge s now
    then throw (ValueError (lit "Start date cannot be after end date."))
    else if gpa_out_of_range gpa
    then throw (ValueError (lit "GPA must be between 0.0 and 4.0."))
    else ret (mk school degree start_date
                 (match awards with Some l => l | None => [] end) gpa).

Definition to_dict (self : t) : pyval :=
  VDict [ (lit "school", VStr (school self));
          (lit "degree", VStr (degree self));
          (lit "start_date", VStr (Date.str (start_date self)));
          (lit "awards", VList (map VStr (awards self)));
          (lit "gpa", match gpa self with Some g => VFloat g | None => VNone end) ].
End Education.

Module EducationSection.
Record t := mk { educations : list Education.t }.

Definition init (educations : list Education.t) : result t := Ok (mk educations).

Definition to_dict (self : t) : pyval :=
  VDict [ (lit "educations", VList (map Education.to_dict (educations self))) ].
End EducationSection.

Module Resume.
Record t := mk {
  header : Header.t;
  skills : option SkillSection.t;
  experience : option ExperienceSection.t;
  projects : option ProjectSection.t;
  education : option EducationSection.t
}.

Definition init (header : Header.t) (skills : option SkillSection.t)
    (experience : option ExperienceSection.t) (projects : option ProjectSection.t)
    (education : option EducationSection.t) : result t :=
  Ok (mk header skills experience projects education).

(** [x.to_dict() if x else None]; a section object is always true. *)
Definition opt_dict {A : Type} (to_dict : A -> pyval) (x : option A) : pyval :=
  match x with Some a => to_dict a | None => VNone end.

Definition to_dict (self : t) : pyval :=
  VDict [ (lit "header", Header.to_dict (header self));
          (lit "skills", opt_dict SkillSection.to_dict (skills self));
          (lit "experience", opt_dict ExperienceSection.to_dict (experience self));
          (lit "projects", opt_dict ProjectSection.to_dict (projects self));
          (lit "education", opt_dict EducationSection.to_dict (education self)) ].

Section FromDict.
Variable rt : Runtime.

(** [Make(d[k]) if d.get(k) else None] *)
Definition optional_field {A : Type} (d : pyval) (k : string)
    (make : pyval -> result A) : result (option A) :=
  present <- py_get d k VNone ;;
  if truthy present
  then v <- py_item d k ;; a <- make v ;; Ok (Some a)
  else Ok None.

Definition make_Email (v : pyval) : result Email.t :=
  s <- regex_arg v ;; Email.init rt s.

Definition make_PhoneNumber (v : pyval) : result PhoneNumber.t :=
  s <- regex_arg v ;; PhoneNumber.init rt s.

Definition make_Website (v : pyval) : result Website.t :=
  s <- regex_arg v ;; Website.init rt s.

Definition make_LinkedIn (v : pyval) : result LinkedIn.t :=
  s <- method_arg v ;; LinkedIn.init rt s.

Definition make_GitHub (v : pyval) : result GitHub.t :=
  s <- method_arg v ;; GitHub.init rt s.

Definition make_Date (v : pyval) : result Date.t :=
  s <- method_arg v ;; Date.init rt s.

(** [BulletPoint(v)]: an empty value of any type is rejected as empty text,
    [len] of a float is a [TypeError]. *)
Definition make_BulletPoint (v : pyval) : result BulletPoint.t :=
  match v with
  | VStr s => BulletPoint.init s
  | _ =>
      if negb (truthy v)
      then Raise (ValueError (lit "Bullet point text cannot be empty."))
      else match v with VFloat _ => Raise TypeError | _ => IllTyped end
  end.

(** [[BulletPoint(bp["text"]) for bp in d.get("description", [])]] *)
Definition from_dict_description (d : pyval) : result (list BulletPoint.t) :=
  description <- py_get d "description" (VList []) ;;
  items <- py_iter description ;;
  map_result (fun bp => text <- py_item bp "text" ;; make_BulletPoint text) items.

Definition from_dict_header (data : pyval) : result Header.t :=
  header_data <- py_get data "header" (VDict []) ;;
  name <- py_get header_data "name" (VDict []) ;;
  email <- optional_field header_data "email" make_Email ;;
  number <- optional_field header_data "number" make_PhoneNumber ;;
  linkedin <- optional_field header_data "linkedin" make_LinkedIn ;;
  portfolio <- optional_field header_data "portfolio" make_Website ;;
  github <- optional_field header_data "github" make_GitHub ;;
  name <- as_str name ;;
  Header.init name email number linkedin portfolio github.

(** An element of [set(...)]: a list or a dict cannot be hashed. *)
Definition set_element (v : pyval) : result pystr :=
  match v with
  | VStr s => Ok s
  | VList _ | VDict _ => Raise TypeError
  | VNone | VFloat _ => IllTyped
  end.

(** [SkillType(st["name"], set(st["skills"]))] *)
Definition from_dict_skill_type (st : pyval) : result SkillType.t :=
  name <- py_item st "name" ;;
  skills <- py_item st "skills" ;;
  elements <- py_iter skills ;;
  elements <- map_result set_element elements ;;
  name <- as_str name ;;
  SkillType.init name (set_order rt elements).

Definition from_dict_skills (data : pyval) : result (option SkillSection.t) :=
  present <- py_get data "skills" VNone ;;
  if truthy present then
    skills <- py_item data "skills" ;;
    skill_types <- py_get skills "skill_types" (VList []) ;;
    items <- py_iter skill_types ;;
    skill_types <- map_result from_dict_skill_type items ;;
    section <- SkillSection.init skill_types ;;
    Ok (Some section)
  else Ok None.

Definition from_dict_experience (exp : pyval) : M Experience.t :=
  position <~ lift (py_item exp "position") ;;
  company <~ lift (py_item exp "company") ;;
  description <~ lift (from_dict_description exp) ;;
  start_date <~ lift (v <- py_item exp "start_date" ;; make_Date v) ;;
  end_date <~ lift (present <- py_get exp "end_date" VNone ;;
                    if truthy present
                    then v <- py_item exp "end_date" ;; make_Date v
                    else Date.init rt (lit "present")) ;;
  position <~ lift (as_str position) ;;
  company <~ lift (as_str company) ;;
  Experience.init rt position company description start_date (Some end_date).

Definition from_dict_experiences (data : pyval) : M (option ExperienceSection.t) :=
  present <~ lift (py_get data "experience" VNone) ;;
  if truthy present then
    experience <~ lift (py_item data "experience") ;;
    experiences <~ lift (py_get experience "experiences" (VList [])) ;;
    items <~ lift (py_iter experiences) ;;
    experiences <~ mapM from_dict_experience items ;;
    section <~ lift (ExperienceSection.init experiences) ;;
    ret (Some section)
  else ret None.

(** A value that the annotations declare to be a [list[str]]. *)
Definition as_str_list (v : pyval) : result (list pystr) :=
  match v with
  | VList items => map_result as_str items
  | _ => IllTyped
  end.

Definition from_dict_project (proj : pyval) : result Project.t :=
  name <- py_item proj "name" ;;
  skills <- py_get proj "skills" (VList []) ;;
  description <- from_dict_description proj ;;
  link <- optional_field proj "link" make_Website ;;
  name <- as_str name ;;
  skills <- as_str_list skills ;;
  Project.init name skills description link.

Definition from_dict_projects (data : pyval) : result (option ProjectSection.t) :=
  present <- py_get data "projects" VNone ;;
  if truthy present then
    projects <- py_item data "projects" ;;
    project_list <- py_get projects "projects" (VList []) ;;
    items <- py_iter project_list ;;
    project_list <- map_result from_dict_project items ;;
    section <- ProjectSection.init project_list ;;
    Ok (Some section)
  else Ok None.

(** A value that the annotations declare to be a [list[str] | None]. *)
Definition as_awards (v : pyval) : result (option (list pystr)) :=
  match v with
  | VNone => Ok None
  | _ => l <- as_str_list v ;; Ok (Some l)
  end.

(** A value that the annotations declare to be a [float | None]. *)
Definition as_gpa (v : pyval) : result (option float) :=
  match v with
  | VNone => Ok None
  | VFloat x => Ok (Some x)
  | _ => IllTyped
  end.

Definition from_dict_education (edu : pyval) : M Education.t :=
  school <~ lift (py_item edu "school") ;;
  degree <~ lift (py_item edu "degree") ;;
  start_date <~ lift (v <- py_item edu "start_date" ;; make_Date v) ;;
  awards <~ lift (py_get edu "awards" VNone) ;;
  gpa <~ lift (py_get edu "gpa" VNone) ;;
  school <~ lift (as_str school) ;;
  degree <~ lift (as_str degree) ;;
  awards <~ lift (as_awards awards) ;;
  gpa <~ lift (as_gpa gpa) ;;
  Education.init rt school degree start_date awards gpa.

Definition from_dict_educations (data : pyval) : M (option EducationSection.t) :=
  present <~ lift (py_get data "education" VNone) ;;
  if truthy present then
    education <~ lift (py_item data "education") ;;
    educations <~ lift (py_get education "educations" (VList [])) ;;
    items <~ lift (py_iter educations) ;;
    educations <~ mapM from_dict_education items ;;
    section <~ lift (EducationSection.init educations) ;;
    ret (Some section)
  else ret None.

Definition from_dict (data : pyval) : M t :=
  header <~ lift (from_dict_header data) ;;
  skills <~ lift (from_dict_skills data) ;;
  experience <~ from_dict_experiences data ;;
  projects <~ lift (from_dict_projects data) ;;
  education <~ from_dict_educations data ;;
  lift (init header skills experience projects education).
End FromDict.
End Resume.

(** ** [models.py]: the aggregates of the flat module

    [Experience] and [Education] call [to_datetime] on their dates, which
    are to be instances of the [Date] of [type_validator.py]; as that class
    makes no instance, only the objects they would store are given here. *)
Module Flat.

Module SkillType.
Record t := mk { name : pystr; skills : list pystr }.

(** The guard reads [self.skills] before the attribute is assigned. *)
Definition init (name : pystr) (skills : list pystr) : result t :=
  Raise AttributeError.
End SkillType.

Module BulletPoint.
Record t := mk { text : pystr }.

Definition init (text : pystr) : result t :=
  if is_empty text then Raise (ValueError (lit "Bullet point text cannot be empty."))
  else if (100 <? List.length text)%nat
  then Raise (ValueError (lit "Bullet point text cannot exceed 100 characters."))
  else Ok (mk text).
End BulletPoint.

Module Experience.
Record t := mk {
  position : pystr;
  company : pystr;
  description : list BulletPoint.t;
  start_date : pystr;
  end_date : pystr
}.
End Experience.

Module ExperienceSection.
Record t := mk { experiences : list Experience.t }.

Definition init (experiences : list Experience.t) : result t :=
  if is_empty experiences
  then Raise (ValueError (lit "Experience section cannot be empty."))
  else Ok (mk experiences).
End ExperienceSection.

Module Project.
Record t := mk {
  name : pystr;
  skills : list pystr;
  description : list BulletPoint.t;
  link : option pystr
}.

Definition init (name : pystr) (skills : list pystr)
    (description : list BulletPoint.t) (link : option pystr) : result t :=
  if is_empty name || is_empty skills
  then Raise (ValueError (lit "Name and skills cannot be empty."))
  else if is_empty description
  then Raise (ValueError (lit "Description cannot be empty."))
  else Ok (mk name skills description link).
End Project.

Module ProjectSection.
Record t := mk { projects : list Project.t }.

Definition init (projects : list Project.t) : result t :=
  if is_empty projects
  then Raise (ValueError (lit "Project section cannot be empty."))
  else Ok (mk projects).
End ProjectSection.

Module Education.
Record t := mk {
  school : pystr;
  degree : pystr;
  start_date : pystr;
  awards : list pystr;
  gpa : option float
}.
End Education.

Module EducationSection.
Record t := mk { educations : list Education.t }.

Definition init (educations : list Education.t) : result t :=
  if is_empty educations
  then Raise (ValueError (lit "Education section cannot be empty."))
  else Ok (mk educations).
End EducationSection.

End Flat.

(** ** [latex/converter.py] *)

Definition NL : pystr := [NEWLINE].

(** The template preamble, line by line. *)
Definition LATEX_PREAMBLE : pystr :=
  join NL (map lit [
    EmptyString;
    "%-------------------------";
    "% Resume in Latex";
    "% Author : Jake Gutierrez  (adapted for programmatic generation)";
    "% Based off of: https://github.com/sb2nov/resume";
    "% License : MIT";
    "%------------------------";
    EmptyString;
    "\documentclass[letterpaper,11pt]{article}";
    EmptyString;
    "\usepackage{latexsym}";
    "\usepackage[empty]{fullpage}";
    "\usepackage{titlesec}";
    "\usepackage{marvosym}";
    "\usepackage[usenames,dvipsnames]{color}";
    "\usepackage{verbatim}";
    "\usepackage{enumitem}";
    "\usepackage[hidelinks]{hyperref}";
    "\usepackage{fancyhdr}";
    "\usepackage[english]{babel}";
    "\usepackage{tabularx}";
    "\usepackage{xcolor}";
    "\usepackage{fontawesome5}";
    EmptyString;
    "\input{glyphtounicode}";
    EmptyString;
    "\definecolor{vibrantblue}{RGB}{0, 102, 204}";
    EmptyString;
    "\pagestyle{fancy}";
    "\fancyhf{}";
    "\fancyfoot{}";
    "\renewcommand{\headrulewidth}{0pt}";
    "\renewcommand{\footrulewidth}{0pt}";
    EmptyString;
    "% Margins (match user's file)";
    "\addtolength{\oddsidemargin}{-0.6in}";
    "\addtolength{\evensidemargin}{-0.6in}";
    "\addtolength{\textwidth}{1.2in}";
    "\addtolength{\topmargin}{-.6in}";
    "\addtolength{\textheight}{1.2in}";
    EmptyString;
    "\urlstyle{same}";
    EmptyString;
    "\raggedbottom";
    "\raggedright";
    "\setlength{\tabcolsep}{0in}";
    EmptyString;
    "% Section formatting";
    "\titleformat{\section}{";
    " \vspace{-8pt}\scshape\raggedright\large";
    "}{}{0em}{}[\color{black}\titlerule \vspace{-3pt}]";
    EmptyString;
    "\pdfgentounicode=1";
    EmptyString;
    "% Custom commands (verbatim)";
    "\newcommand{\resumeItem}[1]{";
    " \item\small{";
    " {#1 \vspace{-2pt}} }";
    "}";
    "\newcommand{\resumeSubheading}[4]{";
    " \vspace{-1pt}\item";
    " \begin{tabular*}{0.97\textwidth}[t]{l@{\extracolsep{\fill}}r}";
    " \textbf{#1} & #2 \\";
    " \textit{\small#3} & \textit{\small #4} \\";
    " \end{tabular*}\vspace{-4pt}";
    "}";
    "\newcommand{\resumeSubSubheading}[2]{";
    " \item";
    " \begin{tabular*}{0.97\textwidth}{l@{\extracolsep{\fill}}r}";
    " \textit{\small#1} & \textit{\small #2} \\";
    " \end{tabular*}\vspace{-4pt}";
    "}";
    "\newcommand{\resumeProjectHeading}[2]{";
    " \item";
    " \begin{tabular*}{0.97\textwidth}{l@{\extracolsep{\fill}}r}";
    " \small#1 & #2 \\";
    " \end{tabular*}\vspace{-4pt}";
    "}";
    "\newcommand{\resumeSubItem}[1]{\resumeItem{#1}\vspace{-4pt}}";
    "\renewcommand\labelitemii{$\vcenter{\hbox{\tiny$\bullet$}}$}";
    "\newcommand{\resumeSubHeadingListStart}{\begin{itemize}[leftmargin=0.15in, label={}, itemsep=-0.25pt, topsep=0pt]}";
    "\newcommand{\resumeSubHeadingListEnd}{\end{itemize}}";
    "\newcommand{\resumeItemListStart}{\begin{itemize}[itemsep=-0.25pt, topsep=0pt]}";
    "\newcommand{\resumeItemListEnd}{\end{itemize}\vspace{-3pt}}";
    EmptyString;
    "\begin{document}";
    EmptyString ]%string).

Definition LATEX_END : pystr := lit "\end{document}".

Definition ord (a : ascii) : char := N_of_ascii a.

Definition _LATEX_SPECIALS : list (char * pystr) :=
  [ (ord "&", lit "\&");
    (ord "%", lit "\%");
    (ord "$", lit "\$");
    (ord "#", lit "\#");
    (ord "_", lit "\_");
    (ord "{", lit "\{");
    (ord "}", lit "\}");
    (ord "~", lit "\textasciitilde{}");
    (ord "^", lit "\textasciicircum{}");
    (ord "\", lit "\textbackslash{}") ].

(** [_LATEX_SPECIALS.get(ch, ch)] *)
Fixpoint specials_get (table : list (char * pystr)) (ch : char) : pystr :=
  match table with
  | [] => [ch]
  | (k, v) :: rest => if k =? ch then v else specials_get rest ch
  end.

(** Escape LaTeX specials in plain text.  The loop appends one replacement
    per character to [out], which is joined at the end. *)
Definition esc (text : option pystr) : pystr :=
  match text with
  | None => []
  | Some s =>
      concat (fold_left (fun out ch => out ++ [specials_get _LATEX_SPECIALS ch]) s [])
  end.

(** What a caller passes as [url]: nothing, a string, or a [Website] object
    taken from the model as it is. *)
Inductive link_arg :=
| NoLink
| LinkStr (url : pystr)
| LinkObject (w : Website.t).

(** [href(url, label, blue)].  An object is true, and adding it to a string
    is a [TypeError]. *)
Definition href (url : link_arg) (label : pystr) (blue : bool) : result pystr :=
  match url with
  | NoLink => Ok (esc (Some label))
  | LinkStr u =>
      if is_empty u then Ok (esc (Some label))
      else if blue
      then Ok (lit "\href{" ++ u ++ lit "}{\textcolor{vibrantblue}{" ++ esc (Some label) ++ lit "}}")
      else Ok (lit "\href{" ++ u ++ lit "}{" ++ esc (Some label) ++ lit "}")
  | LinkObject _ => Raise TypeError
  end.

Definition fa_mapping : list (pystr * pystr) :=
  [ (lit "Train", lit "\faTrain");
    (lit "Heartbeat", lit "\faHeartbeat");
    (lit "Trophy", lit "\faTrophy");
    (lit "Dragon", lit "\faDragon");
    (lit "Plus", lit "\faPlus");
    (lit "GraduationCap", lit "\faGraduationCap");
    (lit "ShareSquare", lit "\faShareSquare");
    (lit "Github", lit "\faGithub");
    (lit "Linkedin", lit "\faLinkedin");
    (lit "Globe", lit "\faGlobe");
    (lit "Envelope", lit "\faEnvelope");
    (lit "Phone", lit "\faPhone") ].

Fixpoint mapping_get (mapping : list (pystr * pystr)) (k default : pystr) : pystr :=
  match mapping with
  | [] => default
  | (k', v) :: rest => if str_eqb k' k then v else mapping_get rest k default
  end.

Definition fa (icon_name : option pystr) : pystr :=
  match icon_name with
  | None => []
  | Some n => if is_empty n then [] else mapping_get fa_mapping n []
  end.

Definition blue_icon (icon_name : option pystr) : pystr :=
  let cmd := fa icon_name in
  if is_empty cmd then []
  else lit "{\textcolor{vibrantblue}" ++ cmd ++ lit "\hspace{0.5mm}} ".

Section Converter.
Variable rt : Runtime.

Definition maybe_icon_from_role (role : pystr) : option pystr :=
  let s := lower rt role in
  if contains s (lit "test") || contains s (lit "automation") then Some (lit "Train")
  else if contains s (lit "emg") || contains s (lit "sensor") || contains s (lit "bio")
  then Some (lit "Heartbeat")
  else if contains s (lit "hackathon") || contains s (lit "founder") || contains s (lit "lead")
  then Some (lit "Trophy")
  else if contains s (lit "karate") || contains s (lit "martial") then Some (lit "Dragon")
  else if contains s (lit "teacher") || contains s (lit "tutor") || contains s (lit "assistant")
  then Some (lit "Plus")
  else None.

(** One entry of the contact line: the icon, a line break and the link. *)
Definition contact_chunk (icon : string) (link : pystr) : pystr :=
  lit "    {\textcolor{vibrantblue}" ++ lit icon ++ lit " \hspace{0.5mm}}" ++
  NL ++ lit "    " ++ link.

Definition opt_list {A : Type} (x : option A) : list A :=
  match x with Some a => [a] | None => [] end.

Definition build_header (h : Header.t) : result pystr :=
  email <- match Header.email h with
           | Some e =>
               let email := Email.str e in
               l <- href (LinkStr (lit "mailto:" ++ email)) email true ;;
               Ok (Some (contact_chunk "\faEnvelope" l))
           | None => Ok None
           end ;;
  number <- match Header.number h with
            | Some n =>
                let digits := PhoneNumber.str n in
                let tel_url :=
                  lit "tel:" ++ filter (fun ch => isdigit rt ch || (ch =? ord "+")) digits in
                l <- href (LinkStr tel_url) digits true ;;
                Ok (Some (contact_chunk "\faPhone" l))
            | None => Ok None
            end ;;
  linkedin <- match Header.linkedin h with
              | Some w =>
                  l <- href (LinkStr (Website.str w)) (lit "Linkedin") true ;;
                  Ok (Some (contact_chunk "\faLinkedin" l))
              | None => Ok None
              end ;;
  portfolio <- match Header.portfolio h with
               | Some w =>
                   l <- href (LinkStr (Website.str w)) (lit "Website") true ;;
                   Ok (Some (contact_chunk "\faGlobe" l))
               | None => Ok None
               end ;;
  github <- match Header.github h with
            | Some w =>
                l <- href (LinkStr (Website.str w)) (lit "GitHub") true ;;
                Ok (Some (contact_chunk "\faGithub" l))
            | None => Ok None
            end ;;
  let contact_chunks :=
    opt_list email ++ opt_list number ++ opt_list linkedin ++
    opt_list portfolio ++ opt_list github in
  Ok (join NL
        [ lit "\begin{center}";
          lit "    \textbf{\Huge \scshape " ++ esc (Some (Header.name h)) ++
            lit "} \\ \vspace{4pt}";
          lit "    \small ";
          join (lit " " ++ NL ++ lit "    $|$ " ++ NL ++ lit "    ") contact_chunks;
          lit "\end{center}";
          [] ]).

Definition skill_line (st : SkillType.t) : pystr :=
  lit "     \textbf{" ++ esc (Some (SkillType.name st)) ++ lit "}{: " ++
  esc (Some (join (lit ", ") (SkillType.skills st))) ++ lit "} \\".

Definition build_skills (skills : option SkillSection.t) : pystr :=
  match skills with
  | None => []
  | Some sec =>
      if is_empty (SkillSection.skill_types sec) then []
      else
        join NL
          [ lit "\section{Skills}";
            lit " \begin{itemize}[leftmargin=0.15in, label={}]";
            lit "    \small{\item{";
            join NL (map skill_line (SkillSection.skill_types sec));
            lit "    }}";
            lit " ";
            lit " \end{itemize}";
            [] ]
  end.

(** The item list under an entry; nothing when there is no bullet. *)
Definition bullet_lines (indent : string) (bullets : list BulletPoint.t) : list pystr :=
  if is_empty bullets then []
  else
    [ lit indent ++ lit "\resumeItemListStart" ] ++
    map (fun bp => lit indent ++ lit "  \resumeItem{" ++
                   esc (Some (BulletPoint.text bp)) ++ lit "}") bullets ++
    [ lit indent ++ lit "\resumeItemListEnd" ].

Definition experience_lines (e : Experience.t) : result (list pystr) :=
  let position := Experience.position e in
  let company := Experience.company e in
  let start := Date.str (Experience.start_date e) in
  let end_ := Date.str (Experience.end_date e) in
  let icon := maybe_icon_from_role position in
  let icon_prefix := blue_icon icon in
  role <- href NoLink position true ;;
  let role_label := lit "\textbf{" ++ role ++ lit "}" in
  let left_top := icon_prefix ++ role_label in
  let right_top := strip rt (esc (Some start) ++ lit " -- " ++ esc (Some end_)) in
  left_bottom <- href NoLink company false ;;
  let right_bottom := esc (Some []) in
  Ok ([ lit "\resumeSubheading{" ++ left_top ++ lit "}{" ++ right_top ++ lit "}{" ++
        left_bottom ++ lit "}{" ++ right_bottom ++ lit "}" ] ++
      bullet_lines "      " (Experience.description e)).

Definition build_experience (exp : option ExperienceSection.t) : result pystr :=
  match exp with
  | None => Ok []
  | Some sec =>
      if is_empty (ExperienceSection.experiences sec) then Ok []
      else
        entries <- map_result experience_lines (ExperienceSection.experiences sec) ;;
        Ok (join NL
              ([ lit "\section{Experience}"; []; lit "\resumeSubHeadingListStart" ] ++
               concat entries ++
               [ lit "\resumeSubHeadingListEnd"; [] ]))
  end.

Definition project_lines (p : Project.t) : result (list pystr) :=
  let name := Project.name p in
  let link := match Project.link p with Some w => LinkObject w | None => NoLink end in
  let skills := join (lit ", ") (Project.skills p) in
  let icon := lit "ShareSquare" in
  label <- href link name true ;;
  let left :=
    lit "{\textcolor{vibrantblue}" ++ fa (Some icon) ++ lit " \hspace{0.5mm} \textbf{" ++
    label ++ lit "}} $|$ \emph{\textbf{" ++ esc (Some skills) ++ lit "}}" in
  Ok ([ lit "      \resumeSubHeadingListStart";
        lit "\resumeProjectHeading{" ++ left ++ lit "}{}" ] ++
      bullet_lines "          " (Project.description p) ++
      [ lit "    \resumeSubHeadingListEnd"; [] ]).

Definition build_projects (proj_sec : option ProjectSection.t) : result pystr :=
  match proj_sec with
  | None => Ok []
  | Some sec =>
      if is_empty (ProjectSection.projects sec) then Ok []
      else
        entries <- map_result project_lines (ProjectSection.projects sec) ;;
        Ok (join NL ([ lit "\section{Projects}"; [] ] ++ concat entries))
  end.

(** [f"{gpa} GPA" if "GPA" not in str(gpa) else str(gpa)] *)
Definition gpa_text (gpa : float) : pystr :=
  let s := float_repr rt gpa in
  if negb (contains s (lit "GPA")) then s ++ lit " GPA" else s.

Definition education_line (edu : Education.t) : result pystr :=
  let school := Education.school edu in
  let when := esc (Some (Date.str (Education.start_date edu))) in
  let degree := Education.degree edu in
  let awards := Education.awards edu in
  let tail_bits :=
    (if is_empty degree then [] else [degree]) ++
    (if is_empty awards then [] else [join (lit ", ") awards]) ++
    (match Education.gpa edu with Some g => [gpa_text g] | None => [] end) in
  let third := join (lit ", ") (filter (fun t => negb (is_empty t)) tail_bits) in
  label <- href NoLink school true ;;
  let left_top :=
    lit "{\textcolor{vibrantblue}\faGraduationCap\hspace{0.5mm} \textbf{" ++ label ++ lit "}}" in
  Ok (lit "\resumeSubheading{" ++ left_top ++ lit "}{" ++ when ++ lit "}{" ++
      esc (Some third) ++ lit "}{" ++ esc (Some []) ++ lit "}").

Definition build_education (edu_sec : option EducationSection.t) : result pystr :=
  match edu_sec with
  | None => Ok []
  | Some sec =>
      if is_empty (EducationSection.educations sec) then Ok []
      else
        entries <- map_result education_line (EducationSection.educations sec) ;;
        Ok (join NL
              ([ lit "%-----------EDUCATION-----------";
                 lit "\section{Education}";
                 lit "  \resumeSubHeadingListStart" ] ++
               entries ++
               [ lit "  \resumeSubHeadingListEnd"; [] ]))
  end.

(** The list [parts] of [resume_to_latex] once every builder has run. *)
Definition resume_parts (resume : Resume.t) : result (list pystr) :=
  header <- build_header (Resume.header resume) ;;
  let skills := build_skills (Resume.skills resume) in
  experience <- build_experience (Resume.experience resume) ;;
  projects <- build_projects (Resume.projects resume) ;;
  education <- build_education (Resume.education resume) ;;
  Ok [ LATEX_PREAMBLE; header; skills; experience; projects; education; LATEX_END ].

(** [[p for p in parts if p]] *)
Definition drop_empties (parts : list pystr) : list pystr :=
  filter (fun p => negb (is_empty p)) parts.

Definition resume_to_latex (resume : Resume.t) : result pystr :=
  parts <- resume_parts resume ;;
  Ok (join NL (drop_empties parts)).

(** [load_json_and_generate_latex], from the parsed file on. *)
Definition load_json_and_generate_latex (data : pyval) : M pystr :=
  resume <~ Resume.from_dict rt data ;;
  lift (resume_to_latex resume).
End Converter.

(** ** [user_interface/ui.py]: what the form holds and what it builds

    The widgets are left out: a text variable is the string it holds, a
    list box selection the indices it returns, and an error dialog is not
    shown. *)
Module UI.

(** [max(0, min(len(items) - 1, idx + delta))] *)
Definition new_index (len idx : nat) (delta : Z) : nat :=
  Z.to_nat (Z.max 0 (Z.min (Z.of_nat len - 1) (Z.of_nat idx + delta))).

(** [items[i] = v] for an index in range. *)
Fixpoint assign {A : Type} (items : list A) (i : nat) (v : A) : list A :=
  match items, i with
  | [], _ => []
  | _ :: rest, O => v :: rest
  | x :: rest, S i' => x :: assign rest i' v
  end.

(** What a move leaves: the list and the selection untouched, the list with
    two entries exchanged and the new selection, or an [IndexError]. *)
Inductive moved (A : Type) :=
| Unmoved
| Moved (items : list A) (selection : nat)
| MoveIndexError.

Arguments Unmoved {A}.
Arguments Moved {A} items selection.
Arguments MoveIndexError {A}.

(** [BulletsEditor.move], [AwardsEditor.move], [_move_item] and
    [_move_section]: the first selected entry goes [delta] places down. *)
Definition move {A : Type} (items : list A) (sel : list nat) (delta : Z) : moved A :=
  match sel with
  | [] => Unmoved
  | idx :: _ =>
      let new_idx := new_index (List.length items) idx delta in
      if (new_idx =? idx)%nat then Unmoved
      else
        match nth_error items new_idx, nth_error items idx with
        | Some at_new, Some at_idx =>
            Moved (assign (assign items idx at_new) new_idx at_idx) new_idx
        | _, _ => MoveIndexError
        end
  end.

(** [items.pop(idx)] for an index that is not negative: [None] is the
    [IndexError] of an index out of range. *)
Fixpoint pop {A : Type} (items : list A) (idx : nat) : option (list A) :=
  match items, idx with
  | [], _ => None
  | _ :: rest, O => Some rest
  | x :: rest, S idx' =>
      match pop rest idx' with
      | Some rest' => Some (x :: rest')
      | None => None
      end
  end.

(** [for idx in idxs: items.pop(idx)] *)
Fixpoint pop_each {A : Type} (items : list A) (idxs : list nat) : option (list A) :=
  match idxs with
  | [] => Some items
  | idx :: more =>
      match pop items idx with
      | Some items' => pop_each items' more
      | None => None
      end
  end.

(** [BulletsEditor.delete_selected] and [AwardsEditor.delete_selected]: the
    selected entries are popped from the last one to the first. *)
Definition delete_selected {A : Type} (items : list A) (sel : list nat) : option (list A) :=
  match sel with
  | [] => Some items
  | _ => pop_each items (rev sel)
  end.

(** [BulletsEditor.add_bullet]: the list of bullets after the button. *)
Definition add_bullet (rt : Runtime) (max_len : nat) (bullets : list pystr)
    (new_var : pystr) : list pystr :=
  let text := strip rt new_var in
  if is_empty text then bullets
  else if (max_len <? List.length text)%nat then bullets
  else bullets ++ [text].

(** The entries of the form: the dicts that the dialogs and [on_load] build. *)
Module SkillEntry.
Record t := mk { name : pystr; skills : list pystr; include : bool }.
End SkillEntry.

Module ExperienceEntry.
Record t := mk {
  position : pystr;
  company : pystr;
  start_date : pystr;
  end_date : pystr;
  description : list pystr;
  include : bool
}.
End ExperienceEntry.

Module ProjectEntry.
Record t := mk {
  name : pystr;
  skills : list pystr;
  link : option pystr;
  description : list pystr;
  include : bool
}.
End ProjectEntry.

Module EducationEntry.
Record t := mk {
  school : pystr;
  degree : pystr;
  start_date : pystr;
  gpa : option float;
  awards : list pystr;
  include : bool
}.
End EducationEntry.

(** [s.split(sep)] for a separator of one character. *)
Fixpoint split (sep : char) (s : pystr) : list pystr :=
  match s with
  | [] => [[]]
  | c :: s' =>
      if c =? sep then [] :: split sep s'
      else match split sep s' with
           | p :: ps => (c :: p) :: ps
           | [] => [[c]]
           end
  end.

Definition COMMA : char := 44.

(** [[s.strip() for s in text.split(",") if s.strip()]] *)
Definition parse_skills (rt : Runtime) (text : pystr) : list pystr :=
  map (strip rt) (filter (fun s => negb (is_empty (strip rt s))) (split COMMA text)).

(** [SkillTypeDialog]: the name and the skills line that the dialog shows for
    the entry it is opened on, and the entry that [_save] makes of the two
    fields, if it makes one. *)
Module SkillTypeDialog.
Definition init (initial : option SkillEntry.t) : pystr * pystr :=
  match initial with
  | Some entry => (SkillEntry.name entry, join (lit ", ") (SkillEntry.skills entry))
  | None => ([], join (lit ", ") [])
  end.

Definition _save (rt : Runtime) (name_var skills_var : pystr) : option SkillEntry.t :=
  let name := strip rt name_var in
  let skills := parse_skills rt skills_var in
  if is_empty name then None
  else if is_empty skills then None
  else Some (SkillEntry.mk name skills true).
End SkillTypeDialog.

(** [edit_skilltype]: the entries after the dialog was opened on the
    selected one and closed, by Save with the two [fields] or by Cancel.  A
    saved entry keeps the [include] flag it had; [None] is the [IndexError]
    of a selection out of range. *)
Definition edit_skilltype (rt : Runtime) (skill_types : list SkillEntry.t)
    (sel : list nat) (fields : option (pystr * pystr)) : option (list SkillEntry.t) :=
  match sel with
  | [] => Some skill_types
  | idx :: _ =>
      match nth_error skill_types idx with
      | None => None
      | Some initial =>
          match fields with
          | Some (name_var, skills_var) =>
              match SkillTypeDialog._save rt name_var skills_var with
              | Some result =>
                  Some (assign skill_types idx
                          (SkillEntry.mk (SkillEntry.name result) (SkillEntry.skills result)
                             (SkillEntry.include initial)))
              | None => Some skill_types
              end
          | None => Some skill_types
          end
      end
  end.

(** The state of [ResumeMakerApp] that [_build_resume_object] reads. *)
Record form := {
  name_var : pystr;
  email_var : pystr;
  phone_var : pystr;
  linkedin_var : pystr;
  portfolio_var : pystr;
  github_var : pystr;
  skill_types : list SkillEntry.t;
  experiences : list ExperienceEntry.t;
  projects : list ProjectEntry.t;
  educations : list EducationEntry.t
}.

Section Build.
Variable rt : Runtime.

(** [Make(var.get().strip()) if var.get().strip() else None] *)
Definition header_field {A : Type} (var : pystr) (make : pystr -> result A) :
    result (option A) :=
  if negb (is_empty (strip rt var))
  then a <- make (strip rt var) ;; Ok (Some a)
  else Ok None.

(** [Section(entries) if entries else None] *)
Definition section_of {A B : Type} (init : list A -> result B) (entries : list A) :
    result (option B) :=
  if negb (is_empty entries) then s <- init entries ;; Ok (Some s) else Ok None.

Definition build_skill_type (st : SkillEntry.t) : result SkillType.t :=
  SkillType.init (SkillEntry.name st) (set_order rt (SkillEntry.skills st)).

Definition build_experience (e : ExperienceEntry.t) : M Experience.t :=
  desc <~ lift (map_result BulletPoint.init (ExperienceEntry.description e)) ;;
  start <~ lift (Date.init rt (ExperienceEntry.start_date e)) ;;
  end_ <~ lift (if negb (is_empty (ExperienceEntry.end_date e))
                then Date.init rt (ExperienceEntry.end_date e)
                else Date.init rt (lit "present")) ;;
  Experience.init rt (ExperienceEntry.position e) (ExperienceEntry.company e)
    desc start (Some end_).

Definition build_project (p : ProjectEntry.t) : result Project.t :=
  desc <- map_result BulletPoint.init (ProjectEntry.description p) ;;
  link <- match ProjectEntry.link p with
          | Some l => if negb (is_empty l)
                      then w <- Website.init rt l ;; Ok (Some w)
                      else Ok None
          | None => Ok None
          end ;;
  Project.init (ProjectEntry.name p) (ProjectEntry.skills p) desc link.

Definition build_education (ed : EducationEntry.t) : M Education.t :=
  start <~ lift (Date.init rt (EducationEntry.start_date ed)) ;;
  Education.init rt (EducationEntry.school ed) (EducationEntry.degree ed) start
    (Some (EducationEntry.awards ed)) (EducationEntry.gpa ed).

(** The body of the [try] of [_build_resume_object]. *)
Definition build_resume (f : form) : M Resume.t :=
  let name := strip rt (name_var f) in
  if is_empty name then throw (ValueError (lit "Name is required."))
  else
    header <~ lift (email <- header_field (email_var f) (Email.init rt) ;;
                    number <- header_field (phone_var f) (PhoneNumber.init rt) ;;
                    linkedin <- header_field (linkedin_var f) (LinkedIn.init rt) ;;
                    portfolio <- header_field (portfolio_var f) (Website.init rt) ;;
                    github <- header_field (github_var f) (GitHub.init rt) ;;
                    Header.init name email number linkedin portfolio github) ;;
    included_skilltypes <~
      lift (map_result build_skill_type (filter SkillEntry.include (skill_types f))) ;;
    skills_sec <~ lift (section_of SkillSection.init included_skilltypes) ;;
    included_exps <~ mapM build_experience (filter ExperienceEntry.include (experiences f)) ;;
    exp_sec <~ lift (section_of ExperienceSection.init included_exps) ;;
    included_projs <~
      lift (map_result build_project (filter ProjectEntry.include (projects f))) ;;
    proj_sec <~ lift (section_of ProjectSection.init included_projs) ;;
    included_edu <~ mapM build_education (filter EducationEntry.include (educations f)) ;;
    edu_sec <~ lift (section_of EducationSection.init included_edu) ;;
    lift (Resume.init header skills_sec exp_sec proj_sec edu_sec).

(** [_build_resume_object]: the document, or [None] after any exception. *)
Definition _build_resume_object (f : form) (clk : clock) (i : nat) :
    result (option Resume.t) :=
  match build_resume f clk i with
  | Ok (resume, _) => Ok (Some resume)
  | Raise _ => Ok None
  | IllTyped => IllTyped
  end.
End Build.

(** [str(x) if x else ""] *)
Definition opt_text {A : Type} (str : A -> pystr) (x : option A) : pystr :=
  match x with Some a => str a | None => [] end.

(** The form as [on_load] fills it from a loaded document: every entry is
    included. *)
Definition populate (resume : Resume.t) : form :=
  let header := Resume.header resume in
  {| name_var := Header.name header;
     email_var := opt_text Email.str (Header.email header);
     phone_var := opt_text PhoneNumber.str (Header.number header);
     linkedin_var := opt_text Website.str (Header.linkedin header);
     portfolio_var := opt_text Website.str (Header.portfolio header);
     github_var := opt_text Website.str (Header.github header);
     skill_types :=
       match Resume.skills resume with
       | Some sec =>
           map (fun st => SkillEntry.mk (SkillType.name st) (SkillType.skills st) true)
               (SkillSection.skill_types sec)
       | None => []
       end;
     experiences :=
       match Resume.experience resume with
       | Some sec =>
           map (fun exp =>
                  ExperienceEntry.mk (Experience.position exp) (Experience.company exp)
                    (Date.str (Experience.start_date exp))
                    (Date.str (Experience.end_date exp))
                    (map BulletPoint.text (Experience.description exp)) true)
               (ExperienceSection.experiences sec)
       | None => []
       end;
     projects :=
       match Resume.projects resume with
       | Some sec =>
           map (fun p =>
                  ProjectEntry.mk (Project.name p) (Project.skills p)
                    (match Project.link p with
                     | Some w => Some (Website.str w)
                     | None => None
                     end)
                    (map BulletPoint.text (Project.description p)) true)
               (ProjectSection.projects sec)
       | None => []
       end;
     educations :=
       match Resume.education resume with
       | Some sec =>
           map (fun ed =>
                  EducationEntry.mk (Education.school ed) (Education.degree ed)
                    (Date.str (Education.start_date ed)) (Education.gpa ed)
                    (Education.awards ed) true)
               (EducationSection.educations sec)
       | None => []
       end |}.

(** [on_load], from the parsed file on: the form is filled from the
    document, or left as it is after any exception. *)
Definition on_load (rt : Runtime) (f : form) (data : pyval) (clk : clock) (i : nat) :
    result form :=
  match Resume.from_dict rt data clk i with
  | Ok (resume, _) => Ok (populate resume)
  | Raise _ => Ok f
  | IllTyped => IllTyped
  end.
End UI.

(** ** Vocabulary of the properties *)

(** *** The language of a pattern *)

Inductive lang : regex -> pystr -> Prop :=
| lang_Eps : lang Eps []
| lang_Sym (p : char -> bool) (c : char) : p c = true -> lang (Sym p) [c]
| lang_Cat (r s : regex) (u v : pystr) :
    lang r u -> lang s v -> lang (Cat r s) (u ++ v)
| lang_Alt_l (r s : regex) (u : pystr) : lang r u -> lang (Alt r s) u
| lang_Alt_r (r s : regex) (u : pystr) : lang s u -> lang (Alt r s) u
| lang_Star_nil (r : regex) : lang (Star r) []
| lang_Star_app (r : regex) (u v : pystr) :
    lang r u -> lang (Star r) v -> lang (Star r) (u ++ v).

(** *** Validated objects

    An object is validated when its constructor, applied to the fields it
    holds, returns it. *)
Section Validated.
Variable rt : Runtime.
Variable clk : clock.

Definition valid_opt {A : Type} (P : A -> Prop) (x : option A) : Prop :=
  match x with Some a => P a | None => True end.

Definition valid_Email (e : Email.t) : Prop :=
  Email.init rt (Email.value e) = Ok e.

Definition valid_PhoneNumber (n : PhoneNumber.t) : Prop :=
  PhoneNumber.init rt (PhoneNumber.value n) = Ok n.

Definition valid_Website (w : Website.t) : Prop :=
  Website.init rt (Website.value w) = Ok w.

Definition valid_LinkedIn (w : LinkedIn.t) : Prop :=
  LinkedIn.init rt (Website.value w) = Ok w.

Definition valid_GitHub (w : GitHub.t) : Prop :=
  GitHub.init rt (Website.value w) = Ok w.

Definition valid_Date (d : Date.t) : Prop :=
  Date.init rt (Date.value d) = Ok d.

Definition valid_BulletPoint (b : BulletPoint.t) : Prop :=
  BulletPoint.init (BulletPoint.text b) = Ok b.

Definition valid_Header (h : Header.t) : Prop :=
  valid_opt valid_Email (Header.email h) /\
  valid_opt valid_PhoneNumber (Header.number h) /\
  valid_opt valid_LinkedIn (Header.linkedin h) /\
  valid_opt valid_Website (Header.portfolio h) /\
  valid_opt valid_GitHub (Header.github h).

Definition valid_SkillType (st : SkillType.t) : Prop :=
  SkillType.init (SkillType.name st) (SkillType.skills st) = Ok st.

Definition valid_Experience (e : Experience.t) : Prop :=
  Forall valid_BulletPoint (Experience.description e) /\
  valid_Date (Experience.start_date e) /\
  valid_Date (Experience.end_date e) /\
  exists i,
    value_of (Experience.init rt (Experience.position e) (Experience.company e)
                (Experience.description e) (Experience.start_date e)
                (Some (Experience.end_date e)) clk i) = Ok e.

Definition valid_Project (p : Project.t) : Prop :=
  Forall valid_BulletPoint (Project.description p) /\
  valid_opt valid_Website (Project.link p) /\
  Project.init (Project.name p) (Project.skills p) (Project.description p)
    (Project.link p) = Ok p.

Definition valid_Education (ed : Education.t) : Prop :=
  valid_Date (Education.start_date ed) /\
  exists i,
    value_of (Education.init rt (Education.school ed) (Education.degree ed)
                (Education.start_date ed) (Some (Education.awards ed))
                (Education.gpa ed) clk i) = Ok ed.

Definition valid_Resume (d : Resume.t) : Prop :=
  valid_Header (Resume.header d) /\
  valid_opt (fun s => Forall valid_SkillType (SkillSection.skill_types s)) (Resume.skills d) /\
  valid_opt (fun s => Forall valid_Experience (ExperienceSection.experiences s))
    (Resume.experience d) /\
  valid_opt (fun s => Forall valid_Project (ProjectSection.projects s)) (Resume.projects d) /\
  valid_opt (fun s => Forall valid_Education (EducationSection.educations s))
    (Resume.education d).
End Validated.

(** [set(l)] holds the elements of [l], whatever order it iterates in. *)
Definition set_order_sound (rt : Runtime) : Prop :=
  forall l x, In x (set_order rt l) <-> In x l.


(** Every reading of [later] is no earlier than any reading of [earlier]. *)
Definition clock_after (earlier later : clock) : Prop :=
  forall a b, dt_compare (earlier a) (later b) <> Gt.

(** No experience and no education starts at ["present"]. *)
Definition starts_dated (d : Resume.t) : Prop :=
  valid_opt (fun s => Forall (fun e => Date.value (Experience.start_date e) <> Date.PRESENT)
                        (ExperienceSection.experiences s)) (Resume.experience d) /\
  valid_opt (fun s => Forall (fun e => Date.value (Education.start_date e) <> Date.PRESENT)
                        (EducationSection.educations s)) (Resume.education d).

(** Two skill groups with the same name and the same set of skill names. *)
Definition same_skill_set (a b : SkillType.t) : Prop :=
  SkillType.name a = SkillType.name b /\
  forall x, In x (SkillType.skills a) <-> In x (SkillType.skills b).

Definition same_skills (a b : option SkillSection.t) : Prop :=
  match a, b with
  | Some s1, Some s2 =>
      Forall2 same_skill_set (SkillSection.skill_types s1) (SkillSection.skill_types s2)
  | None, None => True
  | _, _ => False
  end.

(** The fields of two documents agree: every validator object and date by its
    string, every list element by element, a skill set as a set. *)
Definition same_fields (d d' : Resume.t) : Prop :=
  Resume.header d = Resume.header d' /\
  same_skills (Resume.skills d) (Resume.skills d') /\
  Resume.experience d = Resume.experience d' /\
  Resume.projects d = Resume.projects d' /\
  Resume.education d = Resume.education d'.



(** The moment a date stands for in a call that starts at reading [i] of the
    clock: the parsed date, or for ["present"] one of the readings the call
    takes. *)
Definition reading_of (clk : clock) (i : nat) (t : datetime) : Prop :=
  exists j, (i <= j < i + 4)%nat /\ t = clk j.

Definition moment_of (rt : Runtime) (clk : clock) (i : nat) (d : Date.t)
    (t : datetime) : Prop :=
  if str_eqb (Date.value d) Date.PRESENT then reading_of clk i t
  else strptime rt (Date.value d) = Ok t.

(** A call that returns [a] or raises a [ValueError]. *)
Definition returns_or_rejects {A : Type} (r : result A) (a : A) : Prop :=
  r = Ok a \/ exists msg, r = Raise (ValueError msg).

(** *** An interpreter and documents to evaluate examples with

    No character beyond ASCII is in any class, a set iterates in the order
    given, and no example formats a float. *)
Definition insertion_order (l : list pystr) : list pystr :=
  nodup (list_eq_dec N.eq_dec) l.

Definition example_runtime (order : list pystr -> list pystr) : Runtime :=
  {| uni_decimal := fun _ => None;
     uni_isdigit := fun _ => false;
     uni_word := fun _ => false;
     uni_space := fun _ => false;
     uni_lower := fun s => s;
     set_order := order;
     float_repr := fun _ => [] |}.

Definition rt_example : Runtime := example_runtime insertion_order.

(** A clock that stands still at the given day. *)
Definition clock_at (y m d : N) : clock := fun _ => mkdt y m d 43200000000.

(** *** Escaped text *)

Definition BACKSLASH : char := ord "\".

(** What [esc] writes for one character. *)
Definition esc_char (c : char) : pystr := specials_get _LATEX_SPECIALS c.

Definition special_chars : list char := map fst _LATEX_SPECIALS.

(** [a] immediately followed by [b] somewhere in [l]. *)
Fixpoint has_pair (a b : char) (l : pystr) : bool :=
  match l with
  | x :: ((y :: _) as t) => ((x =? a) && (y =? b)) || has_pair a b t
  | _ => false
  end.

(** *** Phone numbers *)

(** Exactly ten characters of the class [\d]. *)
Definition ten_digits (rt : Runtime) (s : pystr) : bool :=
  (List.length s =? 10)%nat && forallb (re_d rt) s.

(** *** Dates *)

(** The end date an experience stores. *)
Definition stored_end (end_date : option Date.t) : Date.t :=
  match end_date with Some e => e | None => Date.mk Date.PRESENT end.

Definition DATE_ORDER_MESSAGE : pystr :=
  lit "Start date cannot be after end date or present time.".

(** A clock that moves on by a microsecond from one reading to the next. *)
Definition ticking (y m d : N) : clock :=
  fun i => mkdt y m d (43200000000 + N.of_nat i).

(** *** Sample documents *)

(** The document of [tests/test_models.py]. *)
Definition sample_header : Header.t :=
  Header.mk (lit "Alice Example")
    (Some (Email.mk (lit "alice@example.com")))
    (Some (PhoneNumber.mk (lit "1234567890")))
    (Some (Website.mk (lit "https://www.linkedin.com/in/fake-user-alice/")))
    (Some (Website.mk (lit "https://portfolio.com")))
    (Some (Website.mk (lit "https://github.com/fake-user-alice/"))).

Definition sample_experience : Experience.t :=
  Experience.mk (lit "Developer") (lit "Tech Co")
    [BulletPoint.mk (lit "Built cool stuff")]
    (Date.mk (lit "01-01-2022")) (Date.mk (lit "01-01-2023")).

Definition sample_resume : Resume.t :=
  Resume.mk sample_header
    (Some (SkillSection.mk
             [ SkillType.mk (lit "Programming") [lit "Python"; lit "C++"];
               SkillType.mk (lit "Web") [lit "HTML"; lit "CSS"] ]))
    (Some (ExperienceSection.mk [sample_experience]))
    (Some (ProjectSection.mk
             [ Project.mk (lit "Portfolio Site") [lit "React"; lit "Tailwind"]
                 [BulletPoint.mk (lit "Built personal portfolio")]
                 (Some (Website.mk (lit "https://example.com"))) ]))
    (Some (EducationSection.mk
             [ Education.mk (lit "University X") (lit "BSc CS")
                 (Date.mk (lit "01-09-2019"))
                 [lit "Dean" ++ [8217] ++ lit "s List"]
                 (Some 0x1.f333333333333p+1%float) ])).

(** A document whose one experience starts at ["present"] and ends in 2030. *)
Definition open_ended_resume : Resume.t :=
  Resume.mk (Header.mk (lit "A") None None None None None) None
    (Some (ExperienceSection.mk
             [ Experience.mk (lit "Dev") (lit "Co") [BulletPoint.mk (lit "Did X")]
                 (Date.mk Date.PRESENT) (Date.mk (lit "01-01-2030")) ]))
    None None.

(** Two documents that differ in the order one skill set iterates in. *)
Definition skills_resume (skills : list pystr) : Resume.t :=
  Resume.mk (Header.mk (lit "A") None None None None None)
    (Some (SkillSection.mk [SkillType.mk (lit "Lang") skills]))
    None None None.

(** A document without a skills block whose portfolio address ends in the
    text of the skills heading. *)
Definition heading_link_resume : Resume.t :=
  Resume.mk (Header.mk (lit "A") None None None
               (Some (Website.mk (lit "https://a.b/\section{Skills}"))) None)
    None None None None.



(** *** Occurrences of a section heading *)

Inductive block := SkillsBlock | ExperienceBlock | ProjectsBlock | EducationBlock.

(** The heading of a block without its backslash. *)
Definition heading_tail (b : block) : pystr :=
  match b with
  | SkillsBlock => lit "section{Skills}"
  | ExperienceBlock => lit "section{Experience}"
  | ProjectsBlock => lit "section{Projects}"
  | EducationBlock => lit "section{Education}"
  end.

Definition heading (b : block) : pystr := BACKSLASH :: heading_tail b.

(** The block is unset in the document. *)
Definition absent (b : block) (d : Resume.t) : Prop :=
  match b with
  | SkillsBlock => Resume.skills d = None
  | ExperienceBlock => Resume.experience d = None
  | ProjectsBlock => Resume.projects d = None
  | EducationBlock => Resume.education d = None
  end.

(** [t] and [n] have different characters at some position of both. *)
Fixpoint differs (t n : pystr) : bool :=
  match t, n with
  | x :: t', y :: n' => negb (x =? y) || differs t' n'
  | _, _ => false
  end.

(** After every backslash of [l] the text already differs from the heading
    of [b]: that heading starts nowhere in [l], whatever text follows [l]. *)
Fixpoint settled (b : block) (l : pystr) : bool :=
  match l with
  | [] => true
  | c :: t => (negb (c =? BACKSLASH) || differs t (heading_tail b)) && settled b t
  end.

(** The characters that follow a backslash in escaped text. *)
Definition FOLLOWERS : list char :=
  [ord "&"; ord "%"; ord "$"; ord "#"; ord "_"; ord "{"; ord "}"; ord "t"].

(** Every backslash of [l] is followed by one of [FOLLOWERS]. *)
Fixpoint escaped_form (l : pystr) : bool :=
  match l with
  | [] => true
  | c :: t =>
      (negb (c =? BACKSLASH) ||
       match t with
       | y :: _ => existsb (N.eqb y) FOLLOWERS
       | [] => false
       end) && escaped_form t
  end.

(** No backslash in [l]. *)
Definition plain (l : pystr) : bool := forallb (fun c => negb (c =? BACKSLASH)) l.

(** The addresses that [build_header] inserts as they are hold no backslash. *)
Definition plain_links (h : Header.t) : Prop :=
  valid_opt (fun e => plain (Email.value e) = true) (Header.email h) /\
  valid_opt (fun w => plain (Website.value w) = true) (Header.linkedin h) /\
  valid_opt (fun w => plain (Website.value w) = true) (Header.portfolio h) /\
  valid_opt (fun w => plain (Website.value w) = true) (Header.github h).
(** *** Shapes of the strings the validators accept *)

(** [P] holds of [s], or of [s] without the newline it ends with. *)
Definition up_to_newline (P : pystr -> Prop) (s : pystr) : Prop :=
  P s \/ exists body, s = body ++ [NEWLINE] /\ P body.

(** No newline in [s]. *)
Definition one_line (s : pystr) : bool := forallb (fun c => negb (c =? NEWLINE)) s.

(** Neither ["@"] nor white space: the class [[^@\s]]. *)
Definition email_char (rt : Runtime) (c : char) : bool := negb ((c =? 64) || re_s rt c).

(** [local@domain.tld], each part a non-empty run of [email_char]s. *)
Definition email_shape (rt : Runtime) (s : pystr) : Prop :=
  exists l d t,
    s = l ++ [64] ++ d ++ [46] ++ t /\
    l <> [] /\ d <> [] /\ t <> [] /\
    forallb (email_char rt) l = true /\
    forallb (email_char rt) d = true /\
    forallb (email_char rt) t = true.

(** A word character or a dash: the class [[\w\-]]. *)
Definition host_char (rt : Runtime) (c : char) : bool := re_w rt c || (c =? 45).

(** An optional [http://] or [https://], a non-empty run of [host_char]s, a
    dot, one more [host_char], and then anything on the same line. *)
Definition url_shape (rt : Runtime) (s : pystr) : Prop :=
  exists scheme host c tail,
    s = scheme ++ host ++ [46; c] ++ tail /\
    In scheme [ []; lit "http://"; lit "https://" ] /\
    host <> [] /\ forallb (host_char rt) host = true /\
    host_char rt c = true /\ one_line tail = true.

Definition LINKEDIN_PREFIX : pystr := lit "https://www.linkedin.com/".
Definition GITHUB_PREFIX : pystr := lit "https://github.com/".

(** *** Calendar dates *)

(** Every decimal digit beyond ASCII has a value from 0 to 9. *)
Definition decimal_sound (rt : Runtime) : Prop :=
  forall c v, uni_decimal rt c = Some v -> v <= 9.

(** A day of the calendar, at midnight. *)
Definition calendar_date (t : datetime) : Prop :=
  1 <= year t <= 9999 /\ 1 <= month t <= 12 /\
  1 <= day t <= days_in_month (year t) (month t) /\ micros t = 0.

(** [s] is [prefix] followed by text that holds no newline, except that it
    may end with one. *)
Definition prefixed_line (prefix s : pystr) : Prop :=
  exists t, s = prefix ++ t /\ up_to_newline (fun body => one_line body = true) t.

(** *** What escaping keeps and removes *)

(** One of the ten characters of [_LATEX_SPECIALS]. *)
Definition is_special (c : char) : bool := existsb (N.eqb c) special_chars.

Definition no_specials (s : pystr) : bool := forallb (fun c => negb (is_special c)) s.

(** [c] occurs in [l] at a place that does not follow a backslash; [escaped]
    tells whether [l] itself follows one. *)
Fixpoint bare_after (c : char) (escaped : bool) (l : pystr) : bool :=
  match l with
  | [] => false
  | x :: t => ((x =? c) && negb escaped) || bare_after c (x =? BACKSLASH) t
  end.

Definition bare (c : char) (l : pystr) : bool := bare_after c false l.

(** *** The parts of a rendered document *)

(** A part of the document with the newline that follows it; nothing for an
    empty part. *)
Definition segment (p : pystr) : pystr := if is_empty p then [] else p ++ NL.

(** The document without the sections that hold no entry. *)
Definition prune (d : Resume.t) : Resume.t :=
  Resume.mk (Resume.header d)
    (match Resume.skills d with
     | Some s => if is_empty (SkillSection.skill_types s) then None else Some s
     | None => None
     end)
    (match Resume.experience d with
     | Some s => if is_empty (ExperienceSection.experiences s) then None else Some s
     | None => None
     end)
    (match Resume.projects d with
     | Some s => if is_empty (ProjectSection.projects s) then None else Some s
     | None => None
     end)
    (match Resume.education d with
     | Some s => if is_empty (EducationSection.educations s) then None else Some s
     | None => None
     end).

(** Some project of the document carries a link. *)
Definition has_linked_project (d : Resume.t) : Prop :=
  exists sec p, Resume.projects d = Some sec /\
                In p (ProjectSection.projects sec) /\ Project.link p <> None.

(** The document as it comes back from its record: every skill set in the
    order in which the set built from its list iterates. *)
Definition reiterated (rt : Runtime) (d : Resume.t) : Resume.t :=
  Resume.mk (Resume.header d)
    (match Resume.skills d with
     | Some s =>
         Some (SkillSection.mk
                 (map (fun st => SkillType.mk (SkillType.name st)
                                   (set_order rt (SkillType.skills st)))
                      (SkillSection.skill_types s)))
     | None => None
     end)
    (Resume.experience d) (Resume.projects d) (Resume.education d).

(** Every skill set of the document is rebuilt in the order it has. *)
Definition order_kept (rt : Runtime) (d : Resume.t) : Prop :=
  valid_opt (fun s => Forall (fun st => set_order rt (SkillType.skills st) = SkillType.skills st)
                        (SkillSection.skill_types s)) (Resume.skills d).

(** The sample document without its project section. *)
Definition unlinked_sample : Resume.t :=
  Resume.mk (Resume.header sample_resume) (Resume.skills sample_resume)
    (Resume.experience sample_resume) None (Resume.education sample_resume).

(** The name and the contact values of the document hold no white space at
    either end, and the name is not empty. *)
Definition stripped (rt : Runtime) (d : Resume.t) : Prop :=
  let h := Resume.header d in
  Header.name h <> [] /\ strip rt (Header.name h) = Header.name h /\
  valid_opt (fun e => strip rt (Email.value e) = Email.value e) (Header.email h) /\
  valid_opt (fun n => strip rt (PhoneNumber.value n) = PhoneNumber.value n) (Header.number h) /\
  valid_opt (fun w => strip rt (Website.value w) = Website.value w) (Header.linkedin h) /\
  valid_opt (fun w => strip rt (Website.value w) = Website.value w) (Header.portfolio h) /\
  valid_opt (fun w => strip rt (Website.value w) = Website.value w) (Header.github h).

(** *** A form to evaluate examples with *)

(** A filled form; its second experience is left out of the document. *)
Definition sample_form : UI.form :=
  {| UI.name_var := lit "  Alice Example ";
     UI.email_var := lit "alice@example.com";
     UI.phone_var := lit "1234567890 ";
     UI.linkedin_var := [];
     UI.portfolio_var := lit "https://portfolio.com";
     UI.github_var := lit "https://github.com/fake-user-alice/";
     UI.skill_types :=
       [ UI.SkillEntry.mk (lit "Programming") [lit "Python"; lit "C++"] true ];
     UI.experiences :=
       [ UI.ExperienceEntry.mk (lit "Developer") (lit "Tech Co") (lit "01-01-2022")
           (lit "01-01-2023") [lit "Built cool stuff"] true;
         UI.ExperienceEntry.mk [] [] (lit "soon") [] [] false ];
     UI.projects := [];
     UI.educations :=
       [ UI.EducationEntry.mk (lit "University X") (lit "BSc CS") (lit "01-09-2019")
           None [] true ] |}.

(** *** Entries as the skill dialog leaves them *)

(** A name without white space at either end and a non-empty list of such
    skills, none empty and none with a comma. *)
Definition tidy (rt : Runtime) (entry : UI.SkillEntry.t) : Prop :=
  UI.SkillEntry.name entry <> [] /\
  strip rt (UI.SkillEntry.name entry) = UI.SkillEntry.name entry /\
  UI.SkillEntry.skills entry <> [] /\
  Forall (fun s => s <> [] /\ strip rt s = s /\ ~ In UI.COMMA s) (UI.SkillEntry.skills entry).

(** *** The date format that the dialogs suggest *)

(** Four digits, a hyphen and two digits, as in ["2023-06"]. *)
Definition year_month (s : pystr) : bool :=
  match s with
  | [y1; y2; y3; y4; h; m1; m2] =>
      forallb ascii_digit [y1; y2; y3; y4; m1; m2] && (h =? HYPHEN)
  | _ => false
  end.

(** The document that [sample_form] is built into. *)
Definition sample_form_resume : Resume.t :=
  Resume.mk
    (Header.mk (lit "Alice Example")
       (Some (Email.mk (lit "alice@example.com")))
       (Some (PhoneNumber.mk (lit "1234567890")))
       None
       (Some (Website.mk (lit "https://portfolio.com")))
       (Some (Website.mk (lit "https://github.com/fake-user-alice/"))))
    (Some (SkillSection.mk [ SkillType.mk (lit "Programming") [lit "Python"; lit "C++"] ]))
    (Some (ExperienceSection.mk [sample_experience]))
    None
    (Some (EducationSection.mk
             [ Education.mk (lit "University X") (lit "BSc CS") (Date.mk (lit "01-09-2019"))
                 [] None ])).

(** The entries of [items] at the positions, counted from [k], that are not
    in [sel], in their order. *)
Fixpoint kept_from {A : Type} (k : nat) (items : list A) (sel : list nat) : list A :=
  match items with
  | [] => []
  | x :: rest =>
      if existsb (Nat.eqb k) sel then kept_from (S k) rest sel
      else x :: kept_from (S k) rest sel
  end.

Definition unselected {A : Type} (items : list A) (sel : list nat) : list A :=
  kept_from 0 items sel.

(** What a list box reports as its selection: positions of the list, in
    strictly increasing order. *)
Definition selection_of {A : Type} (items : list A) (sel : list nat) : Prop :=
  StronglySorted lt sel /\ Forall (fun i => (i < List.length items)%nat) sel.
(** * Properties *)

Unset Implicit Arguments.

(** ** Strings and results *)

Lemma str_eqb_eq (a b : pystr) : str_eqb a b = true <-> a = b.
Proof.
  revert b; induction a as [|x a IH]; intros [|y b]; simpl; split;
    try congruence; try reflexivity.
  - intros H. apply andb_prop in H as [Hx Hr].
    apply N.eqb_eq in Hx. apply IH in Hr. congruence.
  - intros H. injection H as -> ->. rewrite N.eqb_refl. simpl. now apply IH.
Qed.

Lemma str_eqb_refl (a : pystr) : str_eqb a a = true.
Proof. now apply str_eqb_eq. Qed.

Lemma str_eqb_neq (a b : pystr) : a <> b -> str_eqb a b = false.
Proof.
  intros H. destruct (str_eqb a b) eqn:E; [|reflexivity].
  apply str_eqb_eq in E. contradiction.
Qed.

Lemma is_empty_false {A : Type} (l : list A) : l <> [] -> is_empty l = false.
Proof. destruct l; [congruence | reflexivity]. Qed.

(** ** The matcher decides the language of a pattern *)

Lemma lang_Void (w : pystr) : ~ lang Void w.
Proof. intros H. inversion H. Qed.

Lemma lang_Eps_inv (w : pystr) : lang Eps w -> w = [].
Proof. intros H. now inversion H. Qed.

Lemma lang_Sym_inv (p : char -> bool) (w : pystr) :
  lang (Sym p) w -> exists c, w = [c] /\ p c = true.
Proof. intros H. inversion H; subst. now eexists. Qed.

Lemma lang_Cat_inv (r s : regex) (w : pystr) :
  lang (Cat r s) w -> exists u v, w = u ++ v /\ lang r u /\ lang s v.
Proof. intros H. inversion H; subst. now do 2 eexists. Qed.

Lemma lang_Alt_inv (r s : regex) (w : pystr) : lang (Alt r s) w -> lang r w \/ lang s w.
Proof. intros H. inversion H; subst; auto. Qed.

Lemma nullable_lang (r : regex) : nullable r = true <-> lang r [].
Proof.
  induction r as [| |p|r IHr s IHs|r IHr s IHs|r IHr]; simpl; split; intros H;
    try discriminate; try (now constructor).
  - now apply lang_Void in H.
  - apply lang_Sym_inv in H as [c [E _]]. discriminate.
  - apply andb_prop in H as [Hr Hs].
    change (@nil char) with (@nil char ++ []). constructor; [now apply IHr | now apply IHs].
  - apply lang_Cat_inv in H as [u [v [E [Hu Hv]]]]. symmetry in E.
    apply app_eq_nil in E as [-> ->].
    apply andb_true_intro. split; [now apply IHr | now apply IHs].
  - apply orb_prop in H as [H|H];
      [apply lang_Alt_l; now apply IHr | apply lang_Alt_r; now apply IHs].
  - apply lang_Alt_inv in H as [H|H]; apply orb_true_intro;
      [left; now apply IHr | right; now apply IHs].
Qed.

Lemma lang_mkCat (r s : regex) (w : pystr) : lang (mkCat r s) w <-> lang (Cat r s) w.
Proof.
  destruct r; simpl; try tauto; split; intros H.
  - now apply lang_Void in H.
  - apply lang_Cat_inv in H as [u [v [_ [Hu _]]]]. now apply lang_Void in Hu.
  - change w with ([] ++ w). constructor; [constructor | exact H].
  - apply lang_Cat_inv in H as [u [v [-> [Hu Hv]]]].
    apply lang_Eps_inv in Hu. now subst u.
Qed.

Lemma lang_mkAlt (r s : regex) (w : pystr) : lang (mkAlt r s) w <-> lang (Alt r s) w.
Proof.
  split; intros H.
  - destruct r, s; simpl in H; try exact H;
      first [ apply lang_Alt_l; exact H | apply lang_Alt_r; exact H ].
  - apply lang_Alt_inv in H as [H|H].
    + destruct r, s; simpl; try exact H; try (now apply lang_Void in H);
        now apply lang_Alt_l.
    + destruct r, s; simpl; try exact H; try (now apply lang_Void in H);
        now apply lang_Alt_r.
Qed.

Lemma lang_Star_cons (r : regex) (c : char) (w : pystr) :
  lang (Star r) (c :: w) ->
  exists u v, w = u ++ v /\ lang r (c :: u) /\ lang (Star r) v.
Proof.
  intros H. remember (Star r) as sr eqn:Er. remember (c :: w) as cw eqn:Ew.
  revert w Ew. induction H as [| | | | | |r' u v Hu _ Hv IHv]; intros w Ew;
    try discriminate.
  injection Er as ->. destruct u as [|x u].
  - simpl in Ew. now apply IHv.
  - simpl in Ew. injection Ew as -> <-. now exists u, v.
Qed.

Lemma deriv_lang (c : char) (r : regex) (w : pystr) :
  lang (deriv c r) w <-> lang r (c :: w).
Proof.
  revert w. induction r as [| |p|r IHr s IHs|r IHr s IHs|r IHr]; intros w; simpl.
  - split; intros H; now apply lang_Void in H.
  - split; intros H; [now apply lang_Void in H | apply lang_Eps_inv in H; discriminate].
  - destruct (p c) eqn:Hp; split; intros H.
    + apply lang_Eps_inv in H. subst w. now constructor.
    + apply lang_Sym_inv in H as [c' [E _]]. injection E as _ ->. constructor.
    + now apply lang_Void in H.
    + apply lang_Sym_inv in H as [c' [E Hc']]. injection E as -> _. congruence.
  - rewrite lang_mkAlt. split; intros H.
    + apply lang_Alt_inv in H as [H|H].
      * apply lang_mkCat, lang_Cat_inv in H as [u [v [-> [Hu Hv]]]].
        apply IHr in Hu. change (c :: u ++ v) with ((c :: u) ++ v). now constructor.
      * destruct (nullable r) eqn:Hn; [|now apply lang_Void in H].
        apply IHs in H. apply nullable_lang in Hn.
        change (c :: w) with ([] ++ c :: w). now constructor.
    + apply lang_Cat_inv in H as [u [v [E [Hu Hv]]]].
      destruct u as [|x u]; simpl in E.
      * subst v. apply lang_Alt_r. apply nullable_lang in Hu. rewrite Hu. now apply IHs.
      * injection E as <- ->. apply lang_Alt_l, lang_mkCat.
        constructor; [now apply IHr | exact Hv].
  - rewrite lang_mkAlt. split; intros H.
    + apply lang_Alt_inv in H as [H|H];
        [apply lang_Alt_l; now apply IHr | apply lang_Alt_r; now apply IHs].
    + apply lang_Alt_inv in H as [H|H];
        [apply lang_Alt_l; now apply IHr | apply lang_Alt_r; now apply IHs].
  - rewrite lang_mkCat. split; intros H.
    + apply lang_Cat_inv in H as [u [v [-> [Hu Hv]]]].
      apply IHr in Hu. change (c :: u ++ v) with ((c :: u) ++ v). now constructor.
    + apply lang_Star_cons in H as [u [v [-> [Hu Hv]]]].
      constructor; [now apply IHr | exact Hv].
Qed.

(** [matches] decides membership in the language of the pattern. *)
Lemma matches_lang (r : regex) (w : pystr) : matches r w = true <-> lang r w.
Proof.
  revert r. induction w as [|c w IH]; intros r; simpl.
  - apply nullable_lang.
  - rewrite IH. apply deriv_lang.
Qed.

(** [re.match] with a pattern [^R$]: the string is in the language of [R],
    or is so once a newline at its end is removed. *)
Lemma re_match_anchored_lang (r : regex) (s : pystr) :
  re_match_anchored r s = true <->
  lang r s \/ exists s', s = s' ++ [NEWLINE] /\ lang r s'.
Proof.
  unfold re_match_anchored. rewrite orb_true_iff, matches_lang.
  split; intros [H|H]; [now left| |now left|].
  - right. destruct (rev s) as [|c before] eqn:E; [discriminate|].
    apply andb_prop in H as [Hc Hm]. apply N.eqb_eq in Hc. subst c.
    exists (rev before). split; [|now apply matches_lang].
    rewrite <- (rev_involutive s), E. reflexivity.
  - right. destruct H as [s' [-> Hs']].
    rewrite rev_app_distr. simpl. rewrite rev_involutive.
    now apply matches_lang.
Qed.

(** ** The escape function *)

Lemma esc_loop (f : char -> pystr) (s : pystr) (acc : list pystr) :
  fold_left (fun out ch => out ++ [f ch]) s acc = acc ++ map f s.
Proof.
  revert acc; induction s as [|c s IH]; intros acc; simpl.
  - now rewrite app_nil_r.
  - rewrite IH, <- app_assoc. reflexivity.
Qed.

Lemma esc_flat_map (s : pystr) : esc (Some s) = flat_map esc_char s.
Proof.
  unfold esc. rewrite esc_loop. simpl. now rewrite flat_map_concat_map.
Qed.

Lemma esc_nil : esc (Some []) = [].
Proof. reflexivity. Qed.

Lemma esc_cons (c : char) (s : pystr) :
  esc (Some (c :: s)) = esc_char c ++ esc (Some s).
Proof. now rewrite !esc_flat_map. Qed.

Lemma esc_app (s t : pystr) : esc (Some (s ++ t)) = esc (Some s) ++ esc (Some t).
Proof. rewrite !esc_flat_map. apply flat_map_app. Qed.

Lemma esc_char_other (c : char) : ~ In c special_chars -> esc_char c = [c].
Proof.
  intros H. unfold esc_char. 
  assert (G : forall t, (forall k, In k (map fst t) -> k <> c) -> specials_get t c = [c]).
  { induction t as [|[k v] t IH]; simpl; intros Hk; [reflexivity|].
    destruct (N.eqb_spec k c) as [->|_].
    - exfalso. apply (Hk c); auto.
    - apply IH. intros k' Hk'. apply Hk. now right. }
  apply G. intros k Hk ->. now apply H.
Qed.

(** The ways one character is written. *)
Lemma esc_char_cases (c : char) :
  (In c special_chars /\ In (c, esc_char c) _LATEX_SPECIALS) \/
  (~ In c special_chars /\ esc_char c = [c]).
Proof.
  destruct (in_dec N.eq_dec c special_chars) as [Hin|Hout].
  - left. split; [exact Hin|].
    unfold special_chars in Hin. simpl in Hin.
    repeat (destruct Hin as [<-|Hin]; [vm_compute; tauto|]). contradiction.
  - right. split; [exact Hout|]. now apply esc_char_other.
Qed.

Lemma contains_has_pair (a b : char) (rest l : pystr) :
  contains l (a :: b :: rest) = true -> has_pair a b l = true.
Proof.
  induction l as [|x l IH]; simpl.
  - discriminate.
  - intros H. apply orb_prop in H as [H|H].
    + destruct l as [|y l]; simpl in H.
      * rewrite andb_false_r in H. discriminate.
      * apply andb_prop in H as [Hx H]. apply andb_prop in H as [Hy _].
        simpl. now rewrite Hx, Hy.
    + destruct l as [|y l]; [discriminate|].
      change (has_pair a b (x :: y :: l)) with (((x =? a) && (y =? b)) || has_pair a b (y :: l)).
      rewrite (IH H). apply orb_true_r.
Qed.

(** In escaped text no backslash is followed by an [h]. *)
Lemma esc_char_no_bs_h (c : char) (l : pystr) :
  has_pair BACKSLASH (ord "h") (esc_char c ++ l) = has_pair BACKSLASH (ord "h") l.
Proof.
  destruct (esc_char_cases c) as [[_ Hin]|[Hout ->]].
  - revert Hin. generalize (esc_char c). intros v Hin.
    simpl in Hin.
    repeat (destruct Hin as [Hin|Hin];
            [injection Hin as _ <-; destruct l; reflexivity|]).
    contradiction.
  - assert (Hc : (c =? BACKSLASH) = false).
    { apply N.eqb_neq. intros ->. apply Hout. vm_compute. tauto. }
    simpl. destruct l as [|y l]; [reflexivity|]. now rewrite Hc.
Qed.

Lemma esc_no_bs_h (s : pystr) : has_pair BACKSLASH (ord "h") (esc (Some s)) = false.
Proof.
  induction s as [|c s IH]; [reflexivity|].
  now rewrite esc_cons, esc_char_no_bs_h.
Qed.

Lemma esc_no_href (s : pystr) : contains (esc (Some s)) (lit "\href{") = false.
Proof.
  destruct (contains (esc (Some s)) (lit "\href{")) eqn:E; [|reflexivity].
  apply contains_has_pair in E. now rewrite esc_no_bs_h in E.
Qed.

(** ** The hyperlink helper *)

(** C10: [href] with no URL, or with the empty string for a URL, returns the
    escaped label alone, in which no [\href{] occurs; with a URL it wraps the
    escaped label and inserts the URL as it is.  A project without a link is
    headed by its escaped name, unwrapped. *)
Theorem href_without_url_is_escaped_label :
  forall (label : pystr) (blue : bool),
    href NoLink label blue = Ok (esc (Some label)) /\
    href (LinkStr []) label blue = Ok (esc (Some label)) /\
    contains (esc (Some label)) (lit "\href{") = false /\
    (forall c url,
        href (LinkStr (c :: url)) label true =
          Ok (lit "\href{" ++ (c :: url) ++ lit "}{\textcolor{vibrantblue}{" ++
              esc (Some label) ++ lit "}}") /\
        href (LinkStr (c :: url)) label false =
          Ok (lit "\href{" ++ (c :: url) ++ lit "}{" ++ esc (Some label) ++ lit "}")) /\
    (forall name skills description,
        project_lines (Project.mk name skills description None) =
          Ok ([ lit "      \resumeSubHeadingListStart";
                lit "\resumeProjectHeading{{\textcolor{vibrantblue}\faShareSquare \hspace{0.5mm} \textbf{" ++
                  esc (Some name) ++ lit "}} $|$ \emph{\textbf{" ++
                  esc (Some (join (lit ", ") skills)) ++ lit "}}}{}" ] ++
              bullet_lines "          " description ++
              [ lit "    \resumeSubHeadingListEnd"; [] ])).
Proof.
  intros label blue.
  split; [reflexivity|]. split; [reflexivity|].
  split; [apply esc_no_href|]. split.
  - intros c url. split; reflexivity.
  - intros name skills description. unfold project_lines.
    cbn [Project.link Project.name Project.skills Project.description href bind].
    do 2 f_equal. f_equal.
    change (fa (Some (lit "ShareSquare"))) with (lit "\faShareSquare").
    generalize (esc (Some name)) (esc (Some (join (lit ", ") skills))). intros a b.
    rewrite <- !app_assoc. reflexivity.
Qed.

(** ** Rendering succeeds wherever [href] is given a string *)

Lemma map_result_total {A B : Type} (f : A -> result B) (l : list A) :
  (forall a, In a l -> exists b, f a = Ok b) -> exists bs, map_result f l = Ok bs.
Proof.
  induction l as [|a l IH]; intros H; simpl.
  - now exists [].
  - destruct (H a (or_introl eq_refl)) as [b ->].
    destruct IH as [bs ->]; [intros; apply H; now right|].
    simpl. now eexists.
Qed.

Lemma href_string_total (u label : pystr) (blue : bool) :
  exists out, href (LinkStr u) label blue = Ok out.
Proof. unfold href. destruct (is_empty u), blue; now eexists. Qed.

Lemma build_header_total (rt : Runtime) (h : Header.t) :
  exists out, build_header rt h = Ok out.
Proof.
  unfold build_header.
  destruct (Header.email h) as [e|];
    [destruct (href_string_total (lit "mailto:" ++ Email.str e) (Email.str e) true) as [? ->]|];
  (destruct (Header.number h) as [n|];
    [destruct (href_string_total
                 (lit "tel:" ++ filter (fun ch => isdigit rt ch || (ch =? ord "+"))
                                  (PhoneNumber.str n)) (PhoneNumber.str n) true) as [? ->]|]);
  (destruct (Header.linkedin h) as [w1|];
    [destruct (href_string_total (Website.str w1) (lit "Linkedin") true) as [? ->]|]);
  (destruct (Header.portfolio h) as [w2|];
    [destruct (href_string_total (Website.str w2) (lit "Website") true) as [? ->]|]);
  (destruct (Header.github h) as [w3|];
    [destruct (href_string_total (Website.str w3) (lit "GitHub") true) as [? ->]|]);
  cbn [bind]; now eexists.
Qed.

Lemma build_experience_total (rt : Runtime) (exp : option ExperienceSection.t) :
  exists out, build_experience rt exp = Ok out.
Proof.
  destruct exp as [sec|]; simpl; [|now eexists].
  destruct (is_empty (ExperienceSection.experiences sec)); [now eexists|].
  destruct (map_result_total (experience_lines rt) (ExperienceSection.experiences sec))
    as [bs ->]; [|simpl; now eexists].
  intros e _. unfold experience_lines. simpl. now eexists.
Qed.

Lemma build_education_total (rt : Runtime) (edu : option EducationSection.t) :
  exists out, build_education rt edu = Ok out.
Proof.
  destruct edu as [sec|]; simpl; [|now eexists].
  destruct (is_empty (EducationSection.educations sec)); [now eexists|].
  destruct (map_result_total (education_line rt) (EducationSection.educations sec))
    as [bs ->]; [|simpl; now eexists].
  intros e _. unfold education_line. simpl. now eexists.
Qed.

Lemma project_lines_cases (p : Project.t) :
  (Project.link p = None /\ exists ls, project_lines p = Ok ls) \/
  (Project.link p <> None /\ project_lines p = Raise TypeError).
Proof.
  unfold project_lines. destruct (Project.link p) as [w|]; simpl.
  - right. split; [discriminate | reflexivity].
  - left. split; [reflexivity | now eexists].
Qed.

Lemma map_project_lines_cases (l : list Project.t) :
  (exists out, map_result project_lines l = Ok out) \/
  (map_result project_lines l = Raise TypeError /\
   exists p, In p l /\ Project.link p <> None).
Proof.
  induction l as [|p l IH]; simpl.
  - left. now eexists.
  - destruct (project_lines_cases p) as [[_ [ls ->]]|[Hl ->]]; simpl.
    + destruct IH as [[out ->]|[-> [q [Hq Hl]]]]; simpl.
      * left. now eexists.
      * right. split; [reflexivity|]. exists q. auto.
    + right. split; [reflexivity|]. exists p. auto.
Qed.

Lemma build_projects_cases (proj : option ProjectSection.t) :
  (exists out, build_projects proj = Ok out) \/
  (build_projects proj = Raise TypeError /\
   exists sec p, proj = Some sec /\ In p (ProjectSection.projects sec) /\
                 Project.link p <> None).
Proof.
  destruct proj as [sec|]; simpl; [|left; now eexists].
  destruct (is_empty (ProjectSection.projects sec)); [left; now eexists|].
  destruct (map_project_lines_cases (ProjectSection.projects sec))
    as [[out ->]|[-> [p [Hp Hl]]]]; simpl.
  - left. now eexists.
  - right. split; [reflexivity|]. exists sec, p. auto.
Qed.

Lemma resume_to_latex_cases (rt : Runtime) (d : Resume.t) :
  (exists out, resume_to_latex rt d = Ok out) \/
  (resume_to_latex rt d = Raise TypeError /\
   exists sec p, Resume.projects d = Some sec /\
                 In p (ProjectSection.projects sec) /\ Project.link p <> None).
Proof.
  unfold resume_to_latex, resume_parts.
  destruct (build_header_total rt (Resume.header d)) as [h ->].
  destruct (build_experience_total rt (Resume.experience d)) as [e ->].
  destruct (build_education_total rt (Resume.education d)) as [ed Hed].
  cbn [bind].
  destruct (build_projects_cases (Resume.projects d)) as [[p ->]|[-> Hex]]; cbn [bind].
  - rewrite Hed. cbn [bind]. left. now eexists.
  - right. split; [reflexivity | exact Hex].
Qed.

(** The document of the tests has a project with a link: it is not rendered. *)
Lemma sample_resume_not_rendered :
  resume_to_latex rt_example sample_resume = Raise TypeError.
Proof. vm_compute. reflexivity. Qed.

(** C2: [esc] is defined on every string and works character by character:
    each of the ten characters of the table is replaced by its entry, any
    other character is kept.  Rendering therefore never fails while escaping:
    the one failure it has is the [TypeError] of [href] on a project's link
    object. *)
Theorem esc_is_a_total_character_map :
  forall (s : pystr),
    esc (Some s) = flat_map esc_char s /\
    esc_char (ord "&") = lit "\&" /\
    esc_char (ord "%") = lit "\%" /\
    esc_char (ord "$") = lit "\$" /\
    esc_char (ord "#") = lit "\#" /\
    esc_char (ord "_") = lit "\_" /\
    esc_char (ord "{") = lit "\{" /\
    esc_char (ord "}") = lit "\}" /\
    esc_char (ord "~") = lit "\textasciitilde{}" /\
    esc_char (ord "^") = lit "\textasciicircum{}" /\
    esc_char (ord "\") = lit "\textbackslash{}" /\
    (forall c,
        ~ In c [ord "&"; ord "%"; ord "$"; ord "#"; ord "_";
                ord "{"; ord "}"; ord "~"; ord "^"; ord "\"] ->
        esc_char c = [c]) /\
    (forall rt d,
        (exists out, resume_to_latex rt d = Ok out) \/
        (resume_to_latex rt d = Raise TypeError /\
         exists sec p, Resume.projects d = Some sec /\
                       In p (ProjectSection.projects sec) /\ Project.link p <> None)).
Proof.
  intros s. split; [apply esc_flat_map|].
  repeat (split; [reflexivity|]).
  split; [exact esc_char_other | exact resume_to_latex_cases].
Qed.

Lemma esc_is_a_total_character_map_witness :
  ~ In (ord "a") [ord "&"; ord "%"; ord "$"; ord "#"; ord "_";
                  ord "{"; ord "}"; ord "~"; ord "^"; ord "\"] /\
  esc_char (ord "a") = [ord "a"] /\
  esc (Some (lit "A & B")) = flat_map esc_char (lit "A & B") /\
  flat_map esc_char (lit "A & B") = lit "A \& B".
Proof.
  assert (Ha : ~ In (ord "a") [ord "&"; ord "%"; ord "$"; ord "#"; ord "_";
                               ord "{"; ord "}"; ord "~"; ord "^"; ord "\"]).
  { simpl. intros H. repeat (destruct H as [H|H]; [discriminate|]). exact H. }
  destruct (esc_is_a_total_character_map (lit "A & B"))
    as (Hmap & _ & _ & _ & _ & _ & _ & _ & _ & _ & _ & Hother & _).
  split; [exact Ha|]. split; [exact (Hother _ Ha)|]. split; [exact Hmap|]. reflexivity.
Defined.

(** ** Constructors without a guard *)

(** C6, as stated, fails: the empty name is accepted. *)
Lemma Header_accepts_empty_name :
  Header.init [] None None None None None = Ok (Header.mk [] None None None None None) /\
  ~ (exists msg, Header.init [] None None None None None = Raise (ValueError msg)).
Proof. split; [reflexivity | intros [msg H]; discriminate]. Qed.

(** C6, amended: [Header] checks nothing.  For every name, empty or not, and
    every combination of contact fields it succeeds and stores them. *)
Theorem Header_init_always_succeeds :
  forall name email number linkedin portfolio github,
    Header.init name email number linkedin portfolio github =
      Ok (Header.mk name email number linkedin portfolio github).
Proof. reflexivity. Qed.

(** C5 at the failing input: the sections of [models/models.py] are built
    from an empty list. *)
Theorem empty_sections_are_constructed :
  ExperienceSection.init [] = Ok (ExperienceSection.mk []) /\
  ProjectSection.init [] = Ok (ProjectSection.mk []) /\
  EducationSection.init [] = Ok (EducationSection.mk []).
Proof. repeat split. Qed.

(** The guards that do exist: the skill set in [models/models.py], the
    sections in [models.py]. *)
Lemma empty_collections_rejected (name : pystr) :
  SkillType.init name [] = Raise (ValueError (lit "Skills cannot be empty.")) /\
  Flat.ExperienceSection.init [] =
    Raise (ValueError (lit "Experience section cannot be empty.")) /\
  Flat.ProjectSection.init [] =
    Raise (ValueError (lit "Project section cannot be empty.")) /\
  Flat.EducationSection.init [] =
    Raise (ValueError (lit "Education section cannot be empty.")).
Proof. repeat split. Qed.

(** In [models.py] a skill group is never built, empty or not. *)
Lemma Flat_SkillType_never_built (name : pystr) (skills : list pystr) :
  Flat.SkillType.init name skills = Raise AttributeError.
Proof. reflexivity. Qed.

(** A record with an empty list of experiences is loaded as a document
    with an experience section of no entry, for which the renderer writes
    nothing. *)
Lemma empty_section_from_record (rt : Runtime) (clk : clock) :
  value_of (Resume.from_dict rt
              (VDict [ (lit "header", VDict [ (lit "name", VStr (lit "A")) ]);
                       (lit "experience", VDict [ (lit "experiences", VList []) ]) ])
              clk 0%nat) =
    Ok (Resume.mk (Header.mk (lit "A") None None None None None) None
          (Some (ExperienceSection.mk [])) None None) /\
  build_experience rt (Some (ExperienceSection.mk [])) = Ok [].
Proof. split; reflexivity. Qed.

(** ** Phone numbers *)

Lemma matches_Void (s : pystr) : matches Void s = false.
Proof. induction s; simpl; auto. Qed.

Lemma mkAlt_Void_r (r : regex) : mkAlt r Void = r.
Proof. destruct r; reflexivity. Qed.

Lemma matches_Rep_Sym (p : char -> bool) (n : nat) (s : pystr) :
  matches (Rep (Sym p) n) s = (List.length s =? n)%nat && forallb p s.
Proof.
  revert s; induction n as [|n IH]; intros [|c s]; simpl; try reflexivity.
  - apply matches_Void.
  - rewrite mkAlt_Void_r. destruct (p c); simpl.
    + apply IH.
    + rewrite matches_Void. now rewrite andb_false_r.
Qed.

Lemma phone_regex_matches (rt : Runtime) (v : pystr) :
  re_match_anchored (PhoneNumber._regex rt) v =
    ten_digits rt v ||
    match rev v with
    | c :: before => (c =? NEWLINE) && ten_digits rt (rev before)
    | [] => false
    end.
Proof.
  unfold re_match_anchored, PhoneNumber._regex, ten_digits.
  rewrite matches_Rep_Sym. destruct (rev v); [reflexivity|].
  now rewrite matches_Rep_Sym.
Qed.

(** Ten decimal digits are accepted and kept. *)
Lemma PhoneNumber_accepts_ten_digits (rt : Runtime) (v : pystr) :
  List.length v = 10%nat -> forallb (re_d rt) v = true ->
  PhoneNumber.init rt v = Ok (PhoneNumber.mk v) /\
  PhoneNumber.str (PhoneNumber.mk v) = v.
Proof.
  intros Hlen Hd. unfold PhoneNumber.init.
  rewrite phone_regex_matches. unfold ten_digits.
  rewrite Hlen, Hd. simpl. auto.
Qed.

(** In [type_validator.py] ten decimal digits pass the pattern and then
    fail in [str.__new__]. *)
Lemma StrValidator_PhoneNumber_ten_digits (rt : Runtime) (v : pystr) :
  List.length v = 10%nat -> forallb (re_d rt) v = true ->
  StrValidator.PhoneNumber rt v = Raise TypeError.
Proof.
  intros Hlen Hd. unfold StrValidator.PhoneNumber.
  rewrite phone_regex_matches. unfold ten_digits.
  rewrite Hlen, Hd. reflexivity.
Qed.

(** Every accepted string is ten digits, or ten digits and a newline. *)
Lemma PhoneNumber_accepted_shape (rt : Runtime) (v : pystr) (n : PhoneNumber.t) :
  PhoneNumber.init rt v = Ok n ->
  n = PhoneNumber.mk v /\
  exists ds, ten_digits rt ds = true /\ (v = ds \/ v = ds ++ NL).
Proof.
  unfold PhoneNumber.init. rewrite phone_regex_matches.
  destruct (ten_digits rt v) eqn:E; simpl.
  - intros H. injection H as <-. split; [reflexivity|]. exists v. auto.
  - destruct (rev v) as [|c before] eqn:R; simpl; [discriminate|].
    destruct (N.eqb_spec c NEWLINE) as [->|]; simpl; [|discriminate].
    destruct (ten_digits rt (rev before)) eqn:E'; simpl; [|discriminate].
    intros H. injection H as <-. split; [reflexivity|].
    exists (rev before). split; [exact E'|]. right.
    rewrite <- (rev_involutive v), R. reflexivity.
Qed.

(** C3 at the failing inputs.  In [models/type_validator.py] ten digits
    followed by a newline are accepted and kept with the newline, eleven
    characters in all.  In [type_validator.py] no string is accepted: ten
    digits, with or without the newline, pass the pattern and raise
    [TypeError] in [str.__new__], the class having no [str] base. *)
Theorem PhoneNumber_accepts_trailing_newline :
  forall rt : Runtime,
    PhoneNumber.init rt (lit "1234567890" ++ NL) =
      Ok (PhoneNumber.mk (lit "1234567890" ++ NL)) /\
    PhoneNumber.str (PhoneNumber.mk (lit "1234567890" ++ NL)) = lit "1234567890" ++ NL /\
    List.length (lit "1234567890" ++ NL) = 11%nat /\
    StrValidator.PhoneNumber rt (lit "1234567890") = Raise TypeError /\
    StrValidator.PhoneNumber rt (lit "1234567890" ++ NL) = Raise TypeError /\
    (forall v r, StrValidator.PhoneNumber rt v <> Ok r).
Proof.
  intros rt. repeat (split; [reflexivity|]).
  intros v r. unfold StrValidator.PhoneNumber, StrValidator.str_new.
  destruct (negb (re_match_anchored (PhoneNumber._regex rt) v)); discriminate.
Qed.

(** ** Dates *)

Lemma strptime_outcome (rt : Runtime) (v : pystr) :
  (exists t, strptime rt v = Ok t) \/ (exists msg, strptime rt v = Raise (ValueError msg)).
Proof.
  unfold strptime. destruct (strptime_match rt v) as [[[[d m] y] rest]|].
  - destruct (negb (is_empty rest)); [right; now eexists|].
    destruct (y =? 0); [right; now eexists|].
    destruct (days_in_month y m <? d); [right; now eexists | left; now eexists].
  - right. now eexists.
Qed.

Lemma lower_present (rt : Runtime) : lower rt Date.PRESENT = Date.PRESENT.
Proof. reflexivity. Qed.

Lemma Date_init_present (rt : Runtime) :
  Date.init rt (lit "present") = Ok (Date.mk Date.PRESENT).
Proof. reflexivity. Qed.

Lemma Date_init_dated (rt : Runtime) (v : pystr) (t : datetime) :
  lower rt v <> Date.PRESENT -> strptime rt v = Ok t -> Date.init rt v = Ok (Date.mk v).
Proof.
  intros Hl Hs. unfold Date.init. rewrite (str_eqb_neq _ _ Hl), Hs. reflexivity.
Qed.

(** A validated date is ["present"] or a string [strptime] accepts. *)
Lemma valid_Date_cases (rt : Runtime) (d : Date.t) :
  valid_Date rt d ->
  Date.value d = Date.PRESENT \/
  (Date.value d <> Date.PRESENT /\ exists t, strptime rt (Date.value d) = Ok t).
Proof.
  destruct d as [v]. unfold valid_Date, Date.init. simpl.
  destruct (str_eqb (lower rt v) Date.PRESENT) eqn:E.
  - intros H. injection H as <-. now left.
  - intros H. right. split.
    + intros ->. now rewrite lower_present, str_eqb_refl in E.
    + destruct (strptime rt v) as [t|e|]; [now exists t | destruct e; discriminate | discriminate].
Qed.

(** C9 at the failing input.  The [Date] of [models/type_validator.py] does
    what is claimed: a string that is ["present"] once lowercased, whatever
    its case, is accepted and stored as the lowercase ["present"]; any other
    string is accepted, and stored as it is, exactly when [strptime] parses
    it in the format [%d-%m-%Y], and is rejected with a [ValueError]
    otherwise.  The [Date] of [type_validator.py] makes the same checks and
    then never returns: on ["PRESENT"], as on every string that its
    counterpart accepts, it raises [TypeError] in [str.__new__], the class
    having no [str] base. *)
Theorem Date_of_type_validator_rejects_present :
  forall (rt : Runtime) (v : pystr),
    StrValidator.Date rt (lit "PRESENT") = Raise TypeError /\
    Date.init rt (lit "PRESENT") = Ok (Date.mk (lit "present")) /\
    (lower rt v = Date.PRESENT ->
       Date.init rt v = Ok (Date.mk (lit "present")) /\
       Date.str (Date.mk (lit "present")) = lit "present" /\
       StrValidator.Date rt v = Raise TypeError) /\
    (lower rt v <> Date.PRESENT ->
       ((exists t, strptime rt v = Ok t) /\
        Date.init rt v = Ok (Date.mk v) /\
        StrValidator.Date rt v = Raise TypeError) \/
       ((exists msg, strptime rt v = Raise (ValueError msg)) /\
        Date.init rt v =
          Raise (ValueError (lit "Invalid date (expected dd-mm-yyyy): " ++ v)) /\
        StrValidator.Date rt v =
          Raise (ValueError (lit "Invalid date (expected dd-mm-yyyy): " ++ v)))) /\
    (forall r, StrValidator.Date rt v <> Ok r).
Proof.
  intros rt v. split; [reflexivity|]. split; [reflexivity|]. split; [|split].
  - intros H. unfold Date.init, StrValidator.Date. rewrite H, str_eqb_refl. auto.
  - intros H. unfold Date.init, StrValidator.Date. rewrite (str_eqb_neq _ _ H).
    destruct (strptime_outcome rt v) as [[t Ht]|[msg Hm]].
    + left. rewrite Ht. eauto.
    + right. rewrite Hm. eauto.
  - intros r. unfold StrValidator.Date, StrValidator.str_new.
    destruct (str_eqb (lower rt v) Date.PRESENT); [discriminate|].
    destruct (strptime_outcome rt v) as [[t Ht]|[msg Hm]].
    + rewrite Ht. discriminate.
    + rewrite Hm. discriminate.
Qed.

Lemma Date_of_type_validator_rejects_present_witness :
  lower rt_example (lit "Present") = Date.PRESENT /\
  Date.init rt_example (lit "Present") = Ok (Date.mk (lit "present")) /\
  StrValidator.Date rt_example (lit "Present") = Raise TypeError.
Proof.
  assert (H : lower rt_example (lit "Present") = Date.PRESENT) by reflexivity.
  split; [exact H|].
  destruct (Date_of_type_validator_rejects_present rt_example (lit "Present"))
    as (_ & _ & Hp & _).
  destruct (Hp H) as (Hi & _ & Hf). split; [exact Hi | exact Hf].
Defined.

(** ** The date checks of [Experience] *)

Lemma to_datetime_present (rt : Runtime) (d : Date.t) (clk : clock) (i : nat) :
  Date.value d = Date.PRESENT -> Date.to_datetime rt d clk i = Ok (clk i, S i).
Proof. intros H. unfold Date.to_datetime. rewrite H, str_eqb_refl. reflexivity. Qed.

Lemma to_datetime_dated (rt : Runtime) (d : Date.t) (t : datetime) (clk : clock) (i : nat) :
  Date.value d <> Date.PRESENT -> strptime rt (Date.value d) = Ok t ->
  Date.to_datetime rt d clk i = Ok (t, i).
Proof.
  intros H Ht. unfold Date.to_datetime. rewrite (str_eqb_neq _ _ H), Ht. reflexivity.
Qed.

Lemma moment_of_present (rt : Runtime) (clk : clock) (i j : nat) (d : Date.t) :
  Date.value d = Date.PRESENT -> (i <= j < i + 4)%nat -> moment_of rt clk i d (clk j).
Proof.
  intros H Hj. unfold moment_of. rewrite H, str_eqb_refl. now exists j.
Qed.

Lemma moment_of_dated (rt : Runtime) (clk : clock) (i : nat) (d : Date.t) (t : datetime) :
  Date.value d <> Date.PRESENT -> strptime rt (Date.value d) = Ok t -> moment_of rt clk i d t.
Proof. intros H Ht. unfold moment_of. now rewrite (str_eqb_neq _ _ H). Qed.

Lemma valid_stored_end (rt : Runtime) (end_date : option Date.t) :
  valid_opt (valid_Date rt) end_date -> valid_Date rt (stored_end end_date).
Proof. destruct end_date; simpl; [auto | intros _; reflexivity]. Qed.

(** [Experience.__init__] past its guards on empty fields. *)
Lemma Experience_init_dates (rt : Runtime) (position company : pystr)
    (description : list BulletPoint.t) (start : Date.t) (end_date : option Date.t) :
  position <> [] -> company <> [] -> description <> [] ->
  Experience.init rt position company description start end_date =
    (s <~ Date.to_datetime rt start ;;
     e <~ Date.to_datetime rt (stored_end end_date) ;;
     if dt_ge s e then throw (ValueError DATE_ORDER_MESSAGE)
     else
       s' <~ Date.to_datetime rt start ;;
       now <~ today ;;
       if dt_gt s' now then throw (ValueError DATE_ORDER_MESSAGE)
       else ret (Experience.mk position company description start (stored_end end_date))).
Proof.
  intros Hp Hc Hd. unfold Experience.init.
  rewrite (is_empty_false _ Hp), (is_empty_false _ Hc), (is_empty_false _ Hd). simpl.
  destruct end_date as [e|]; reflexivity.
Qed.

Lemma Experience_init_moments (rt : Runtime) (clk : clock) (i : nat)
    (position company : pystr) (description : list BulletPoint.t)
    (start : Date.t) (end_date : option Date.t) :
  position <> [] -> company <> [] -> description <> [] ->
  valid_Date rt start -> valid_opt (valid_Date rt) end_date ->
  exists s e s' now,
    moment_of rt clk i start s /\
    moment_of rt clk i (stored_end end_date) e /\
    moment_of rt clk i start s' /\
    reading_of clk i now /\
    value_of (Experience.init rt position company description start end_date clk i) =
      if dt_ge s e || dt_gt s' now
      then Raise (ValueError DATE_ORDER_MESSAGE)
      else Ok (Experience.mk position company description start (stored_end end_date)).
Proof.
  intros Hp Hc Hd Hs He. rewrite (Experience_init_dates rt _ _ _ start end_date Hp Hc Hd).
  apply valid_stored_end in He.
  unfold bindM, today, throw, ret.
  destruct (valid_Date_cases _ _ Hs) as [Ps|[Ds [ts Ts]]];
    destruct (valid_Date_cases _ _ He) as [Pe|[De [te Te]]].
  - exists (clk i), (clk (1 + i)%nat), (clk (2 + i)%nat), (clk (3 + i)%nat).
    rewrite !(to_datetime_present rt _ _ _ Ps), (to_datetime_present rt _ _ _ Pe).
    repeat split; try (apply moment_of_present; [assumption | lia]);
      try (eexists; split; [|reflexivity]; lia).
    simpl. destruct (dt_ge (clk i) (clk (S i))); simpl; [reflexivity|].
    rewrite (to_datetime_present rt _ _ _ Ps).
    destruct (dt_gt _ _); reflexivity.
  - exists (clk i), te, (clk (1 + i)%nat), (clk (2 + i)%nat).
    rewrite !(to_datetime_present rt _ _ _ Ps), (to_datetime_dated rt _ _ _ _ De Te).
    repeat split; try (apply moment_of_present; [assumption | lia]);
      try (now apply moment_of_dated); try (eexists; split; [|reflexivity]; lia).
    simpl. destruct (dt_ge (clk i) te); simpl; [reflexivity|].
    rewrite (to_datetime_present rt _ _ _ Ps).
    destruct (dt_gt _ _); reflexivity.
  - exists ts, (clk i), ts, (clk (1 + i)%nat).
    rewrite !(to_datetime_dated rt _ _ _ _ Ds Ts), (to_datetime_present rt _ _ _ Pe).
    repeat split; try (apply moment_of_present; [assumption | lia]);
      try (now apply moment_of_dated); try (eexists; split; [|reflexivity]; lia).
    simpl. destruct (dt_ge ts (clk i)); simpl; [reflexivity|].
    rewrite (to_datetime_dated rt _ _ _ _ Ds Ts).
    destruct (dt_gt _ _); reflexivity.
  - exists ts, te, ts, (clk i).
    rewrite !(to_datetime_dated rt _ _ _ _ Ds Ts), (to_datetime_dated rt _ _ _ _ De Te).
    repeat split; try (now apply moment_of_dated);
      try (eexists; split; [|reflexivity]; lia).
    simpl. destruct (dt_ge ts te); simpl; [reflexivity|].
    rewrite (to_datetime_dated rt _ _ _ _ Ds Ts).
    destruct (dt_gt _ _); reflexivity.
Qed.

(** C4 at the failing input.  An [Experience] whose start date is
    ["present"] and whose end date is left out, or is ["present"] too,
    starts when it ends; it is rejected only if the clock shows no later
    moment at the second reading of the call than at the first, and is
    accepted by a clock that has moved on, as the clock of a machine has: the
    two dates are compared by two readings of the clock.  A clock that
    stands still rejects it.  For a start date that names a day the call
    does what is claimed: it rejects the entry when the day is at or after
    the end, or after the current moment, and builds it otherwise, the end
    ["present"] and the current moment being the readings the call takes. *)
Theorem Experience_accepts_present_start_and_end :
  forall (rt : Runtime) (clk : clock) (i : nat) (position company : pystr)
         (description : list BulletPoint.t),
    position <> [] -> company <> [] -> description <> [] ->
    (forall end_date,
        end_date = None \/ end_date = Some (Date.mk Date.PRESENT) ->
        value_of (Experience.init rt position company description
                    (Date.mk Date.PRESENT) end_date clk i) =
          if dt_ge (clk i) (clk (1 + i)%nat) || dt_gt (clk (2 + i)%nat) (clk (3 + i)%nat)
          then Raise (ValueError DATE_ORDER_MESSAGE)
          else Ok (Experience.mk position company description
                     (Date.mk Date.PRESENT) (Date.mk Date.PRESENT))) /\
    (dt_compare (clk i) (clk (1 + i)%nat) = Lt ->
     dt_compare (clk (2 + i)%nat) (clk (3 + i)%nat) <> Gt ->
     value_of (Experience.init rt position company description
                 (Date.mk Date.PRESENT) None clk i) =
       Ok (Experience.mk position company description
             (Date.mk Date.PRESENT) (Date.mk Date.PRESENT))) /\
    (forall now,
        value_of (Experience.init rt position company description
                    (Date.mk Date.PRESENT) None (fun _ => now) i) =
          Raise (ValueError DATE_ORDER_MESSAGE)) /\
    (forall e te,
        Date.value e <> Date.PRESENT -> strptime rt (Date.value e) = Ok te ->
        value_of (Experience.init rt position company description
                    (Date.mk Date.PRESENT) (Some e) clk i) =
          if dt_ge (clk i) te || dt_gt (clk (1 + i)%nat) (clk (2 + i)%nat)
          then Raise (ValueError DATE_ORDER_MESSAGE)
          else Ok (Experience.mk position company description (Date.mk Date.PRESENT) e)) /\
    (forall start ts,
        Date.value start <> Date.PRESENT -> strptime rt (Date.value start) = Ok ts ->
        (forall e te,
            Date.value e <> Date.PRESENT -> strptime rt (Date.value e) = Ok te ->
            value_of (Experience.init rt position company description start (Some e) clk i) =
              if dt_ge ts te || dt_gt ts (clk i)
              then Raise (ValueError DATE_ORDER_MESSAGE)
              else Ok (Experience.mk position company description start e)) /\
        (forall end_date,
            end_date = None \/ end_date = Some (Date.mk Date.PRESENT) ->
            value_of (Experience.init rt position company description start end_date clk i) =
              if dt_ge ts (clk i) || dt_gt ts (clk (1 + i)%nat)
              then Raise (ValueError DATE_ORDER_MESSAGE)
              else Ok (Experience.mk position company description start
                         (Date.mk Date.PRESENT)))).
Proof.
  intros rt clk i position company description Hp Hc Hd.
  assert (Hpp : forall c end_date,
             end_date = None \/ end_date = Some (Date.mk Date.PRESENT) ->
             value_of (Experience.init rt position company description
                         (Date.mk Date.PRESENT) end_date c i) =
               if dt_ge (c i) (c (1 + i)%nat) || dt_gt (c (2 + i)%nat) (c (3 + i)%nat)
               then Raise (ValueError DATE_ORDER_MESSAGE)
               else Ok (Experience.mk position company description
                          (Date.mk Date.PRESENT) (Date.mk Date.PRESENT))).
  { intros c end_date He.
    rewrite (Experience_init_dates rt _ _ _ _ end_date Hp Hc Hd).
    assert (Hs : stored_end end_date = Date.mk Date.PRESENT)
      by (destruct He as [->| ->]; reflexivity).
    rewrite Hs. unfold bindM, today, throw, ret.
    rewrite !(to_datetime_present rt (Date.mk Date.PRESENT) c _ eq_refl).
    simpl. destruct (dt_ge (c i) (c (S i))); simpl; [reflexivity|].
    try rewrite (to_datetime_present rt (Date.mk Date.PRESENT) c _ eq_refl).
    destruct (dt_gt _ _); reflexivity. }
  split; [exact (Hpp clk)|]. split; [|split; [|split; [|]]].
  - intros H1 H2. rewrite (Hpp clk None (or_introl eq_refl)).
    unfold dt_ge, dt_gt. rewrite H1.
    destruct (dt_compare (clk (2 + i)%nat) (clk (3 + i)%nat)); try reflexivity.
    now contradiction H2.
  - intros now. rewrite (Hpp (fun _ => now) None (or_introl eq_refl)).
    replace (dt_ge now now) with true; [reflexivity|].
    unfold dt_ge, dt_compare. now rewrite !N.compare_refl.
  - intros e te De Te.
    rewrite (Experience_init_dates rt _ _ _ _ (Some e) Hp Hc Hd).
    unfold bindM, today, throw, ret. cbn [stored_end].
    rewrite (to_datetime_present rt (Date.mk Date.PRESENT) clk _ eq_refl).
    rewrite (to_datetime_dated rt e te clk _ De Te).
    destruct (dt_ge (clk i) te); simpl; [reflexivity|].
    try rewrite (to_datetime_present rt (Date.mk Date.PRESENT) clk _ eq_refl).
    destruct (dt_gt _ _); reflexivity.
  - intros start ts Ds Ts. split.
    + intros e te De Te.
      rewrite (Experience_init_dates rt _ _ _ _ (Some e) Hp Hc Hd).
      unfold bindM, today, throw, ret. cbn [stored_end].
      rewrite (to_datetime_dated rt start ts clk _ Ds Ts).
      rewrite (to_datetime_dated rt e te clk _ De Te).
      destruct (dt_ge ts te); simpl; [reflexivity|].
      rewrite (to_datetime_dated rt start ts clk _ Ds Ts).
      destruct (dt_gt _ _); reflexivity.
    + intros end_date He.
      rewrite (Experience_init_dates rt _ _ _ _ end_date Hp Hc Hd).
      assert (Hs : stored_end end_date = Date.mk Date.PRESENT)
        by (destruct He as [->| ->]; reflexivity).
      rewrite Hs. unfold bindM, today, throw, ret.
      rewrite (to_datetime_dated rt start ts clk _ Ds Ts).
      rewrite (to_datetime_present rt (Date.mk Date.PRESENT) clk _ eq_refl).
      destruct (dt_ge ts (clk i)); simpl; [reflexivity|].
      rewrite (to_datetime_dated rt start ts clk _ Ds Ts).
      destruct (dt_gt _ _); reflexivity.
Qed.

Lemma Experience_accepts_present_start_and_end_witness :
  lit "Dev" <> [] /\ lit "Co" <> [] /\ [BulletPoint.mk (lit "Did X")] <> [] /\
  valid_Date rt_example (Date.mk Date.PRESENT) /\
  dt_compare (ticking 2026 11 3 0%nat) (ticking 2026 11 3 1%nat) = Lt /\
  value_of (Experience.init rt_example (lit "Dev") (lit "Co")
              [BulletPoint.mk (lit "Did X")] (Date.mk Date.PRESENT) None
              (ticking 2026 11 3) 0%nat) =
    Ok (Experience.mk (lit "Dev") (lit "Co") [BulletPoint.mk (lit "Did X")]
          (Date.mk Date.PRESENT) (Date.mk Date.PRESENT)).
Proof.
  assert (Hp : lit "Dev" <> []) by discriminate.
  assert (Hc : lit "Co" <> []) by discriminate.
  assert (Hd : [BulletPoint.mk (lit "Did X")] <> []) by discriminate.
  assert (H1 : dt_compare (ticking 2026 11 3 0%nat) (ticking 2026 11 3 1%nat) = Lt)
    by reflexivity.
  assert (H2 : dt_compare (ticking 2026 11 3 2%nat) (ticking 2026 11 3 3%nat) <> Gt)
    by discriminate.
  split; [exact Hp|]. split; [exact Hc|]. split; [exact Hd|].
  split; [reflexivity|]. split; [exact H1|].
  exact (proj1 (proj2 (Experience_accepts_present_start_and_end rt_example
                         (ticking 2026 11 3) 0%nat _ _ _ Hp Hc Hd)) H1 H2).
Defined.

(** ** Order of moments *)

Lemma dt_compare_Lt (a b : datetime) :
  dt_compare a b = Lt <->
  (year a < year b \/ (year a = year b /\
   (month a < month b \/ (month a = month b /\
    (day a < day b \/ (day a = day b /\ micros a < micros b)))))).
Proof.
  unfold dt_compare.
  destruct (N.compare_spec (year a) (year b));
    destruct (N.compare_spec (month a) (month b));
    destruct (N.compare_spec (day a) (day b));
    destruct (N.compare_spec (micros a) (micros b));
    split; intros; try discriminate; try reflexivity; lia.
Qed.

Lemma dt_compare_Gt (a b : datetime) :
  dt_compare a b = Gt <->
  (year b < year a \/ (year a = year b /\
   (month b < month a \/ (month a = month b /\
    (day b < day a \/ (day a = day b /\ micros b < micros a)))))).
Proof.
  unfold dt_compare.
  destruct (N.compare_spec (year a) (year b));
    destruct (N.compare_spec (month a) (month b));
    destruct (N.compare_spec (day a) (day b));
    destruct (N.compare_spec (micros a) (micros b));
    split; intros; try discriminate; try reflexivity; lia.
Qed.

(** [a < b] and [b <= c] give [a < c]. *)
Lemma dt_ge_false_later (a b c : datetime) :
  dt_ge a b = false -> dt_compare b c <> Gt -> dt_ge a c = false.
Proof.
  unfold dt_ge. intros Hab Hbc.
  assert (Lab : dt_compare a b = Lt) by (destruct (dt_compare a b); congruence).
  assert (Lac : dt_compare a c = Lt).
  { rewrite dt_compare_Lt in *. rewrite dt_compare_Gt in Hbc. lia. }
  now rewrite Lac.
Qed.

(** [a <= b] and [b <= c] give [a <= c]. *)
Lemma dt_gt_false_later (a b c : datetime) :
  dt_gt a b = false -> dt_compare b c <> Gt -> dt_gt a c = false.
Proof.
  unfold dt_gt. intros Hab Hbc.
  assert (Nab : dt_compare a b <> Gt) by (destruct (dt_compare a b); congruence).
  assert (Nac : dt_compare a c <> Gt).
  { rewrite dt_compare_Gt in *. lia. }
  destruct (dt_compare a c); congruence.
Qed.

(** ** Round trip through the plain record *)

Lemma valid_Email_nonempty (rt : Runtime) (e : Email.t) :
  valid_Email rt e -> Email.value e <> [].
Proof. unfold valid_Email. intros H E. rewrite E in H. discriminate. Qed.

Lemma valid_PhoneNumber_nonempty (rt : Runtime) (n : PhoneNumber.t) :
  valid_PhoneNumber rt n -> PhoneNumber.value n <> [].
Proof. unfold valid_PhoneNumber. intros H E. rewrite E in H. discriminate. Qed.

Lemma valid_Website_nonempty (rt : Runtime) (w : Website.t) :
  valid_Website rt w -> Website.value w <> [].
Proof. unfold valid_Website. intros H E. rewrite E in H. discriminate. Qed.

Lemma valid_LinkedIn_nonempty (rt : Runtime) (w : Website.t) :
  valid_LinkedIn rt w -> Website.value w <> [].
Proof. unfold valid_LinkedIn. intros H E. rewrite E in H. discriminate. Qed.

Lemma valid_GitHub_nonempty (rt : Runtime) (w : Website.t) :
  valid_GitHub rt w -> Website.value w <> [].
Proof. unfold valid_GitHub. intros H E. rewrite E in H. discriminate. Qed.

Lemma valid_Date_nonempty (rt : Runtime) (d : Date.t) :
  valid_Date rt d -> Date.value d <> [].
Proof. unfold valid_Date. intros H E. rewrite E in H. discriminate. Qed.

(** An optional field written by [to_dict] is read back by [from_dict]. *)
Lemma optional_field_roundtrip {A : Type} (entries : list (pystr * pyval)) (k : string)
    (str : A -> pystr) (make : pyval -> result A) (x : option A) :
  assoc (lit k) entries = Some (Header.opt_str str x) ->
  valid_opt (fun a => str a <> [] /\ make (VStr (str a)) = Ok a) x ->
  Resume.optional_field (VDict entries) k make = Ok x.
Proof.
  intros Hk Hx. unfold Resume.optional_field, py_get, py_item. rewrite Hk.
  destruct x as [a|]; simpl in *; [|reflexivity].
  destruct Hx as [Hne Hmake]. rewrite (is_empty_false _ Hne), Hmake. reflexivity.
Qed.

Lemma from_dict_header_roundtrip (rt : Runtime) (d : Resume.t) :
  valid_Header rt (Resume.header d) ->
  Resume.from_dict_header rt (Resume.to_dict d) = Ok (Resume.header d).
Proof.
  intros (He & Hn & Hl & Hp & Hg). unfold Resume.from_dict_header.
  change (py_get (Resume.to_dict d) "header" (VDict []))
    with (Ok (Header.to_dict (Resume.header d))).
  cbn [bind]. unfold Header.to_dict.
  set (h := Resume.header d) in *.
  match goal with |- context [py_get ?x "name" ?y] =>
    change (py_get x "name" y) with (Ok (VStr (Header.name h))) end.
  cbn [bind].
  rewrite (optional_field_roundtrip _ "email" Email.str (Resume.make_Email rt) (Header.email h));
    [|reflexivity|]; cycle 1.
  { destruct (Header.email h) as [e|]; simpl in *; [|exact I].
    split; [now apply (valid_Email_nonempty rt) | exact He]. }
  rewrite (optional_field_roundtrip _ "number" PhoneNumber.str (Resume.make_PhoneNumber rt)
             (Header.number h)); [|reflexivity|]; cycle 1.
  { destruct (Header.number h) as [n|]; simpl in *; [|exact I].
    split; [now apply (valid_PhoneNumber_nonempty rt) | exact Hn]. }
  rewrite (optional_field_roundtrip _ "linkedin" Website.str (Resume.make_LinkedIn rt)
             (Header.linkedin h)); [|reflexivity|]; cycle 1.
  { destruct (Header.linkedin h) as [w|]; simpl in *; [|exact I].
    split; [now apply (valid_LinkedIn_nonempty rt) | exact Hl]. }
  rewrite (optional_field_roundtrip _ "portfolio" Website.str (Resume.make_Website rt)
             (Header.portfolio h)); [|reflexivity|]; cycle 1.
  { destruct (Header.portfolio h) as [w|]; simpl in *; [|exact I].
    split; [now apply (valid_Website_nonempty rt) | exact Hp]. }
  rewrite (optional_field_roundtrip _ "github" Website.str (Resume.make_GitHub rt)
             (Header.github h)); [|reflexivity|]; cycle 1.
  { destruct (Header.github h) as [w|]; simpl in *; [|exact I].
    split; [now apply (valid_GitHub_nonempty rt) | exact Hg]. }
  cbn [bind as_str]. unfold Header.init. now destruct h.
Qed.

Lemma map_result_roundtrip {A : Type} (f : pyval -> result A) (g : A -> pyval)
    (l : list A) :
  Forall (fun a => f (g a) = Ok a) l -> map_result f (map g l) = Ok l.
Proof.
  induction 1 as [|a l Ha _ IH]; simpl; [reflexivity|].
  rewrite Ha. simpl. rewrite IH. reflexivity.
Qed.

Lemma set_elements_roundtrip (l : list pystr) :
  map_result Resume.set_element (map VStr l) = Ok l.
Proof. apply map_result_roundtrip. now apply Forall_forall. Qed.

Lemma as_str_list_roundtrip (l : list pystr) :
  Resume.as_str_list (VList (map VStr l)) = Ok l.
Proof. apply map_result_roundtrip. now apply Forall_forall. Qed.

Lemma from_dict_description_roundtrip (entries : list (pystr * pyval))
    (l : list BulletPoint.t) :
  assoc (lit "description") entries = Some (VList (map BulletPoint.to_dict l)) ->
  Forall valid_BulletPoint l ->
  Resume.from_dict_description (VDict entries) = Ok l.
Proof.
  intros Hk Hl. unfold Resume.from_dict_description, py_get. rewrite Hk. cbn [bind py_iter].
  apply map_result_roundtrip. revert Hl. apply Forall_impl. intros b Hb. exact Hb.
Qed.

Lemma set_order_nonempty (rt : Runtime) (l : list pystr) :
  set_order_sound rt -> l <> [] -> set_order rt l <> [].
Proof.
  intros Hs Hl E. destruct l as [|x l]; [congruence|].
  assert (Hx : In x (set_order rt (x :: l))) by (apply Hs; now left).
  rewrite E in Hx. contradiction.
Qed.

Lemma from_dict_skill_type_roundtrip (rt : Runtime) (st : SkillType.t) :
  set_order_sound rt -> valid_SkillType st ->
  exists st',
    Resume.from_dict_skill_type rt
      (VDict [ (lit "name", VStr (SkillType.name st));
               (lit "skills", VList (map VStr (SkillType.skills st))) ]) = Ok st' /\
    same_skill_set st st'.
Proof.
  intros Hs Hv. unfold Resume.from_dict_skill_type.
  match goal with |- context [py_item ?x "name"] =>
    change (py_item x "name") with (Ok (VStr (SkillType.name st)));
    change (py_item x "skills") with (Ok (VList (map VStr (SkillType.skills st)))) end.
  cbn [bind py_iter]. rewrite set_elements_roundtrip. cbn [bind as_str].
  assert (Hne : SkillType.skills st <> []).
  { unfold valid_SkillType, SkillType.init in Hv. intros E. rewrite E in Hv. discriminate. }
  unfold SkillType.init.
  rewrite (is_empty_false _ (set_order_nonempty rt _ Hs Hne)).
  eexists. split; [reflexivity|]. split; [reflexivity|].
  intros x. simpl. symmetry. apply Hs.
Qed.

Lemma from_dict_skill_types_roundtrip (rt : Runtime) (l : list SkillType.t) :
  set_order_sound rt -> Forall valid_SkillType l ->
  exists l',
    map_result (Resume.from_dict_skill_type rt)
      (map (fun st => VDict [ (lit "name", VStr (SkillType.name st));
                              (lit "skills", VList (map VStr (SkillType.skills st))) ]) l)
      = Ok l' /\
    Forall2 same_skill_set l l'.
Proof.
  intros Hs. induction 1 as [|st l Hst _ [l' [IH Hl']]]; simpl.
  - exists []. split; [reflexivity | constructor].
  - destruct (from_dict_skill_type_roundtrip rt st Hs Hst) as [st' [-> Hsame]].
    cbn [bind]. rewrite IH. cbn [bind]. exists (st' :: l'). split; [reflexivity|].
    now constructor.
Qed.

Lemma from_dict_skills_roundtrip (rt : Runtime) (d : Resume.t) :
  set_order_sound rt ->
  valid_opt (fun s => Forall valid_SkillType (SkillSection.skill_types s)) (Resume.skills d) ->
  exists sk,
    Resume.from_dict_skills rt (Resume.to_dict d) = Ok sk /\
    same_skills (Resume.skills d) sk.
Proof.
  intros Hs Hv. unfold Resume.from_dict_skills.
  change (py_get (Resume.to_dict d) "skills" VNone)
    with (Ok (Resume.opt_dict SkillSection.to_dict (Resume.skills d))).
  change (py_item (Resume.to_dict d) "skills")
    with (Ok (Resume.opt_dict SkillSection.to_dict (Resume.skills d))).
  destruct (Resume.skills d) as [sec|]; simpl in Hv |- *.
  - destruct (from_dict_skill_types_roundtrip rt _ Hs Hv) as [l' [Hl' Hsame]].
    rewrite Hl'. cbn [bind].
    eexists. split; [reflexivity|]. exact Hsame.
  - exists None. split; [reflexivity | exact I].
Qed.

(** An experience validated on one clock, with a dated start, is rebuilt on
    any later clock. *)
Lemma Experience_init_later (rt : Runtime) (c0 c1 : clock) (i j : nat)
    (position company : pystr) (description : list BulletPoint.t)
    (start end_date : Date.t) (e : Experience.t) :
  clock_after c0 c1 ->
  valid_Date rt start -> valid_Date rt end_date ->
  Date.value start <> Date.PRESENT ->
  value_of (Experience.init rt position company description start (Some end_date) c0 i) = Ok e ->
  exists j',
    Experience.init rt position company description start (Some end_date) c1 j = Ok (e, j').
Proof.
  intros Hafter Hs He Ds Hinit.
  destruct (valid_Date_cases rt start Hs) as [Ps|[_ [ts Ts]]]; [contradiction|].
  unfold Experience.init in *.
  destruct (is_empty position || is_empty company); [discriminate|].
  destruct (is_empty description); [discriminate|].
  unfold bindM, ret, today, throw in *.
  rewrite !(to_datetime_dated rt start ts _ _ Ds Ts) in *.
  destruct (valid_Date_cases rt end_date He) as [Pe|[De [te Te]]].
  - rewrite !(to_datetime_present rt end_date _ _ Pe) in *.
    destruct (dt_ge ts (c0 i)) eqn:G0; [discriminate|].
    rewrite (dt_ge_false_later ts (c0 i) (c1 j) G0 (Hafter i j)).
    rewrite !(to_datetime_dated rt start ts _ _ Ds Ts) in *.
    destruct (dt_gt ts (c0 (S i))) eqn:G1; [discriminate|].
    rewrite (dt_gt_false_later ts (c0 (S i)) (c1 (S j)) G1 (Hafter (S i) (S j))).
    simpl in Hinit. injection Hinit as <-. now eexists.
  - rewrite !(to_datetime_dated rt end_date te _ _ De Te) in *.
    destruct (dt_ge ts te) eqn:G0; [discriminate|].
    rewrite !(to_datetime_dated rt start ts _ _ Ds Ts) in *.
    destruct (dt_gt ts (c0 i)) eqn:G1; [discriminate|].
    rewrite (dt_gt_false_later ts (c0 i) (c1 j) G1 (Hafter i j)).
    simpl in Hinit. injection Hinit as <-. now eexists.
Qed.

Lemma from_dict_experience_to_dict (rt : Runtime) (e : Experience.t) (clk : clock) (j : nat) :
  Forall valid_BulletPoint (Experience.description e) ->
  valid_Date rt (Experience.start_date e) -> valid_Date rt (Experience.end_date e) ->
  Resume.from_dict_experience rt (Experience.to_dict e) clk j =
    Experience.init rt (Experience.position e) (Experience.company e)
      (Experience.description e) (Experience.start_date e)
      (Some (Experience.end_date e)) clk j.
Proof.
  intros Hb Hs He. unfold Resume.from_dict_experience, bindM, lift.
  change (py_item (Experience.to_dict e) "position") with (Ok (VStr (Experience.position e))).
  change (py_item (Experience.to_dict e) "company") with (Ok (VStr (Experience.company e))).
  change (py_item (Experience.to_dict e) "start_date")
    with (Ok (VStr (Date.str (Experience.start_date e)))).
  change (py_item (Experience.to_dict e) "end_date")
    with (Ok (VStr (Date.str (Experience.end_date e)))).
  change (py_get (Experience.to_dict e) "end_date" VNone)
    with (Ok (VStr (Date.str (Experience.end_date e)))).
  unfold Experience.to_dict at 1.
  match goal with |- context [Resume.from_dict_description (VDict ?en)] =>
    rewrite (from_dict_description_roundtrip en (Experience.description e) eq_refl Hb) end.
  cbn [bind Resume.make_Date method_arg truthy as_str]. unfold Date.str.
  rewrite (is_empty_false _ (valid_Date_nonempty rt _ He)).
  unfold valid_Date in Hs, He. rewrite Hs. cbn [negb bind]. rewrite He. reflexivity.
Qed.

Lemma from_dict_experience_roundtrip (rt : Runtime) (c0 c1 : clock) (j : nat)
    (e : Experience.t) :
  clock_after c0 c1 -> valid_Experience rt c0 e ->
  Date.value (Experience.start_date e) <> Date.PRESENT ->
  exists j', Resume.from_dict_experience rt (Experience.to_dict e) c1 j = Ok (e, j').
Proof.
  intros Hafter (Hb & Hs & He & i & Hinit) Ds.
  rewrite (from_dict_experience_to_dict rt e c1 j Hb Hs He).
  exact (Experience_init_later rt c0 c1 i j _ _ _ _ _ e Hafter Hs He Ds Hinit).
Qed.

Lemma mapM_roundtrip {A : Type} (f : pyval -> M A) (g : A -> pyval) (clk : clock)
    (l : list A) :
  Forall (fun a => forall j, exists j', f (g a) clk j = Ok (a, j')) l ->
  forall j, exists j', mapM f (map g l) clk j = Ok (l, j').
Proof.
  induction 1 as [|a l Ha _ IH]; intros j; simpl.
  - now exists j.
  - unfold bindM at 1. destruct (Ha j) as [j1 ->].
    unfold bindM at 1. destruct (IH j1) as [j2 ->].
    now exists j2.
Qed.

Lemma from_dict_experiences_roundtrip (rt : Runtime) (c0 c1 : clock) (j : nat)
    (d : Resume.t) :
  clock_after c0 c1 ->
  valid_opt (fun s => Forall (valid_Experience rt c0) (ExperienceSection.experiences s))
    (Resume.experience d) ->
  valid_opt (fun s => Forall (fun e => Date.value (Experience.start_date e) <> Date.PRESENT)
                        (ExperienceSection.experiences s)) (Resume.experience d) ->
  exists j',
    Resume.from_dict_experiences rt (Resume.to_dict d) c1 j = Ok (Resume.experience d, j').
Proof.
  intros Hafter Hv Hd. unfold Resume.from_dict_experiences, bindM, lift.
  change (py_get (Resume.to_dict d) "experience" VNone)
    with (Ok (Resume.opt_dict ExperienceSection.to_dict (Resume.experience d))).
  change (py_item (Resume.to_dict d) "experience")
    with (Ok (Resume.opt_dict ExperienceSection.to_dict (Resume.experience d))).
  destruct (Resume.experience d) as [[l]|]; simpl in Hv, Hd |- *.
  - destruct (mapM_roundtrip (Resume.from_dict_experience rt) Experience.to_dict c1 l) with (j := j)
      as [j' ->].
    + rewrite Forall_forall in *. intros e He j0.
      apply (from_dict_experience_roundtrip rt c0 c1 j0 e Hafter (Hv e He) (Hd e He)).
    + now exists j'.
  - now exists j.
Qed.

Lemma from_dict_project_roundtrip (rt : Runtime) (p : Project.t) :
  valid_Project rt p -> Resume.from_dict_project rt (Project.to_dict p) = Ok p.
Proof.
  intros (Hb & Hl & Hinit). unfold Resume.from_dict_project.
  change (py_item (Project.to_dict p) "name") with (Ok (VStr (Project.name p))).
  change (py_get (Project.to_dict p) "skills" (VList []))
    with (Ok (VList (map VStr (Project.skills p)))).
  unfold Project.to_dict.
  match goal with |- context [Resume.from_dict_description (VDict ?en)] =>
    rewrite (from_dict_description_roundtrip en (Project.description p) eq_refl Hb);
    rewrite (optional_field_roundtrip en "link" Website.str (Resume.make_Website rt)
               (Project.link p) eq_refl)
  end.
  - cbn [bind as_str]. rewrite as_str_list_roundtrip. cbn [bind]. exact Hinit.
  - destruct (Project.link p) as [w|]; simpl in *; [|exact I].
    split; [now apply (valid_Website_nonempty rt) | exact Hl].
Qed.

Lemma from_dict_projects_roundtrip (rt : Runtime) (d : Resume.t) :
  valid_opt (fun s => Forall (valid_Project rt) (ProjectSection.projects s))
    (Resume.projects d) ->
  Resume.from_dict_projects rt (Resume.to_dict d) = Ok (Resume.projects d).
Proof.
  intros Hv. unfold Resume.from_dict_projects.
  change (py_get (Resume.to_dict d) "projects" VNone)
    with (Ok (Resume.opt_dict ProjectSection.to_dict (Resume.projects d))).
  change (py_item (Resume.to_dict d) "projects")
    with (Ok (Resume.opt_dict ProjectSection.to_dict (Resume.projects d))).
  destruct (Resume.projects d) as [[l]|]; simpl in Hv |- *; [|reflexivity].
  rewrite (map_result_roundtrip (Resume.from_dict_project rt) Project.to_dict l).
  - reflexivity.
  - revert Hv. apply Forall_impl. intros p. apply from_dict_project_roundtrip.
Qed.

(** An education validated on one clock, with a dated start, is rebuilt on
    any later clock. *)
Lemma Education_init_later (rt : Runtime) (c0 c1 : clock) (i j : nat)
    (school degree : pystr) (start : Date.t) (awards : option (list pystr))
    (gpa : option float) (ed : Education.t) :
  clock_after c0 c1 -> valid_Date rt start -> Date.value start <> Date.PRESENT ->
  value_of (Education.init rt school degree start awards gpa c0 i) = Ok ed ->
  exists j', Education.init rt school degree start awards gpa c1 j = Ok (ed, j').
Proof.
  intros Hafter Hs Ds Hinit.
  destruct (valid_Date_cases rt start Hs) as [Ps|[_ [ts Ts]]]; [contradiction|].
  unfold Education.init in *.
  destruct (is_empty degree || is_empty school); [discriminate|].
  unfold bindM, ret, today, throw in *.
  rewrite !(to_datetime_dated rt start ts _ _ Ds Ts) in *.
  destruct (dt_ge ts (c0 i)) eqn:G0; [discriminate|].
  rewrite (dt_ge_false_later ts (c0 i) (c1 j) G0 (Hafter i j)).
  destruct (Education.gpa_out_of_range gpa); [discriminate|].
  simpl in Hinit. injection Hinit as <-. now eexists.
Qed.

Lemma as_awards_roundtrip (l : list pystr) :
  exists a, Resume.as_awards (VList (map VStr l)) = Ok a /\
            match a with Some l' => l' | None => [] end = l.
Proof.
  unfold Resume.as_awards. rewrite as_str_list_roundtrip. simpl. now eexists.
Qed.

Lemma from_dict_education_roundtrip (rt : Runtime) (c0 c1 : clock) (j : nat)
    (ed : Education.t) :
  clock_after c0 c1 -> valid_Education rt c0 ed ->
  Date.value (Education.start_date ed) <> Date.PRESENT ->
  exists j', Resume.from_dict_education rt (Education.to_dict ed) c1 j = Ok (ed, j').
Proof.
  intros Hafter (Hs & i & Hinit) Ds.
  unfold Resume.from_dict_education, bindM, lift.
  change (py_item (Education.to_dict ed) "school") with (Ok (VStr (Education.school ed))).
  change (py_item (Education.to_dict ed) "degree") with (Ok (VStr (Education.degree ed))).
  change (py_item (Education.to_dict ed) "start_date")
    with (Ok (VStr (Date.str (Education.start_date ed)))).
  change (py_get (Education.to_dict ed) "awards" VNone)
    with (Ok (VList (map VStr (Education.awards ed)))).
  change (py_get (Education.to_dict ed) "gpa" VNone)
    with (Ok (match Education.gpa ed with Some g => VFloat g | None => VNone end)).
  cbn [bind Resume.make_Date method_arg as_str]. unfold Date.str.
  pose proof Hs as Hs'. unfold valid_Date in Hs'. rewrite Hs'.
  unfold Resume.as_awards. rewrite as_str_list_roundtrip. cbn [bind].
  assert (Hg : Resume.as_gpa (match Education.gpa ed with Some g => VFloat g | None => VNone end)
               = Ok (Education.gpa ed)) by (now destruct (Education.gpa ed)).
  rewrite Hg.
  exact (Education_init_later rt c0 c1 i j _ _ _ _ _ ed Hafter Hs Ds Hinit).
Qed.

Lemma from_dict_educations_roundtrip (rt : Runtime) (c0 c1 : clock) (j : nat)
    (d : Resume.t) :
  clock_after c0 c1 ->
  valid_opt (fun s => Forall (valid_Education rt c0) (EducationSection.educations s))
    (Resume.education d) ->
  valid_opt (fun s => Forall (fun e => Date.value (Education.start_date e) <> Date.PRESENT)
                        (EducationSection.educations s)) (Resume.education d) ->
  exists j',
    Resume.from_dict_educations rt (Resume.to_dict d) c1 j = Ok (Resume.education d, j').
Proof.
  intros Hafter Hv Hd. unfold Resume.from_dict_educations, bindM, lift.
  change (py_get (Resume.to_dict d) "education" VNone)
    with (Ok (Resume.opt_dict EducationSection.to_dict (Resume.education d))).
  change (py_item (Resume.to_dict d) "education")
    with (Ok (Resume.opt_dict EducationSection.to_dict (Resume.education d))).
  destruct (Resume.education d) as [[l]|]; simpl in Hv, Hd |- *.
  - destruct (mapM_roundtrip (Resume.from_dict_education rt) Education.to_dict c1 l) with (j := j)
      as [j' ->].
    + rewrite Forall_forall in *. intros e He j0.
      apply (from_dict_education_roundtrip rt c0 c1 j0 e Hafter (Hv e He) (Hd e He)).
    + now exists j'.
  - now exists j.
Qed.

(** *** What reconstruction can do at any time *)

Lemma value_of_Ok {A : Type} (r : result (A * nat)) (a : A) :
  value_of r = Ok a -> exists j, r = Ok (a, j).
Proof.
  destruct r as [[a' j]| |]; simpl; try discriminate.
  intros H. injection H as ->. now exists j.
Qed.

Lemma value_of_Raise {A : Type} (r : result (A * nat)) (e : exn) :
  value_of r = Raise e -> r = Raise e.
Proof.
  destruct r as [[a' j]| |]; simpl; try discriminate. intros H. now injection H as ->.
Qed.

Lemma Experience_init_outcome (rt : Runtime) (c0 clk : clock) (i j : nat)
    (position company : pystr) (description : list BulletPoint.t)
    (start end_date : Date.t) (e : Experience.t) :
  valid_Date rt start -> valid_Date rt end_date ->
  value_of (Experience.init rt position company description start (Some end_date) c0 i) = Ok e ->
  returns_or_rejects
    (value_of (Experience.init rt position company description start (Some end_date) clk j)) e.
Proof.
  intros Hs He Hinit.
  assert (Hp : position <> []).
  { intros ->. unfold Experience.init in Hinit. discriminate. }
  assert (Hc : company <> []).
  { intros ->. unfold Experience.init in Hinit.
    rewrite orb_true_r in Hinit. discriminate. }
  assert (Hd : description <> []).
  { intros ->. unfold Experience.init in Hinit.
    destruct (is_empty position || is_empty company); discriminate. }
  destruct (Experience_init_moments rt c0 i position company description start
              (Some end_date) Hp Hc Hd Hs He) as (s0 & e0 & s0' & n0 & _ & _ & _ & _ & H0).
  rewrite H0 in Hinit.
  destruct (dt_ge s0 e0 || dt_gt s0' n0); [discriminate|]. injection Hinit as <-.
  destruct (Experience_init_moments rt clk j position company description start
              (Some end_date) Hp Hc Hd Hs He) as (s1 & e1 & s1' & n1 & _ & _ & _ & _ & H1).
  rewrite H1. destruct (dt_ge s1 e1 || dt_gt s1' n1).
  - right. now eexists.
  - now left.
Qed.

Lemma Education_init_outcome (rt : Runtime) (c0 clk : clock) (i j : nat)
    (school degree : pystr) (start : Date.t) (awards : option (list pystr))
    (gpa : option float) (ed : Education.t) :
  valid_Date rt start ->
  value_of (Education.init rt school degree start awards gpa c0 i) = Ok ed ->
  returns_or_rejects (value_of (Education.init rt school degree start awards gpa clk j)) ed.
Proof.
  intros Hs Hinit. unfold Education.init in *.
  destruct (is_empty degree || is_empty school); [discriminate|].
  unfold bindM, ret, today, throw in *.
  destruct (valid_Date_cases rt start Hs) as [Ps|[Ds [ts Ts]]].
  - rewrite !(to_datetime_present rt start _ _ Ps) in *.
    destruct (dt_ge (c0 i) (c0 (S i))); [discriminate|].
    destruct (Education.gpa_out_of_range gpa); [discriminate|].
    simpl in Hinit. injection Hinit as <-.
    destruct (dt_ge (clk j) (clk (S j))); [right; now eexists | now left].
  - rewrite !(to_datetime_dated rt start ts _ _ Ds Ts) in *.
    destruct (dt_ge ts (c0 i)); [discriminate|].
    destruct (Education.gpa_out_of_range gpa); [discriminate|].
    simpl in Hinit. injection Hinit as <-.
    destruct (dt_ge ts (clk j)); [right; now eexists | now left].
Qed.

Lemma mapM_outcome {A : Type} (f : pyval -> M A) (g : A -> pyval) (clk : clock)
    (l : list A) :
  Forall (fun a => forall j, returns_or_rejects (value_of (f (g a) clk j)) a) l ->
  forall j, returns_or_rejects (value_of (mapM f (map g l) clk j)) l.
Proof.
  induction 1 as [|a l Ha _ IH]; intros j; simpl.
  - now left.
  - unfold bindM at 1. destruct (Ha j) as [Hok|[msg Hr]].
    + apply value_of_Ok in Hok as [j1 ->].
      unfold bindM at 1. destruct (IH j1) as [Hok|[msg Hr]].
      * apply value_of_Ok in Hok as [j2 ->]. now left.
      * apply value_of_Raise in Hr. rewrite Hr. right. now eexists.
    + apply value_of_Raise in Hr. rewrite Hr. right. now eexists.
Qed.

Lemma from_dict_experiences_outcome (rt : Runtime) (c0 clk : clock) (j : nat)
    (d : Resume.t) :
  valid_opt (fun s => Forall (valid_Experience rt c0) (ExperienceSection.experiences s))
    (Resume.experience d) ->
  returns_or_rejects
    (value_of (Resume.from_dict_experiences rt (Resume.to_dict d) clk j))
    (Resume.experience d).
Proof.
  intros Hv. unfold Resume.from_dict_experiences, bindM, lift.
  change (py_get (Resume.to_dict d) "experience" VNone)
    with (Ok (Resume.opt_dict ExperienceSection.to_dict (Resume.experience d))).
  change (py_item (Resume.to_dict d) "experience")
    with (Ok (Resume.opt_dict ExperienceSection.to_dict (Resume.experience d))).
  destruct (Resume.experience d) as [[l]|]; simpl in Hv |- *; [|now left].
  destruct (mapM_outcome (Resume.from_dict_experience rt) Experience.to_dict clk l)
    with (j := j) as [Hok|[msg Hr]].
  - rewrite Forall_forall in *. intros e He j0.
    destruct (Hv e He) as (Hb & Hs & Hen & i & Hinit).
    rewrite (from_dict_experience_to_dict rt e clk j0 Hb Hs Hen).
    exact (Experience_init_outcome rt c0 clk i j0 _ _ _ _ _ e Hs Hen Hinit).
  - apply value_of_Ok in Hok as [j' ->]. now left.
  - apply value_of_Raise in Hr. rewrite Hr. right. now eexists.
Qed.

Lemma from_dict_education_to_dict (rt : Runtime) (ed : Education.t) (clk : clock) (j : nat) :
  valid_Date rt (Education.start_date ed) ->
  Resume.from_dict_education rt (Education.to_dict ed) clk j =
    Education.init rt (Education.school ed) (Education.degree ed)
      (Education.start_date ed) (Some (Education.awards ed)) (Education.gpa ed) clk j.
Proof.
  intros Hs. unfold Resume.from_dict_education, bindM, lift.
  change (py_item (Education.to_dict ed) "school") with (Ok (VStr (Education.school ed))).
  change (py_item (Education.to_dict ed) "degree") with (Ok (VStr (Education.degree ed))).
  change (py_item (Education.to_dict ed) "start_date")
    with (Ok (VStr (Date.str (Education.start_date ed)))).
  change (py_get (Education.to_dict ed) "awards" VNone)
    with (Ok (VList (map VStr (Education.awards ed)))).
  change (py_get (Education.to_dict ed) "gpa" VNone)
    with (Ok (match Education.gpa ed with Some g => VFloat g | None => VNone end)).
  cbn [bind Resume.make_Date method_arg as_str]. unfold Date.str.
  unfold valid_Date in Hs. rewrite Hs.
  unfold Resume.as_awards. rewrite as_str_list_roundtrip. cbn [bind].
  assert (Hg : Resume.as_gpa (match Education.gpa ed with Some g => VFloat g | None => VNone end)
               = Ok (Education.gpa ed)) by (now destruct (Education.gpa ed)).
  rewrite Hg. reflexivity.
Qed.

Lemma from_dict_educations_outcome (rt : Runtime) (c0 clk : clock) (j : nat)
    (d : Resume.t) :
  valid_opt (fun s => Forall (valid_Education rt c0) (EducationSection.educations s))
    (Resume.education d) ->
  returns_or_rejects
    (value_of (Resume.from_dict_educations rt (Resume.to_dict d) clk j))
    (Resume.education d).
Proof.
  intros Hv. unfold Resume.from_dict_educations, bindM, lift.
  change (py_get (Resume.to_dict d) "education" VNone)
    with (Ok (Resume.opt_dict EducationSection.to_dict (Resume.education d))).
  change (py_item (Resume.to_dict d) "education")
    with (Ok (Resume.opt_dict EducationSection.to_dict (Resume.education d))).
  destruct (Resume.education d) as [[l]|]; simpl in Hv |- *; [|now left].
  destruct (mapM_outcome (Resume.from_dict_education rt) Education.to_dict clk l)
    with (j := j) as [Hok|[msg Hr]].
  - rewrite Forall_forall in *. intros e He j0.
    destruct (Hv e He) as (Hs & i & Hinit).
    rewrite (from_dict_education_to_dict rt e clk j0 Hs).
    exact (Education_init_outcome rt c0 clk i j0 _ _ _ _ _ e Hs Hinit).
  - apply value_of_Ok in Hok as [j' ->]. now left.
  - apply value_of_Raise in Hr. rewrite Hr. right. now eexists.
Qed.

(** Whenever it is run, the reconstruction of a validated document returns a
    document with the same fields or is rejected by a date check. *)
Lemma from_dict_to_dict_outcome (rt : Runtime) (c0 clk : clock) (j : nat) (d : Resume.t) :
  set_order_sound rt -> valid_Resume rt c0 d ->
  (exists d', value_of (Resume.from_dict rt (Resume.to_dict d) clk j) = Ok d' /\
              same_fields d d') \/
  (exists msg, value_of (Resume.from_dict rt (Resume.to_dict d) clk j) =
                 Raise (ValueError msg)).
Proof.
  intros Hset (Hh & Hsk & Hex & Hpr & Hed).
  unfold Resume.from_dict, bindM, lift.
  rewrite (from_dict_header_roundtrip rt d Hh).
  destruct (from_dict_skills_roundtrip rt d Hset Hsk) as [sk [-> Hsame]].
  destruct (from_dict_experiences_outcome rt c0 clk j d Hex) as [Hok|[msg Hr]].
  - apply value_of_Ok in Hok as [j1 ->].
    rewrite (from_dict_projects_roundtrip rt d Hpr).
    destruct (from_dict_educations_outcome rt c0 clk j1 d Hed) as [Hok|[msg Hr]].
    + apply value_of_Ok in Hok as [j2 ->]. left.
      eexists. split; [reflexivity|]. repeat split; simpl; auto.
    + apply value_of_Raise in Hr. rewrite Hr. right. now eexists.
  - apply value_of_Raise in Hr. rewrite Hr. right. now eexists.
Qed.

(** C1, amended: whenever it is run, reconstructing a validated document
    from its record yields a document with the same fields, or is rejected
    with a [ValueError] by a date check run again.  It is not rejected, at
    the time of validation or later, when no experience and no education
    starts at ["present"].  The same fields are the same header, experiences,
    projects and educations, and skill groups of the same names holding the
    same sets of skill names. *)
Theorem from_dict_to_dict_roundtrip :
  forall (rt : Runtime) (c0 c1 : clock) (j : nat) (d : Resume.t),
    set_order_sound rt -> valid_Resume rt c0 d ->
    ((exists d', value_of (Resume.from_dict rt (Resume.to_dict d) c1 j) = Ok d' /\
                 same_fields d d') \/
     (exists msg, value_of (Resume.from_dict rt (Resume.to_dict d) c1 j) =
                    Raise (ValueError msg))) /\
    (clock_after c0 c1 -> starts_dated d ->
     exists d' j',
       Resume.from_dict rt (Resume.to_dict d) c1 j = Ok (d', j') /\
       same_fields d d').
Proof.
  intros rt c0 c1 j d Hset Hvalid.
  split; [now apply (from_dict_to_dict_outcome rt c0)|].
  destruct Hvalid as (Hh & Hsk & Hex & Hpr & Hed). intros Hafter (Dex & Ded).
  unfold Resume.from_dict, bindM, lift.
  rewrite (from_dict_header_roundtrip rt d Hh).
  destruct (from_dict_skills_roundtrip rt d Hset Hsk) as [sk [-> Hsame]].
  destruct (from_dict_experiences_roundtrip rt c0 c1 j d Hafter Hex Dex) as [j1 ->].
  rewrite (from_dict_projects_roundtrip rt d Hpr).
  destruct (from_dict_educations_roundtrip rt c0 c1 j1 d Hafter Hed Ded) as [j2 ->].
  unfold Resume.init. eexists. eexists. split; [reflexivity|].
  repeat split; simpl; auto.
Qed.

Lemma insertion_order_sound : set_order_sound rt_example.
Proof. intros l x. apply nodup_In. Qed.

Lemma clock_at_after (y m d y' m' d' : N) :
  dt_compare (mkdt y m d 43200000000) (mkdt y' m' d' 43200000000) <> Gt ->
  clock_after (clock_at y m d) (clock_at y' m' d').
Proof. intros H a b. exact H. Qed.

Lemma from_dict_to_dict_roundtrip_witness :
  set_order_sound rt_example /\
  clock_after (clock_at 2026 11 3) (clock_at 2026 11 4) /\
  valid_Resume rt_example (clock_at 2026 11 3) sample_resume /\
  starts_dated sample_resume /\
  exists d' j',
    Resume.from_dict rt_example (Resume.to_dict sample_resume) (clock_at 2026 11 4) 0%nat =
      Ok (d', j') /\
    same_fields sample_resume d'.
Proof.
  assert (Hset : set_order_sound rt_example) by exact insertion_order_sound.
  assert (Hafter : clock_after (clock_at 2026 11 3) (clock_at 2026 11 4))
    by (apply clock_at_after; discriminate).
  assert (Hvalid : valid_Resume rt_example (clock_at 2026 11 3) sample_resume).
  { split; [repeat split|]. split; [repeat constructor|].
    split; [|split].
    - constructor; [|constructor].
      split; [repeat constructor|]. split; [reflexivity|]. split; [reflexivity|].
      exists 0%nat. reflexivity.
    - constructor; [|constructor].
      split; [repeat constructor|]. split; reflexivity.
    - constructor; [|constructor].
      split; [reflexivity|]. exists 0%nat. reflexivity. }
  assert (Hdated : starts_dated sample_resume).
  { split; (constructor; [discriminate | constructor]). }
  repeat (split; [assumption|]).
  exact (proj2 (from_dict_to_dict_roundtrip rt_example (clock_at 2026 11 3)
                  (clock_at 2026 11 4) 0%nat sample_resume Hset Hvalid) Hafter Hdated).
Defined.

(** C1, as stated, fails: a validated document whose experience starts at
    ["present"] and ends on a later day is no longer accepted once that day
    has come. *)
Lemma roundtrip_fails_after_end_date :
  valid_Resume rt_example (clock_at 2026 11 3) open_ended_resume /\
  clock_after (clock_at 2026 11 3) (clock_at 2030 1 1) /\
  value_of (Resume.from_dict rt_example (Resume.to_dict open_ended_resume)
              (clock_at 2030 1 1) 0%nat) =
    Raise (ValueError DATE_ORDER_MESSAGE).
Proof.
  split; [|split].
  - split; [repeat split|]. split; [exact I|]. split; [|split; exact I].
    constructor; [|constructor].
    split; [repeat constructor|]. split; [reflexivity|]. split; [reflexivity|].
    exists 0%nat. reflexivity.
  - apply clock_at_after. discriminate.
  - reflexivity.
Qed.

(** ** Rendering and the order of a skill set *)






(** ** Absent sections *)

Lemma build_header_nonempty (rt : Runtime) (h : Header.t) (out : pystr) :
  build_header rt h = Ok out -> is_empty out = false.
Proof.
  unfold build_header.
  destruct (match Header.email h with Some _ => _ | None => _ end); cbn [bind]; try discriminate.
  destruct (match Header.number h with Some _ => _ | None => _ end); cbn [bind]; try discriminate.
  destruct (match Header.linkedin h with Some _ => _ | None => _ end); cbn [bind]; try discriminate.
  destruct (match Header.portfolio h with Some _ => _ | None => _ end); cbn [bind]; try discriminate.
  destruct (match Header.github h with Some _ => _ | None => _ end); cbn [bind]; try discriminate.
  intros H. injection H as <-. reflexivity.
Qed.

Lemma drop_empties_cons_empty (parts : list pystr) :
  drop_empties ([] :: parts) = drop_empties parts.
Proof. reflexivity. Qed.

Lemma drop_empties_cons (p : pystr) (parts : list pystr) :
  is_empty p = false -> drop_empties (p :: parts) = p :: drop_empties parts.
Proof. intros H. unfold drop_empties. simpl. now rewrite H. Qed.

Lemma LATEX_PREAMBLE_nonempty : is_empty LATEX_PREAMBLE = false.
Proof. reflexivity. Qed.

(** A skills block with a group opens with its heading. *)
Lemma build_skills_heading (sec : SkillSection.t) :
  SkillSection.skill_types sec <> [] ->
  startswith (build_skills (Some sec)) (lit "\section{Skills}" ++ NL) = true.
Proof.
  intros H. unfold build_skills. rewrite (is_empty_false _ H). reflexivity.
Qed.

(** ** The heading of an absent block occurs nowhere *)

Lemma differs_app (t u n : pystr) : differs t n = true -> differs (t ++ u) n = true.
Proof.
  revert n; induction t as [|x t IH]; intros [|y n]; simpl; try discriminate.
  intros H. apply orb_prop in H as [H|H].
  - now rewrite H.
  - rewrite (IH n H). apply orb_true_r.
Qed.

Lemma differs_startswith (t n : pystr) : differs t n = true -> startswith t n = false.
Proof.
  revert n; induction t as [|x t IH]; intros [|y n]; simpl; try discriminate.
  intros H. apply orb_prop in H as [H|H].
  - apply negb_true_iff in H. now rewrite H.
  - rewrite (IH n H). apply andb_false_r.
Qed.

Lemma settled_app (b : block) (l1 l2 : pystr) :
  settled b l1 = true -> settled b l2 = true -> settled b (l1 ++ l2) = true.
Proof.
  intros H1 H2. induction l1 as [|c t IH]; simpl in *; [exact H2|].
  apply andb_prop in H1 as [Hc Ht]. rewrite (IH Ht), andb_true_r.
  apply orb_prop in Hc as [Hc|Hc].
  - now rewrite Hc.
  - rewrite (differs_app _ _ _ Hc). apply orb_true_r.
Qed.

Lemma settled_no_heading (b : block) (l : pystr) :
  settled b l = true -> contains l (heading b) = false.
Proof.
  induction l as [|c t IH]; intros H.
  - now destruct b.
  - simpl in H. apply andb_prop in H as [Hc Ht].
    change (contains (c :: t) (heading b))
      with (((c =? BACKSLASH) && startswith t (heading_tail b)) || contains t (heading b)).
    rewrite (IH Ht), orb_false_r.
    apply orb_prop in Hc as [Hc|Hc].
    + apply negb_true_iff in Hc. now rewrite Hc.
    + rewrite (differs_startswith _ _ Hc). apply andb_false_r.
Qed.

Lemma settled_join (b : block) (sep : pystr) (parts : list pystr) :
  settled b sep = true -> Forall (fun p => settled b p = true) parts ->
  settled b (join sep parts) = true.
Proof.
  intros Hsep. induction 1 as [|p parts Hp Hparts IH]; [reflexivity|].
  destruct parts as [|q parts]; [exact Hp|].
  change (join sep (p :: q :: parts)) with (p ++ sep ++ join sep (q :: parts)).
  apply settled_app; [exact Hp|]. apply settled_app; [exact Hsep | exact IH].
Qed.

Lemma settled_concat (b : block) (ls : list (list pystr)) :
  Forall (Forall (fun p => settled b p = true)) ls ->
  Forall (fun p => settled b p = true) (List.concat ls).
Proof.
  induction 1 as [|l ls Hl _ IH]; simpl; [constructor|].
  apply Forall_app. now split.
Qed.

Lemma plain_settled (b : block) (l : pystr) : plain l = true -> settled b l = true.
Proof.
  induction l as [|c t IH]; simpl; [reflexivity|].
  intros H. apply andb_prop in H as [Hc Ht]. now rewrite Hc, (IH Ht).
Qed.

Lemma escaped_form_settled (b : block) (l : pystr) :
  escaped_form l = true -> settled b l = true.
Proof.
  induction l as [|c t IH]; simpl; [reflexivity|].
  intros H. apply andb_prop in H as [Hc Ht]. rewrite (IH Ht), andb_true_r.
  apply orb_prop in Hc as [Hc|Hc]; [now rewrite Hc|].
  destruct t as [|y t]; [discriminate|].
  assert (Hy : (y =? 115) = false).
  { destruct (N.eqb_spec y 115) as [->|]; [discriminate | reflexivity]. }
  assert (Hd : differs (y :: t) (heading_tail b) = true).
  { destruct b; cbn [heading_tail];
      match goal with |- differs _ (lit ?s) = true =>
        let v := eval vm_compute in (lit s) in change (lit s) with v end;
      cbn [differs]; now rewrite Hy. }
  rewrite Hd. apply orb_true_r.
Qed.

Lemma escaped_form_esc_char (c : char) (l : pystr) :
  escaped_form (esc_char c ++ l) = escaped_form l.
Proof.
  destruct (esc_char_cases c) as [[_ Hin]|[Hout ->]].
  - revert Hin. generalize (esc_char c). intros v Hin. simpl in Hin.
    repeat (destruct Hin as [Hin|Hin]; [injection Hin as _ <-; reflexivity|]).
    contradiction.
  - assert (Hc : (c =? BACKSLASH) = false).
    { apply N.eqb_neq. intros ->. apply Hout. vm_compute. tauto. }
    simpl. now rewrite Hc.
Qed.

Lemma escaped_form_esc (s : pystr) : escaped_form (esc (Some s)) = true.
Proof.
  induction s as [|c s IH]; [reflexivity|].
  now rewrite esc_cons, escaped_form_esc_char.
Qed.

Lemma settled_esc (b : block) (s : pystr) : settled b (esc (Some s)) = true.
Proof. apply escaped_form_settled, escaped_form_esc. Qed.

Lemma escaped_form_app (l1 l2 : pystr) :
  escaped_form l1 = true -> escaped_form l2 = true -> escaped_form (l1 ++ l2) = true.
Proof.
  intros H1 H2. induction l1 as [|c t IH]; simpl in *; [exact H2|].
  apply andb_prop in H1 as [Hc Ht]. rewrite (IH Ht), andb_true_r.
  apply orb_prop in Hc as [Hc|Hc]; [now rewrite Hc|].
  destruct t as [|y t]; [discriminate|]. simpl. rewrite Hc. apply orb_true_r.
Qed.

Lemma escaped_form_suffix (a b : pystr) :
  escaped_form (a ++ b) = true -> escaped_form b = true.
Proof.
  induction a as [|c a IH]; simpl; [auto|].
  intros H. apply andb_prop in H as [_ H]. auto.
Qed.

Lemma follower_not_space (rt : Runtime) (y : char) :
  existsb (N.eqb y) FOLLOWERS = true -> re_s rt y = false.
Proof.
  intros H. apply existsb_exists in H as [x [Hx Hy]].
  apply N.eqb_eq in Hy. subst y. simpl in Hx.
  repeat (destruct Hx as [<-|Hx]; [reflexivity|]). contradiction.
Qed.

Lemma escaped_form_prefix (rt : Runtime) (m post : pystr) :
  forallb (re_s rt) post = true ->
  escaped_form (m ++ post) = true -> escaped_form m = true.
Proof.
  intros Hpost. induction m as [|c m IH]; [reflexivity|].
  simpl. intros H. apply andb_prop in H as [Hc Hm].
  rewrite (IH Hm), andb_true_r.
  apply orb_prop in Hc as [Hc|Hc]; [now rewrite Hc|].
  destruct m as [|y m]; simpl in *.
  - destruct post as [|y post]; [discriminate|].
    simpl in Hpost. apply andb_prop in Hpost as [Hy _].
    now rewrite (follower_not_space rt y Hc) in Hy.
  - rewrite Hc. apply orb_true_r.
Qed.

Lemma lstrip_split (rt : Runtime) (l : pystr) :
  exists ws, l = ws ++ lstrip rt l /\ forallb (re_s rt) ws = true.
Proof.
  induction l as [|c l [ws [Hl Hws]]]; simpl.
  - now exists [].
  - destruct (re_s rt c) eqn:Hc.
    + exists (c :: ws). simpl. rewrite Hc, Hws. split; [now f_equal | reflexivity].
    + now exists [].
Qed.

Lemma strip_split (rt : Runtime) (l : pystr) :
  exists pre post, l = pre ++ strip rt l ++ post /\ forallb (re_s rt) post = true.
Proof.
  unfold strip.
  destruct (lstrip_split rt l) as [pre [Hl _]].
  destruct (lstrip_split rt (rev (lstrip rt l))) as [ws [Hr Hws]].
  exists pre, (rev ws). split.
  - rewrite Hl at 1. f_equal.
    rewrite <- (rev_involutive (lstrip rt l)) at 1. rewrite Hr at 1.
    now rewrite rev_app_distr.
  - rewrite forallb_forall in *. intros x Hx. apply Hws. now apply in_rev.
Qed.

Lemma escaped_form_strip (rt : Runtime) (l : pystr) :
  escaped_form l = true -> escaped_form (strip rt l) = true.
Proof.
  intros H. destruct (strip_split rt l) as [pre [post [Hl Hpost]]].
  rewrite Hl in H. apply escaped_form_suffix in H.
  now apply (escaped_form_prefix rt _ post).
Qed.

Ltac settle :=
  repeat first
    [ assumption
    | apply settled_esc
    | apply settled_join
    | apply settled_app
    | apply Forall_cons
    | apply Forall_nil
    | apply Forall_app; split
    | reflexivity
    | match goal with |- settled ?b _ = true => is_var b; destruct b; reflexivity end ].

Lemma bind_Ok {A B : Type} (r : result A) (k : A -> result B) (b : B) :
  bind r k = Ok b -> exists a, r = Ok a /\ k a = Ok b.
Proof. destruct r as [a| |]; simpl; try discriminate. intros H. now exists a. Qed.

Lemma Ok_inj {A : Type} (a b : A) : Ok a = Ok b -> a = b.
Proof. intros H. now injection H. Qed.

Lemma map_result_Forall {A B : Type} (f : A -> result B) (P : B -> Prop) (l : list A)
    (bs : list B) :
  (forall a b, f a = Ok b -> P b) -> map_result f l = Ok bs -> Forall P bs.
Proof.
  intros Hf. revert bs. induction l as [|a l IH]; simpl; intros bs H.
  - injection H as <-. constructor.
  - apply bind_Ok in H as [b [Hb H]]. apply bind_Ok in H as [bs' [Hbs H]].
    injection H as <-. constructor; [now apply (Hf a) | now apply IH].
Qed.

Lemma href_settled (b : block) (url : link_arg) (label : pystr) (blue : bool)
    (out : pystr) :
  match url with LinkStr u => settled b u = true | _ => True end ->
  href url label blue = Ok out -> settled b out = true.
Proof.
  destruct url as [|u|w]; unfold href; intros Hu H; try discriminate.
  - apply Ok_inj in H. subst out. apply settled_esc.
  - destruct (is_empty u); [apply Ok_inj in H; subst out; apply settled_esc|].
    destruct blue; apply Ok_inj in H; subst out; settle.
Qed.

Lemma mapping_get_cases (mapping : list (pystr * pystr)) (k default : pystr) :
  mapping_get mapping k default = default \/
  In (mapping_get mapping k default) (map snd mapping).
Proof.
  induction mapping as [|[k' v] mapping IH]; simpl; [now left|].
  destruct (str_eqb k' k); [right; now left|].
  destruct IH as [IH|IH]; [now left | right; now right].
Qed.

Lemma fa_settled (b : block) (icon_name : option pystr) :
  settled b (fa icon_name) = true.
Proof.
  destruct icon_name as [n|]; [|reflexivity]. unfold fa.
  destruct (is_empty n); [reflexivity|].
  destruct (mapping_get_cases fa_mapping n []) as [->|Hin]; [reflexivity|].
  revert Hin. generalize (mapping_get fa_mapping n []). intros v Hin.
  simpl in Hin.
  repeat (destruct Hin as [<-|Hin]; [destruct b; reflexivity|]). contradiction.
Qed.

Lemma blue_icon_settled (b : block) (icon_name : option pystr) :
  settled b (blue_icon icon_name) = true.
Proof.
  unfold blue_icon. destruct (is_empty (fa icon_name)); [reflexivity|].
  pose proof (fa_settled b icon_name). settle.
Qed.

Lemma contact_settled {A : Type} (b : block) (x : option A) (url label : A -> pystr)
    (icon : string) (o : option pystr) :
  match x with
  | Some a => l <- href (LinkStr (url a)) (label a) true ;; Ok (Some (contact_chunk icon l))
  | None => Ok None
  end = Ok o ->
  valid_opt (fun a => settled b (url a) = true) x ->
  settled b (lit icon) = true ->
  Forall (fun p => settled b p = true) (opt_list o).
Proof.
  destruct x as [a|]; intros H Hu Hi.
  - apply bind_Ok in H as [l [Hl H]]. apply Ok_inj in H. subst o.
    apply (href_settled b) in Hl; [|exact Hu]. cbn [opt_list]. unfold contact_chunk.
    constructor; [|constructor]. settle.
  - apply Ok_inj in H. subst o. constructor.
Qed.

Lemma filter_plain (f : char -> bool) (l : pystr) :
  f BACKSLASH = false -> plain (filter f l) = true.
Proof.
  intros Hf. induction l as [|c l IH]; simpl; [reflexivity|].
  destruct (f c) eqn:Hc; [|exact IH]. simpl. rewrite IH, andb_true_r.
  destruct (N.eqb_spec c BACKSLASH) as [->|]; [congruence | reflexivity].
Qed.

Lemma build_header_settled (rt : Runtime) (b : block) (h : Header.t) (out : pystr) :
  plain_links h -> build_header rt h = Ok out -> settled b out = true.
Proof.
  intros (He & Hl & Hp & Hg) H. unfold build_header in H.
  apply bind_Ok in H as [email [Hemail H]].
  apply bind_Ok in H as [number [Hnumber H]].
  apply bind_Ok in H as [linkedin [Hlinkedin H]].
  apply bind_Ok in H as [portfolio [Hportfolio H]].
  apply bind_Ok in H as [github [Hgithub H]].
  apply Ok_inj in H. subst out.
  apply (contact_settled b (Header.email h) (fun e => lit "mailto:" ++ Email.str e)
           Email.str "\faEnvelope") in Hemail; [| |now destruct b]; cycle 1.
  { destruct (Header.email h); cbn [valid_opt] in *; [|exact I].
    apply settled_app; [now destruct b | now apply plain_settled]. }
  apply (contact_settled b (Header.number h)
           (fun n => lit "tel:" ++ filter (fun ch => isdigit rt ch || (ch =? ord "+"))
                                     (PhoneNumber.str n))
           PhoneNumber.str "\faPhone") in Hnumber; [| |now destruct b]; cycle 1.
  { destruct (Header.number h); cbn [valid_opt] in *; [|exact I].
    apply settled_app; [now destruct b|]. apply plain_settled, filter_plain. reflexivity. }
  apply (contact_settled b (Header.linkedin h) Website.str (fun _ => lit "Linkedin")
           "\faLinkedin") in Hlinkedin; [| |now destruct b]; cycle 1.
  { destruct (Header.linkedin h); cbn [valid_opt] in *; [now apply plain_settled | exact I]. }
  apply (contact_settled b (Header.portfolio h) Website.str (fun _ => lit "Website")
           "\faGlobe") in Hportfolio; [| |now destruct b]; cycle 1.
  { destruct (Header.portfolio h); cbn [valid_opt] in *; [now apply plain_settled | exact I]. }
  apply (contact_settled b (Header.github h) Website.str (fun _ => lit "GitHub")
           "\faGithub") in Hgithub; [| |now destruct b]; cycle 1.
  { destruct (Header.github h); cbn [valid_opt] in *; [now apply plain_settled | exact I]. }
  settle.
Qed.

Lemma join_then_sep (sep : pystr) (l : list pystr) :
  l <> [] -> join sep l ++ sep = List.concat (map (fun x => x ++ sep) l).
Proof.
  induction l as [|x l IH]; [congruence|]. intros _.
  destruct l as [|y l].
  - simpl. now rewrite app_nil_r.
  - change (join sep (x :: y :: l)) with (x ++ sep ++ join sep (y :: l)).
    transitivity ((x ++ sep) ++ (join sep (y :: l) ++ sep));
      [now rewrite <- !app_assoc|].
    rewrite IH by discriminate. reflexivity.
Qed.

Lemma settled_flat (b : block) (ls : list pystr) :
  Forall (fun p => settled b p = true) ls -> settled b (List.concat ls) = true.
Proof.
  induction 1 as [|l ls Hl _ IH]; [reflexivity|]. simpl. now apply settled_app.
Qed.

(** A skill line ends in a backslash, and is followed by a line break. *)
Lemma skill_line_settled (b : block) (st : SkillType.t) :
  settled b (skill_line st ++ NL) = true.
Proof.
  unfold skill_line. rewrite <- !app_assoc.
  apply settled_app; [now destruct b|]. apply settled_app; [apply settled_esc|].
  apply settled_app; [now destruct b|]. apply settled_app; [apply settled_esc|].
  now destruct b.
Qed.

Lemma build_skills_settled (b : block) (skills : option SkillSection.t) :
  (b = SkillsBlock -> skills = None) -> settled b (build_skills skills) = true.
Proof.
  intros Hb. destruct skills as [sec|]; [|reflexivity].
  assert (Hne : b <> SkillsBlock) by (intros ->; specialize (Hb eq_refl); discriminate).
  unfold build_skills.
  destruct (SkillSection.skill_types sec) as [|st l] eqn:E; [reflexivity|].
  cbn [is_empty].
  set (inner := join NL (map skill_line (st :: l))).
  assert (Hinner : settled b (inner ++ NL) = true).
  { unfold inner. rewrite join_then_sep by discriminate.
    apply settled_flat, Forall_forall. intros p Hp.
    apply in_map_iff in Hp as [q [<- Hq]]. apply in_map_iff in Hq as [st' [<- _]].
    apply skill_line_settled. }
  change (settled b (lit "\section{Skills}" ++ NL ++
                     lit " \begin{itemize}[leftmargin=0.15in, label={}]" ++ NL ++
                     lit "    \small{\item{" ++ NL ++
                     inner ++ NL ++ lit "    }}" ++ NL ++ lit " " ++ NL ++
                     lit " \end{itemize}" ++ NL ++ []) = true).
  rewrite (app_assoc inner NL).
  destruct b; [contradiction| | |];
    repeat (apply settled_app; [first [exact Hinner | reflexivity]|]); reflexivity.
Qed.

Lemma bullet_lines_settled (b : block) (indent : string) (bullets : list BulletPoint.t) :
  settled b (lit indent) = true ->
  Forall (fun p => settled b p = true) (bullet_lines indent bullets).
Proof.
  intros Hi. unfold bullet_lines. destruct (is_empty bullets); [constructor|].
  apply Forall_app. split; [constructor; [settle | constructor]|].
  apply Forall_app. split; [|constructor; [settle | constructor]].
  apply Forall_forall. intros p Hp. apply in_map_iff in Hp as [bp [<- _]]. settle.
Qed.

Lemma experience_lines_settled (rt : Runtime) (b : block) (e : Experience.t)
    (ls : list pystr) :
  experience_lines rt e = Ok ls -> Forall (fun p => settled b p = true) ls.
Proof.
  unfold experience_lines. cbn [href bind]. intros H. apply Ok_inj in H. subst ls.
  pose proof (blue_icon_settled b (maybe_icon_from_role rt (Experience.position e))).
  assert (settled b (strip rt (esc (Some (Date.str (Experience.start_date e))) ++
                               lit " -- " ++
                               esc (Some (Date.str (Experience.end_date e))))) = true).
  { apply escaped_form_settled, escaped_form_strip.
    apply escaped_form_app; [apply escaped_form_esc|].
    apply escaped_form_app; [reflexivity | apply escaped_form_esc]. }
  apply Forall_app. split; [constructor; [settle | constructor]|].
  apply bullet_lines_settled. now destruct b.
Qed.

Lemma build_experience_settled (rt : Runtime) (b : block)
    (exp : option ExperienceSection.t) (out : pystr) :
  (b = ExperienceBlock -> exp = None) ->
  build_experience rt exp = Ok out -> settled b out = true.
Proof.
  intros Hb. destruct exp as [sec|]; unfold build_experience;
    [|intros H; apply Ok_inj in H; now subst out].
  destruct (is_empty (ExperienceSection.experiences sec));
    [intros H; apply Ok_inj in H; now subst out|].
  intros H. apply bind_Ok in H as [entries [Hentries H]]. apply Ok_inj in H. subst out.
  apply (map_result_Forall (experience_lines rt) (Forall (fun p => settled b p = true)))
    in Hentries; [|apply experience_lines_settled].
  apply settled_concat in Hentries.
  destruct b; try (specialize (Hb eq_refl); discriminate); settle.
Qed.

Lemma project_lines_settled (b : block) (p : Project.t) (ls : list pystr) :
  project_lines p = Ok ls -> Forall (fun p => settled b p = true) ls.
Proof.
  unfold project_lines. intros H. apply bind_Ok in H as [label [Hlabel H]].
  apply Ok_inj in H. subst ls.
  apply (href_settled b) in Hlabel; [|now destruct (Project.link p)].
  pose proof (fa_settled b (Some (lit "ShareSquare"))).
  pose proof (bullet_lines_settled b "          " (Project.description p)) as Hbl.
  constructor; [settle|]. constructor; [settle|].
  apply Forall_app. split; [apply Hbl; now destruct b | settle].
Qed.

Lemma build_projects_settled (b : block) (proj : option ProjectSection.t) (out : pystr) :
  (b = ProjectsBlock -> proj = None) ->
  build_projects proj = Ok out -> settled b out = true.
Proof.
  intros Hb. destruct proj as [sec|]; unfold build_projects;
    [|intros H; apply Ok_inj in H; now subst out].
  destruct (is_empty (ProjectSection.projects sec));
    [intros H; apply Ok_inj in H; now subst out|].
  intros H. apply bind_Ok in H as [entries [Hentries H]]. apply Ok_inj in H. subst out.
  apply (map_result_Forall project_lines (Forall (fun p => settled b p = true)))
    in Hentries; [|apply project_lines_settled].
  apply settled_concat in Hentries.
  destruct b; try (specialize (Hb eq_refl); discriminate); settle.
Qed.

Lemma education_line_settled (rt : Runtime) (b : block) (edu : Education.t) (l : pystr) :
  education_line rt edu = Ok l -> settled b l = true.
Proof.
  unfold education_line. cbn [href bind]. intros H. apply Ok_inj in H. subst l. settle.
Qed.

Lemma build_education_settled (rt : Runtime) (b : block)
    (edu : option EducationSection.t) (out : pystr) :
  (b = EducationBlock -> edu = None) ->
  build_education rt edu = Ok out -> settled b out = true.
Proof.
  intros Hb. destruct edu as [sec|]; unfold build_education;
    [|intros H; apply Ok_inj in H; now subst out].
  destruct (is_empty (EducationSection.educations sec));
    [intros H; apply Ok_inj in H; now subst out|].
  intros H. apply bind_Ok in H as [entries [Hentries H]]. apply Ok_inj in H. subst out.
  apply (map_result_Forall (education_line rt) (fun p => settled b p = true))
    in Hentries; [|apply education_line_settled].
  destruct b; try (specialize (Hb eq_refl); discriminate); settle.
Qed.

Lemma drop_empties_settled (b : block) (parts : list pystr) :
  Forall (fun p => settled b p = true) parts ->
  Forall (fun p => settled b p = true) (drop_empties parts).
Proof.
  intros H. apply Forall_forall. intros p Hp.
  apply filter_In in Hp as [Hp _]. revert p Hp. now apply Forall_forall.
Qed.

(** The heading of an absent block occurs nowhere in the output, provided
    the addresses of the header, which are inserted as they are, hold no
    backslash. *)
Lemma no_heading_of_absent_block (rt : Runtime) (b : block) (d : Resume.t) (out : pystr) :
  absent b d -> plain_links (Resume.header d) ->
  resume_to_latex rt d = Ok out ->
  contains out (heading b) = false.
Proof.
  intros Hab Hlinks H. apply settled_no_heading.
  unfold resume_to_latex, resume_parts in H.
  apply bind_Ok in H as [parts [Hparts H]]. apply Ok_inj in H. subst out.
  apply bind_Ok in Hparts as [header [Hh Hparts]].
  apply bind_Ok in Hparts as [experience [Hex Hparts]].
  apply bind_Ok in Hparts as [projects [Hpr Hparts]].
  apply bind_Ok in Hparts as [education [Hed Hparts]].
  apply Ok_inj in Hparts. subst parts.
  apply (build_header_settled rt b) in Hh; [|exact Hlinks].
  apply (build_experience_settled rt b) in Hex;
    [|intros ->; exact Hab].
  apply (build_projects_settled b) in Hpr; [|intros ->; exact Hab].
  apply (build_education_settled rt b) in Hed; [|intros ->; exact Hab].
  assert (Hsk : settled b (build_skills (Resume.skills d)) = true)
    by (apply build_skills_settled; intros ->; exact Hab).
  apply settled_join; [now destruct b|]. apply drop_empties_settled.
  repeat (constructor; [first [assumption | now destruct b]|]). constructor.
Qed.

(** C7, as stated, fails: a validated document without a skills block whose
    portfolio address ends in the text of the skills heading is rendered
    with that heading in the output, the address being written as it is. *)
Lemma heading_of_absent_skills_in_output :
  valid_Resume rt_example (clock_at 2026 11 3) heading_link_resume /\
  absent SkillsBlock heading_link_resume /\
  exists out,
    resume_to_latex rt_example heading_link_resume = Ok out /\
    contains out (heading SkillsBlock) = true.
Proof.
  split; [|split; [reflexivity|]].
  - repeat split; vm_compute; reflexivity.
  - destruct (resume_to_latex rt_example heading_link_resume) as [out| |] eqn:E;
      try (vm_compute in E; discriminate).
    exists out. split; [reflexivity|].
    vm_compute in E. injection E as <-. vm_compute. reflexivity.
Qed.

(** C7: the builder of an absent block returns the empty text, which
    [resume_to_latex] drops before joining: the output of a document without
    a skills block is the join of the preamble, the header, the other
    sections and the closing line, with neither the heading nor any other
    text or separator for skills; the same holds for the experience, the
    projects and the education block, and a document with no block at all
    renders to the preamble, the header and the closing line.  The heading
    of an absent block occurs nowhere in the output, the addresses of the
    header, which are inserted as they are, holding no backslash. *)
Theorem absent_sections_emit_nothing :
  forall (rt : Runtime) (h : Header.t) (sk : option SkillSection.t)
         (ex : option ExperienceSection.t) (pr : option ProjectSection.t)
         (ed : option EducationSection.t),
    build_skills None = [] /\
    build_experience rt None = Ok [] /\
    build_projects None = Ok [] /\
    build_education rt None = Ok [] /\
    resume_to_latex rt (Resume.mk h None ex pr ed) =
      (header <- build_header rt h ;;
       experience <- build_experience rt ex ;;
       projects <- build_projects pr ;;
       education <- build_education rt ed ;;
       Ok (join NL (drop_empties
                      [LATEX_PREAMBLE; header; experience; projects; education; LATEX_END]))) /\
    resume_to_latex rt (Resume.mk h sk None pr ed) =
      (header <- build_header rt h ;;
       projects <- build_projects pr ;;
       education <- build_education rt ed ;;
       Ok (join NL (drop_empties
                      [LATEX_PREAMBLE; header; build_skills sk; projects; education;
                       LATEX_END]))) /\
    resume_to_latex rt (Resume.mk h sk ex None ed) =
      (header <- build_header rt h ;;
       experience <- build_experience rt ex ;;
       education <- build_education rt ed ;;
       Ok (join NL (drop_empties
                      [LATEX_PREAMBLE; header; build_skills sk; experience; education;
                       LATEX_END]))) /\
    resume_to_latex rt (Resume.mk h sk ex pr None) =
      (header <- build_header rt h ;;
       experience <- build_experience rt ex ;;
       projects <- build_projects pr ;;
       Ok (join NL (drop_empties
                      [LATEX_PREAMBLE; header; build_skills sk; experience; projects;
                       LATEX_END]))) /\
    resume_to_latex rt (Resume.mk h None None None None) =
      (header <- build_header rt h ;;
       Ok (LATEX_PREAMBLE ++ NL ++ header ++ NL ++ LATEX_END)) /\
    (forall b d out,
        absent b d -> plain_links (Resume.header d) ->
        resume_to_latex rt d = Ok out ->
        contains out (heading b) = false).
Proof.
  intros rt h sk ex pr ed.
  repeat (split; [reflexivity|]).
  unfold resume_to_latex, resume_parts. cbn [Resume.header Resume.skills Resume.experience
    Resume.projects Resume.education].
  destruct (build_header rt h) as [header| |] eqn:Hh; cbn [bind];
    try (repeat (split; [reflexivity|]); intros b d out; apply no_heading_of_absent_block).
  pose proof (build_header_nonempty rt h header Hh) as Hne.
  split; [|split; [|split; [|split; [|split]]]].
  - destruct (build_experience rt ex); cbn [bind]; try reflexivity.
    destruct (build_projects pr); cbn [bind]; try reflexivity.
    destruct (build_education rt ed); cbn [bind]; try reflexivity.
  - change (build_experience rt None) with (@Ok pystr []). cbn [bind].
    destruct (build_projects pr); cbn [bind]; try reflexivity.
    destruct (build_education rt ed); cbn [bind]; try reflexivity.
  - destruct (build_experience rt ex); cbn [bind]; try reflexivity.
    change (build_projects None) with (@Ok pystr []). cbn [bind].
    destruct (build_education rt ed); cbn [bind]; try reflexivity.
  - destruct (build_experience rt ex); cbn [bind]; try reflexivity.
    destruct (build_projects pr); cbn [bind]; try reflexivity.
  - change (build_experience rt None) with (@Ok pystr []).
    change (build_projects None) with (@Ok pystr []).
    change (build_education rt None) with (@Ok pystr []).
    change (build_skills None) with (@nil char). cbn [bind].
    rewrite (drop_empties_cons _ _ LATEX_PREAMBLE_nonempty), (drop_empties_cons _ _ Hne).
    rewrite !drop_empties_cons_empty. reflexivity.
  - intros b d out. apply no_heading_of_absent_block.
Qed.

Lemma absent_sections_emit_nothing_witness :
  absent SkillsBlock (Resume.mk sample_header None None None None) /\
  plain_links sample_header /\
  exists out,
    resume_to_latex rt_example (Resume.mk sample_header None None None None) = Ok out /\
    contains out (heading SkillsBlock) = false.
Proof.
  assert (Ha : absent SkillsBlock (Resume.mk sample_header None None None None))
    by reflexivity.
  assert (Hl : plain_links sample_header) by (repeat split).
  split; [exact Ha|]. split; [exact Hl|].
  destruct (resume_to_latex rt_example (Resume.mk sample_header None None None None))
    as [out| |] eqn:E; try (vm_compute in E; discriminate).
  exists out. split; [reflexivity|].
  destruct (absent_sections_emit_nothing rt_example sample_header None None None None)
    as (_ & _ & _ & _ & _ & _ & _ & _ & _ & H).
  exact (H SkillsBlock _ out Ha Hl E).
Defined.
(** ** The strings the validators accept *)

Lemma lang_Cat_intro (r s : regex) (u v w : pystr) :
  w = u ++ v -> lang r u -> lang s v -> lang (Cat r s) w.
Proof. intros ->. apply lang_Cat. Qed.

Lemma lang_Chr (c : char) (w : pystr) : lang (Chr c) w <-> w = [c].
Proof.
  split.
  - intros H. apply lang_Sym_inv in H as (x & -> & Hx).
    apply N.eqb_eq in Hx. now subst.
  - intros ->. apply lang_Sym. apply N.eqb_refl.
Qed.

Lemma lang_Lit (l w : pystr) : lang (Lit l) w <-> w = l.
Proof.
  revert w. induction l as [|c l IH]; intros w; simpl.
  - split; [apply lang_Eps_inv | intros ->; constructor].
  - split.
    + intros H. apply lang_Cat_inv in H as (u & v & -> & Hu & Hv).
      apply lang_Chr in Hu. apply IH in Hv. now subst.
    + intros ->. apply (lang_Cat_intro _ _ [c] l); [reflexivity| |].
      * now apply lang_Chr.
      * now apply IH.
Qed.

Lemma lang_Opt (r : regex) (w : pystr) : lang (Opt r) w <-> lang r w \/ w = [].
Proof.
  unfold Opt. split.
  - intros H. apply lang_Alt_inv in H as [H|H]; [now left|].
    right. now apply lang_Eps_inv.
  - intros [H| ->]; [now apply lang_Alt_l | apply lang_Alt_r; constructor].
Qed.

Lemma lang_Star_Sym (p : char -> bool) (w : pystr) :
  lang (Star (Sym p)) w <-> forallb p w = true.
Proof.
  split.
  - intros H. remember (Star (Sym p)) as r eqn:Er.
    induction H as [| | | | | |r0 u v Hu _ Hv IHv]; try discriminate.
    + reflexivity.
    + injection Er as ->. apply lang_Sym_inv in Hu as (c & -> & Hc).
      simpl. rewrite Hc. now apply IHv.
  - induction w as [|c w IH]; simpl; intros H.
    + constructor.
    + apply andb_true_iff in H as [Hc Hw].
      change (c :: w) with ([c] ++ w). apply lang_Star_app; [now constructor | now apply IH].
Qed.

Lemma lang_Plus_Sym (p : char -> bool) (w : pystr) :
  lang (Plus (Sym p)) w <-> w <> [] /\ forallb p w = true.
Proof.
  unfold Plus. split.
  - intros H. apply lang_Cat_inv in H as (u & v & -> & Hu & Hv).
    apply lang_Sym_inv in Hu as (c & -> & Hc). apply lang_Star_Sym in Hv.
    split; [discriminate|]. simpl. now rewrite Hc.
  - intros [Hne H]. destruct w as [|c w]; [congruence|].
    simpl in H. apply andb_true_iff in H as [Hc Hw].
    apply (lang_Cat_intro _ _ [c] w); [reflexivity | now constructor | now apply lang_Star_Sym].
Qed.

Lemma forallb_app_true {A : Type} (p : A -> bool) (l1 l2 : list A) :
  forallb p (l1 ++ l2) = true <-> forallb p l1 = true /\ forallb p l2 = true.
Proof. rewrite forallb_app. apply andb_true_iff. Qed.

(** *** Email *)

Lemma Email_regex_lang (rt : Runtime) (w : pystr) :
  lang (Email._regex rt) w <-> email_shape rt w.
Proof.
  unfold Email._regex, Email.part. fold (email_char rt). split.
  - intros H.
    apply lang_Cat_inv in H as (l & r1 & -> & Hl & H).
    apply lang_Cat_inv in H as (a & r2 & -> & Ha & H).
    apply lang_Cat_inv in H as (d & r3 & -> & Hd & H).
    apply lang_Cat_inv in H as (b & t & -> & Hb & Ht).
    apply lang_Chr in Ha, Hb. subst a b.
    apply lang_Plus_Sym in Hl as [? ?], Hd as [? ?], Ht as [? ?].
    exists l, d, t. repeat split; assumption.
  - intros (l & d & t & -> & Hl & Hd & Ht & Fl & Fd & Ft).
    apply (lang_Cat_intro _ _ l ([64] ++ d ++ [46] ++ t)); [reflexivity| |].
    { now apply lang_Plus_Sym. }
    apply (lang_Cat_intro _ _ [64] (d ++ [46] ++ t)); [reflexivity| |].
    { now apply lang_Chr. }
    apply (lang_Cat_intro _ _ d ([46] ++ t)); [reflexivity| |].
    { now apply lang_Plus_Sym. }
    apply (lang_Cat_intro _ _ [46] t); [reflexivity| |].
    { now apply lang_Chr. }
    now apply lang_Plus_Sym.
Qed.

Lemma anchored_shape (r : regex) (P : pystr -> Prop) (s : pystr) :
  (forall w, lang r w <-> P w) ->
  (re_match_anchored r s = true <-> up_to_newline P s).
Proof.
  intros HP. rewrite re_match_anchored_lang. unfold up_to_newline.
  rewrite HP. split.
  - intros [H|(b & -> & H)]; [now left|]. right. exists b. split; [reflexivity|].
    now apply HP.
  - intros [H|(b & -> & H)]; [now left|]. right. exists b. split; [reflexivity|].
    now apply HP.
Qed.

(** X1: [Email] accepts exactly the strings [local@domain.tld] in which the
    three parts are non-empty and hold neither ["@"] nor white space, with or
    without one newline at the end; it stores the string as given, and rejects
    every other string with a [ValueError] that quotes it. *)
Theorem Email_accepts_local_at_domain :
  forall (rt : Runtime) (s : pystr),
    (Email.init rt s = Ok (Email.mk s) <-> up_to_newline (email_shape rt) s) /\
    (Email.init rt s = Ok (Email.mk s) \/
     Email.init rt s =
       Raise (ValueError (lit "Invalid email address: " ++ s ++
                          lit ". Format should be similar to 'name@domain.com'"))) /\
    Email.str (Email.mk s) = s.
Proof.
  intros rt s.
  pose proof (anchored_shape (Email._regex rt) (email_shape rt) s (Email_regex_lang rt)) as H.
  unfold Email.init.
  destruct (re_match_anchored (Email._regex rt) s); simpl.
  - split; [|split; [now left | reflexivity]].
    split; [intros _; now apply H | reflexivity].
  - split; [|split; [now right | reflexivity]].
    split; [discriminate|]. intros Hs. apply H in Hs. discriminate.
Qed.

(** *** Website *)

Lemma host_char_not_newline (rt : Runtime) (c : char) :
  host_char rt c = true -> negb (c =? NEWLINE) = true.
Proof.
  intros H. destruct (N.eqb_spec c NEWLINE) as [->|]; [|reflexivity].
  discriminate.
Qed.

Lemma host_chars_one_line (rt : Runtime) (w : pystr) :
  forallb (host_char rt) w = true -> one_line w = true.
Proof.
  unfold one_line. induction w as [|c w IH]; simpl; [reflexivity|].
  intros H. apply andb_true_iff in H as [Hc Hw].
  rewrite (host_char_not_newline rt c Hc). now apply IH.
Qed.

Lemma one_line_app (a b : pystr) :
  one_line (a ++ b) = true <-> one_line a = true /\ one_line b = true.
Proof. apply forallb_app_true. Qed.

(** The repetitions of [(\.[\w\-]+)] stay on one line. *)
Lemma dotted_parts_one_line (rt : Runtime) (w : pystr) :
  lang (Star (Cat (Chr 46) (Plus (Website.word_or_dash rt)))) w -> one_line w = true.
Proof.
  intros H. remember (Star (Cat (Chr 46) (Plus (Website.word_or_dash rt)))) as r eqn:Er.
  induction H as [| | | | | |r0 u v Hu _ Hv IHv]; try discriminate.
  - reflexivity.
  - injection Er as ->.
    apply lang_Cat_inv in Hu as (a & q & -> & Ha & Hq).
    apply lang_Chr in Ha. subst a.
    apply lang_Plus_Sym in Hq as [_ Hq].
    apply one_line_app. split; [|now apply IHv].
    simpl. now apply (host_chars_one_line rt).
Qed.

Lemma url_regex_lang (rt : Runtime) (w : pystr) :
  lang (Website._url_regex rt) w <-> url_shape rt w.
Proof.
  unfold Website._url_regex. split.
  - intros H.
    apply lang_Cat_inv in H as (o1 & r1 & -> & Ho1 & H).
    apply lang_Cat_inv in H as (o2 & r2 & -> & Ho2 & H).
    apply lang_Cat_inv in H as (p1 & r3 & -> & Hp1 & H).
    apply lang_Cat_inv in H as (p2 & r4 & -> & Hp2 & H).
    apply lang_Cat_inv in H as (o3 & st & -> & Ho3 & Hst).
    assert (Hscheme : In o1 [ []; lit "http://"; lit "https://" ]).
    { apply lang_Opt in Ho1 as [Ho1| ->]; [|now left].
      apply lang_Cat_inv in Ho1 as (a & b & -> & Ha & Hb).
      apply lang_Lit in Ha. subst a.
      apply lang_Cat_inv in Hb as (x & y & -> & Hx & Hy).
      apply lang_Lit in Hy. subst y.
      apply lang_Opt in Hx as [Hx| ->].
      - apply lang_Chr in Hx. subst x. right. right. now left.
      - right. now left. }
    apply lang_Plus_Sym in Hp1 as [Hne1 Hw1].
    unfold Plus in Hp2. apply lang_Cat_inv in Hp2 as (g & more & -> & Hg & Hmore).
    apply lang_Cat_inv in Hg as (a & q & -> & Ha & Hq).
    apply lang_Chr in Ha. subst a.
    apply lang_Plus_Sym in Hq as [Hneq Hwq].
    apply dotted_parts_one_line in Hmore.
    assert (Ho3' : one_line o3 = true).
    { apply lang_Opt in Ho3 as [Ho3| ->]; [|reflexivity].
      apply lang_Sym_inv in Ho3 as (c & -> & Hc).
      unfold one_line. simpl. rewrite andb_true_r.
      destruct (N.eqb_spec c NEWLINE) as [->|]; [discriminate | reflexivity]. }
    apply lang_Star_Sym in Hst. fold (one_line st) in Hst.
    apply lang_Opt in Ho2 as [Ho2| ->].
    + (* [www.] was read: the host is [www], the next character follows the dot *)
      apply lang_Lit in Ho2. subst o2.
      destruct p1 as [|c p1]; [congruence|].
      simpl in Hw1. apply andb_true_iff in Hw1 as [Hc Hw1].
      exists o1, (lit "www"), c, (p1 ++ ([46] ++ q) ++ more ++ o3 ++ st).
      split; [now rewrite <- !app_assoc|].
      split; [assumption|]. split; [discriminate|]. split; [reflexivity|].
      split; [assumption|].
      repeat (apply one_line_app; split); try assumption.
      * now apply (host_chars_one_line rt).
      * reflexivity.
      * now apply (host_chars_one_line rt).
    + destruct q as [|c q]; [congruence|].
      simpl in Hwq. apply andb_true_iff in Hwq as [Hc Hwq].
      exists o1, p1, c, (q ++ more ++ o3 ++ st).
      split; [simpl; now rewrite <- !app_assoc|].
      split; [assumption|]. split; [assumption|]. split; [assumption|].
      split; [assumption|].
      repeat (apply one_line_app; split); try assumption.
      now apply (host_chars_one_line rt).
  - intros (scheme & host & c & tail & -> & Hs & Hne & Hh & Hc & Ht).
    apply (lang_Cat_intro _ _ scheme (host ++ [46; c] ++ tail)); [reflexivity| |].
    { apply lang_Opt. destruct Hs as [<-|[<-|[<-|[]]]]; [now right| |]; left.
      - apply (lang_Cat_intro _ _ (lit "http") (lit "://")); [reflexivity| |].
        + now apply lang_Lit.
        + apply (lang_Cat_intro _ _ [] (lit "://")); [reflexivity| |].
          * apply lang_Opt. now right.
          * now apply lang_Lit.
      - apply (lang_Cat_intro _ _ (lit "http") (lit "s://")); [reflexivity| |].
        + now apply lang_Lit.
        + apply (lang_Cat_intro _ _ [115] (lit "://")); [reflexivity| |].
          * apply lang_Opt. left. now apply lang_Chr.
          * now apply lang_Lit. }
    apply (lang_Cat_intro _ _ [] (host ++ [46; c] ++ tail)); [reflexivity| |].
    { apply lang_Opt. now right. }
    apply (lang_Cat_intro _ _ host ([46; c] ++ tail)); [reflexivity| |].
    { now apply lang_Plus_Sym. }
    apply (lang_Cat_intro _ _ [46; c] tail); [reflexivity| |].
    { unfold Plus at 1.
      apply (lang_Cat_intro _ _ [46; c] []); [reflexivity| |]; [|constructor].
      apply (lang_Cat_intro _ _ [46] [c]); [reflexivity| |].
      - now apply lang_Chr.
      - apply lang_Plus_Sym. split; [discriminate|]. simpl.
        fold (host_char rt c). now rewrite Hc. }
    apply (lang_Cat_intro _ _ [] tail); [reflexivity| |].
    { apply lang_Opt. now right. }
    now apply lang_Star_Sym.
Qed.

(** X2: [Website] accepts exactly the strings that start with an optional
    [http://] or [https://], then one or more word characters or dashes, a
    dot and one more such character; what follows is not examined, except
    that it holds no newline other than a last one.  Every other string is
    rejected with a [ValueError] that quotes it. *)
Theorem Website_accepts_dotted_host :
  forall (rt : Runtime) (s : pystr),
    (Website.init rt s = Ok (Website.mk s) <-> up_to_newline (url_shape rt) s) /\
    (Website.init rt s = Ok (Website.mk s) \/
     Website.init rt s = Raise (ValueError (lit "Invalid URL: " ++ s))) /\
    Website.str (Website.mk s) = s.
Proof.
  intros rt s.
  pose proof (anchored_shape (Website._url_regex rt) (url_shape rt) s (url_regex_lang rt)) as H.
  unfold Website.init.
  destruct (re_match_anchored (Website._url_regex rt) s); simpl.
  - split; [|split; [now left | reflexivity]].
    split; [intros _; now apply H | reflexivity].
  - split; [|split; [now right | reflexivity]].
    split; [discriminate|]. intros Hs. apply H in Hs. discriminate.
Qed.

(** *** LinkedIn and GitHub *)

Lemma startswith_iff (s p : pystr) : startswith s p = true <-> exists t, s = p ++ t.
Proof.
  revert s. induction p as [|c p IH]; intros s; simpl.
  - split; [intros _; now exists s | intros _; now destruct s].
  - destruct s as [|x s].
    + split; [discriminate | intros [t Ht]; discriminate].
    + simpl. split.
      * intros H. apply andb_true_iff in H as [Hx Hs]. apply N.eqb_eq in Hx. subst x.
        apply IH in Hs as [t ->]. now exists t.
      * intros [t Ht]. injection Ht as -> ->. simpl. rewrite N.eqb_refl. simpl.
        apply IH. now exists t.
Qed.

Lemma url_shape_one_line (rt : Runtime) (w : pystr) : url_shape rt w -> one_line w = true.
Proof.
  intros (scheme & host & c & tail & -> & Hs & _ & Hh & Hc & Ht).
  repeat (apply one_line_app; split); try assumption.
  - destruct Hs as [<-|[<-|[<-|[]]]]; reflexivity.
  - now apply (host_chars_one_line rt).
  - unfold one_line. simpl. now rewrite (host_char_not_newline rt c Hc).
Qed.

Lemma app_tail_cases {A : Type} (p t b : list A) (x : A) :
  p ++ t = b ++ [x] ->
  (t = [] /\ p = b ++ [x]) \/ exists t', t = t' ++ [x] /\ b = p ++ t'.
Proof.
  intros H. destruct t as [|y t] using rev_ind.
  - left. rewrite app_nil_r in H. now split.
  - right. rewrite app_assoc in H. apply app_inj_tail in H as [<- <-]. now exists t.
Qed.

Lemma one_line_last (p b : pystr) : one_line p = true -> p <> b ++ [NEWLINE].
Proof.
  intros Hp ->. apply one_line_app in Hp as [_ Hp]. discriminate.
Qed.

(** A prefix that is itself the start of a URL: with the parent's check, the
    subclass accepts the prefixed lines and nothing else. *)
Lemma prefixed_url (rt : Runtime) (prefix s : pystr) :
  (forall t, one_line t = true -> url_shape rt (prefix ++ t)) ->
  (startswith s prefix = true /\ re_match_anchored (Website._url_regex rt) s = true
   <-> prefixed_line prefix s).
Proof.
  intros Hprefix.
  assert (Hp : one_line prefix = true).
  { specialize (Hprefix [] eq_refl). rewrite app_nil_r in Hprefix.
    now apply (url_shape_one_line rt). }
  rewrite (anchored_shape (Website._url_regex rt) (url_shape rt) s (url_regex_lang rt)).
  rewrite startswith_iff. unfold prefixed_line, up_to_newline. split.
  - intros [[t ->] [H|(b & Hb & H)]].
    + exists t. split; [reflexivity|]. left.
      apply url_shape_one_line in H. now apply one_line_app in H.
    + exists t. split; [reflexivity|]. right.
      apply app_tail_cases in Hb as [[_ Hb]|(t' & -> & ->)].
      * now apply one_line_last in Hb.
      * exists t'. split; [reflexivity|].
        apply url_shape_one_line in H. now apply one_line_app in H.
  - intros (t & -> & [H|(b & -> & H)]).
    + split; [now exists t|]. left. now apply Hprefix.
    + split; [now exists (b ++ [NEWLINE])|]. right.
      exists (prefix ++ b). split; [now rewrite app_assoc | now apply Hprefix].
Qed.

Lemma LinkedIn_prefix_url (rt : Runtime) (t : pystr) :
  one_line t = true -> url_shape rt (LINKEDIN_PREFIX ++ t).
Proof.
  intros Ht.
  exists (lit "https://"), (lit "www"), (ord "l"), (lit "inkedin.com/" ++ t).
  split; [reflexivity|]. split; [right; right; now left|].
  split; [discriminate|]. split; [reflexivity|]. split; [reflexivity|].
  apply one_line_app. now split.
Qed.

Lemma GitHub_prefix_url (rt : Runtime) (t : pystr) :
  one_line t = true -> url_shape rt (GITHUB_PREFIX ++ t).
Proof.
  intros Ht.
  exists (lit "https://"), (lit "github"), (ord "c"), (lit "om/" ++ t).
  split; [reflexivity|]. split; [right; right; now left|].
  split; [discriminate|]. split; [reflexivity|]. split; [reflexivity|].
  apply one_line_app. now split.
Qed.

(** X3: [LinkedIn] accepts exactly the strings that start with
    [https://www.linkedin.com/] and go on without a newline, other than a
    last one; [GitHub] the same with [https://github.com/].  After the prefix
    check the parent's URL check only rules newlines out.  A string without
    the prefix is rejected with the subclass's own message, and a string
    that a subclass accepts is accepted by [Website]. *)
Theorem LinkedIn_GitHub_accept_prefixed_lines :
  forall (rt : Runtime) (s : pystr),
    (LinkedIn.init rt s = Ok (Website.mk s) <-> prefixed_line LINKEDIN_PREFIX s) /\
    (GitHub.init rt s = Ok (Website.mk s) <-> prefixed_line GITHUB_PREFIX s) /\
    (startswith s LINKEDIN_PREFIX = false ->
       LinkedIn.init rt s = Raise (ValueError (lit "Invalid LinkedIn URL: " ++ s))) /\
    (startswith s GITHUB_PREFIX = false ->
       GitHub.init rt s = Raise (ValueError (lit "Invalid GitHub URL: " ++ s))) /\
    (LinkedIn.init rt s = Ok (Website.mk s) -> Website.init rt s = Ok (Website.mk s)) /\
    (GitHub.init rt s = Ok (Website.mk s) -> Website.init rt s = Ok (Website.mk s)).
Proof.
  intros rt s.
  pose proof (prefixed_url rt LINKEDIN_PREFIX s (LinkedIn_prefix_url rt)) as HL.
  pose proof (prefixed_url rt GITHUB_PREFIX s (GitHub_prefix_url rt)) as HG.
  unfold LinkedIn.init, GitHub.init, Website.init.
  fold LINKEDIN_PREFIX GITHUB_PREFIX.
  repeat split.
  - intros H. apply HL.
    destruct (startswith s LINKEDIN_PREFIX); [|discriminate].
    destruct (re_match_anchored (Website._url_regex rt) s); [now split | discriminate].
  - intros H. apply HL in H as [-> ->]. reflexivity.
  - intros H. apply HG.
    destruct (startswith s GITHUB_PREFIX); [|discriminate].
    destruct (re_match_anchored (Website._url_regex rt) s); [now split | discriminate].
  - intros H. apply HG in H as [-> ->]. reflexivity.
  - intros ->. reflexivity.
  - intros ->. reflexivity.
  - destruct (startswith s LINKEDIN_PREFIX); [trivial | discriminate].
  - destruct (startswith s GITHUB_PREFIX); [trivial | discriminate].
Qed.

(** *** Dates *)

Lemma digit_value_le (rt : Runtime) (c : char) (v : N) :
  decimal_sound rt -> digit_value rt c = Some v -> v <= 9.
Proof.
  intros Hrt. unfold digit_value, ascii_digit, in_range.
  destruct (is_ascii c); [|apply Hrt].
  destruct (48 <=? c) eqn:Hlo; [|discriminate].
  destruct (c <=? 57) eqn:Hhi; [|discriminate].
  simpl. intros H. injection H as <-.
  apply N.leb_le in Hlo, Hhi. lia.
Qed.

Lemma in_range_iff (lo hi c : char) : in_range lo hi c = true <-> lo <= c <= hi.
Proof.
  unfold in_range. rewrite andb_true_iff, !N.leb_le. reflexivity.
Qed.

Lemma first_some_In {A B : Type} (f : A -> option B) (l : list A) (b : B) :
  first_some f l = Some b -> exists a, In a l /\ f a = Some b.
Proof.
  induction l as [|a l IH]; simpl; [discriminate|].
  destruct (f a) as [b'|] eqn:Ha.
  - intros H. injection H as ->. exists a. now split; [left|].
  - intros H. apply IH in H as (a' & Hin & Ha'). exists a'. now split; [right|].
Qed.

Ltac in_alts H :=
  repeat (apply in_app_or in H as [H|H]);
  repeat match type of H with
         | In _ (if ?b then _ else _) => destruct b eqn:?; [|destruct H]
         | In _ (match ?o with Some _ => _ | None => _ end) => destruct o eqn:?; [|destruct H]
         | In _ [_] => destruct H as [H|[]]; apply pair_equal_spec in H as [<- <-]
         | In _ [] => destruct H
         end.

Ltac ranges :=
  repeat match goal with
         | H : _ && _ = true |- _ => apply andb_true_iff in H as [? ?]
         | H : in_range _ _ _ = true |- _ => apply in_range_iff in H
         | H : (_ =? _) = true |- _ => apply N.eqb_eq in H
         end.

Lemma day_alts_range (rt : Runtime) (s rest : pystr) (d : N) :
  decimal_sound rt -> In (d, rest) (day_alts rt s) -> 1 <= d <= 31.
Proof.
  intros Hrt H. unfold day_alts in H.
  destruct s as [|c1 [|c2 s]].
  - destruct H.
  - in_alts H. ranges. lia.
  - in_alts H; ranges; try lia.
    match goal with E : digit_value rt _ = Some _ |- _ =>
      apply (digit_value_le rt _ _ Hrt) in E end. lia.
Qed.

Lemma month_alts_range (rt : Runtime) (s rest : pystr) (m : N) :
  In (m, rest) (month_alts s) -> 1 <= m <= 12.
Proof.
  intros H. unfold month_alts in H.
  destruct s as [|c1 [|c2 s]].
  - destruct H.
  - in_alts H. ranges. lia.
  - in_alts H; ranges; lia.
Qed.

Lemma year_digits_range (rt : Runtime) (s rest : pystr) (y : N) :
  decimal_sound rt -> year_digits rt s = Some (y, rest) -> y <= 9999.
Proof.
  intros Hrt. unfold year_digits.
  destruct s as [|c1 [|c2 [|c3 [|c4 s]]]]; try discriminate.
  destruct (digit_value rt c1) as [a|] eqn:E1; [|discriminate].
  destruct (digit_value rt c2) as [b|] eqn:E2; [|discriminate].
  destruct (digit_value rt c3) as [c|] eqn:E3; [|discriminate].
  destruct (digit_value rt c4) as [d|] eqn:E4; [|discriminate].
  intros H. assert (Hy : y = 1000 * a + 100 * b + 10 * c + d) by congruence.
  apply (digit_value_le rt _ _ Hrt) in E1, E2, E3, E4. lia.
Qed.

Lemma strptime_calendar (rt : Runtime) (s : pystr) (t : datetime) :
  decimal_sound rt -> strptime rt s = Ok t -> calendar_date t.
Proof.
  intros Hrt. unfold strptime.
  destruct (strptime_match rt s) as [[[[d m] y] rest]|] eqn:Hm; [|discriminate].
  destruct (negb (is_empty rest)); [discriminate|].
  destruct (y =? 0) eqn:Hy; [discriminate|].
  destruct (days_in_month y m <? d) eqn:Hd; [discriminate|].
  intros H. injection H as <-.
  apply N.eqb_neq in Hy. apply N.ltb_ge in Hd.
  unfold strptime_match in Hm.
  apply first_some_In in Hm as ([d' s1] & Hday & Hm).
  destruct s1 as [|c s2]; [discriminate|].
  destruct (c =? HYPHEN); [|discriminate].
  apply first_some_In in Hm as ([m' s3] & Hmonth & Hm).
  destruct s3 as [|c' s4]; [discriminate|].
  destruct (c' =? HYPHEN); [|discriminate].
  destruct (year_digits rt s4) as [[y' rest']|] eqn:Hyear; [|discriminate].
  injection Hm as -> -> -> ->.
  apply (day_alts_range rt _ _ _ Hrt) in Hday.
  apply (month_alts_range rt) in Hmonth.
  apply (year_digits_range rt _ _ _ Hrt) in Hyear.
  unfold calendar_date. simpl. lia.
Qed.

(** X4: a validated [Date] always converts: ["present"] to the next reading
    of the clock, any other value to the day it names, without reading the
    clock.  That day exists in the calendar: the year is between 1 and 9999,
    the month between 1 and 12, the day between 1 and the length of that
    month in that year, and the time is midnight. *)
Theorem Date_to_datetime_is_a_calendar_day :
  forall (rt : Runtime) (d : Date.t) (clk : clock) (i : nat),
    decimal_sound rt -> valid_Date rt d ->
    (Date.value d = Date.PRESENT /\ Date.to_datetime rt d clk i = Ok (clk i, S i)) \/
    (Date.value d <> Date.PRESENT /\
     exists t, Date.to_datetime rt d clk i = Ok (t, i) /\ calendar_date t).
Proof.
  intros rt d clk i Hrt Hd.
  destruct (valid_Date_cases rt d Hd) as [Hp|[Hn [t Ht]]].
  - left. split; [assumption|]. now apply to_datetime_present.
  - right. split; [assumption|]. exists t. split.
    + now apply to_datetime_dated.
    + now apply (strptime_calendar rt (Date.value d)).
Qed.

Lemma example_decimal_sound (order : list pystr -> list pystr) :
  decimal_sound (example_runtime order).
Proof. intros c v H. discriminate. Qed.

Lemma Date_to_datetime_is_a_calendar_day_witness :
  decimal_sound rt_example /\
  valid_Date rt_example (Date.mk (lit "29-02-2024")) /\
  exists t,
    Date.to_datetime rt_example (Date.mk (lit "29-02-2024")) (clock_at 2026 11 3) 0%nat =
      Ok (t, 0%nat) /\
    calendar_date t.
Proof.
  assert (Hrt : decimal_sound rt_example) by apply example_decimal_sound.
  assert (Hd : valid_Date rt_example (Date.mk (lit "29-02-2024"))) by reflexivity.
  split; [exact Hrt|]. split; [exact Hd|].
  destruct (Date_to_datetime_is_a_calendar_day rt_example (Date.mk (lit "29-02-2024"))
              (clock_at 2026 11 3) 0%nat Hrt Hd) as [[Hp _]|[_ H]].
  - discriminate Hp.
  - exact H.
Defined.

(** *** The validators of [type_validator.py] *)

(** X5: no validator of [type_validator.py] ever returns.  Each makes the
    check of its counterpart in [models/type_validator.py] and raises the
    same [ValueError] where that one rejects the string; where that one
    accepts it, [str.__new__] raises [TypeError], the class having no [str]
    base. *)
Theorem flat_validators_never_return :
  forall (rt : Runtime) (s : pystr),
    StrValidator.Email rt s = (e <- Email.init rt s ;; Raise TypeError) /\
    StrValidator.PhoneNumber rt s = (n <- PhoneNumber.init rt s ;; Raise TypeError) /\
    StrValidator.Website rt s = (w <- Website.init rt s ;; Raise TypeError) /\
    StrValidator.LinkedIn rt s = (w <- LinkedIn.init rt s ;; Raise TypeError) /\
    StrValidator.GitHub rt s = (w <- GitHub.init rt s ;; Raise TypeError) /\
    StrValidator.Date rt s = (d <- Date.init rt s ;; Raise TypeError) /\
    (forall r,
        StrValidator.Email rt s <> Ok r /\ StrValidator.PhoneNumber rt s <> Ok r /\
        StrValidator.Website rt s <> Ok r /\ StrValidator.LinkedIn rt s <> Ok r /\
        StrValidator.GitHub rt s <> Ok r /\ StrValidator.Date rt s <> Ok r).
Proof.
  intros rt s.
  assert (HE : StrValidator.Email rt s = (e <- Email.init rt s ;; Raise TypeError)).
  { unfold StrValidator.Email, Email.init.
    now destruct (re_match_anchored (Email._regex rt) s). }
  assert (HP : StrValidator.PhoneNumber rt s =
               (n <- PhoneNumber.init rt s ;; Raise TypeError)).
  { unfold StrValidator.PhoneNumber, PhoneNumber.init.
    now destruct (re_match_anchored (PhoneNumber._regex rt) s). }
  assert (HW : StrValidator.Website rt s = (w <- Website.init rt s ;; Raise TypeError)).
  { unfold StrValidator.Website, Website.init.
    now destruct (re_match_anchored (Website._url_regex rt) s). }
  assert (HL : StrValidator.LinkedIn rt s = (w <- LinkedIn.init rt s ;; Raise TypeError)).
  { unfold StrValidator.LinkedIn, LinkedIn.init.
    now destruct (startswith s (lit "https://www.linkedin.com/")). }
  assert (HG : StrValidator.GitHub rt s = (w <- GitHub.init rt s ;; Raise TypeError)).
  { unfold StrValidator.GitHub, GitHub.init.
    now destruct (startswith s (lit "https://github.com/")). }
  assert (HD : StrValidator.Date rt s = (d <- Date.init rt s ;; Raise TypeError)).
  { unfold StrValidator.Date, Date.init.
    destruct (str_eqb (lower rt s) Date.PRESENT); [reflexivity|].
    destruct (strptime rt s) as [t|e|]; [reflexivity | now destruct e | reflexivity]. }
  repeat (split; [assumption|]).
  intros r. rewrite HE, HP, HW, HL, HG, HD.
  destruct (Email.init rt s), (PhoneNumber.init rt s), (Website.init rt s),
    (LinkedIn.init rt s), (GitHub.init rt s), (Date.init rt s);
    repeat split; discriminate.
Qed.

(** ** Aggregates *)

(** X6: [BulletPoint] accepts exactly the texts of 1 to 255 characters, and
    the [BulletPoint] of [models.py] exactly those of 1 to 100; the empty text
    and a text that is too long are rejected with different messages.  A text
    that [models.py] accepts is accepted by [models/models.py]. *)
Theorem BulletPoint_length_bounds :
  forall (text : pystr),
    (BulletPoint.init text = Ok (BulletPoint.mk text) <->
       (1 <= List.length text <= 255)%nat) /\
    (Flat.BulletPoint.init text = Ok (Flat.BulletPoint.mk text) <->
       (1 <= List.length text <= 100)%nat) /\
    (text = [] ->
       BulletPoint.init text = Raise (ValueError (lit "Bullet point text cannot be empty.")) /\
       Flat.BulletPoint.init text =
         Raise (ValueError (lit "Bullet point text cannot be empty."))) /\
    ((255 < List.length text)%nat ->
       BulletPoint.init text =
         Raise (ValueError (lit "Bullet point text cannot exceed 255 characters."))) /\
    ((100 < List.length text)%nat ->
       Flat.BulletPoint.init text =
         Raise (ValueError (lit "Bullet point text cannot exceed 100 characters."))) /\
    (Flat.BulletPoint.init text = Ok (Flat.BulletPoint.mk text) ->
       BulletPoint.init text = Ok (BulletPoint.mk text)).
Proof.
  intros text. unfold BulletPoint.init, Flat.BulletPoint.init.
  destruct text as [|c text].
  - simpl. repeat split; try discriminate; try lia; intros H; lia.
  - cbn [is_empty]. set (n := List.length (c :: text)).
    assert (Hn : (1 <= n)%nat) by (subst n; simpl; lia).
    destruct (Nat.ltb_spec 255 n) as [H255|H255];
      destruct (Nat.ltb_spec 100 n) as [H100|H100];
      repeat split; try discriminate; try lia; try reflexivity; intros; lia.
Qed.

(** *** Education *)

(** The checks of [Education] in the order it makes them: the GPA comes
    last. *)
Lemma Education_init_gpa_last (rt : Runtime) (school degree : pystr) (start : Date.t)
    (awards : option (list pystr)) (gpa : option float) (clk : clock) (i : nat) :
  Education.init rt school degree start awards gpa clk i =
    match Education.init rt school degree start awards None clk i with
    | Ok (e, j) =>
        if Education.gpa_out_of_range gpa
        then Raise (ValueError (lit "GPA must be between 0.0 and 4.0."))
        else Ok (Education.mk (Education.school e) (Education.degree e)
                   (Education.start_date e) (Education.awards e) gpa, j)
    | Raise e => Raise e
    | IllTyped => IllTyped
    end.
Proof.
  unfold Education.init.
  destruct (is_empty degree || is_empty school); [reflexivity|].
  unfold bindM, ret, throw, today.
  destruct (Date.to_datetime rt start clk i) as [[s j]| |]; try reflexivity.
  destruct (dt_ge s (clk j)); [reflexivity|].
  cbn [Education.gpa_out_of_range].
  destruct (Education.gpa_out_of_range gpa); reflexivity.
Qed.

Lemma SFcompare_antisym (a b : SpecFloat.spec_float) (c : comparison) :
  SpecFloat.SFcompare a b = Some c -> SpecFloat.SFcompare b a = Some (CompOpp c).
Proof.
  destruct a as [sa|sa| |sa ma ea], b as [sb|sb| |sb mb eb]; simpl;
    try discriminate;
    try (intros H; injection H as <-; try destruct sa; try destruct sb; reflexivity).
  intros H. injection H as <-. f_equal.
  rewrite (BinInt.Z.compare_antisym ea eb).
  destruct sa, sb; try reflexivity.
  - destruct (BinInt.Z.compare ea eb); simpl; try reflexivity.
    now rewrite (BinPos.Pos.compare_cont_antisym ma mb Eq).
  - destruct (BinInt.Z.compare ea eb); simpl; try reflexivity.
    now rewrite (BinPos.Pos.compare_cont_antisym ma mb Eq).
Qed.

(** [x <= y] excludes [y < x]. *)
Lemma float_leb_not_gt (x y : float) :
  PrimFloat.leb x y = true -> PrimFloat.ltb y x = false.
Proof.
  rewrite leb_spec, ltb_spec. unfold SpecFloat.SFleb, SpecFloat.SFltb.
  destruct (SpecFloat.SFcompare (Prim2SF x) (Prim2SF y)) as [c|] eqn:Hc; [|discriminate].
  rewrite (SFcompare_antisym _ _ _ Hc). now destruct c.
Qed.

(** X7: the GPA is checked last and only by [gpa < 0.0 or gpa > 4.0].  Where
    an [Education] without a GPA is accepted, the same one with a GPA [g] is
    accepted when [0.0 <= g <= 4.0], the bounds 0.0 and 4.0 included, and
    rejected with a [ValueError] when [g < 0.0] or [g > 4.0]; a NaN, of which
    neither comparison holds, is accepted. *)
Theorem Education_gpa_bounds :
  forall (rt : Runtime) (school degree : pystr) (start : Date.t)
         (awards : option (list pystr)) (clk : clock) (i j : nat) (e : Education.t),
    Education.init rt school degree start awards None clk i = Ok (e, j) ->
    (forall g with_gpa,
        with_gpa = Education.mk (Education.school e) (Education.degree e)
                     (Education.start_date e) (Education.awards e) (Some g) ->
        (PrimFloat.leb 0 g = true -> PrimFloat.leb g 4 = true ->
           Education.init rt school degree start awards (Some g) clk i = Ok (with_gpa, j)) /\
        (PrimFloat.ltb g 0 = true \/ PrimFloat.ltb 4 g = true ->
           Education.init rt school degree start awards (Some g) clk i =
             Raise (ValueError (lit "GPA must be between 0.0 and 4.0."))) /\
        (g = 0%float \/ g = 4%float \/ g = nan ->
           Education.init rt school degree start awards (Some g) clk i = Ok (with_gpa, j))).
Proof.
  intros rt school degree start awards clk i j e He g with_gpa ->.
  rewrite (Education_init_gpa_last rt school degree start awards (Some g) clk i), He.
  cbn [Education.gpa_out_of_range]. repeat split.
  - intros H0 H4. apply float_leb_not_gt in H0, H4. now rewrite H0, H4.
  - intros [H|H]; rewrite H; [reflexivity | now rewrite orb_true_r].
  - intros [-> |[-> | ->]]; reflexivity.
Qed.

Lemma Education_gpa_bounds_witness :
  Education.init rt_example (lit "University X") (lit "BSc CS") (Date.mk (lit "01-09-2019"))
    None None (clock_at 2026 11 3) 0%nat =
    Ok (Education.mk (lit "University X") (lit "BSc CS") (Date.mk (lit "01-09-2019")) [] None,
        1%nat) /\
  Education.init rt_example (lit "University X") (lit "BSc CS") (Date.mk (lit "01-09-2019"))
    None (Some 4%float) (clock_at 2026 11 3) 0%nat =
    Ok (Education.mk (lit "University X") (lit "BSc CS") (Date.mk (lit "01-09-2019")) []
          (Some 4%float), 1%nat) /\
  Education.init rt_example (lit "University X") (lit "BSc CS") (Date.mk (lit "01-09-2019"))
    None (Some 4.5%float) (clock_at 2026 11 3) 0%nat =
    Raise (ValueError (lit "GPA must be between 0.0 and 4.0.")).
Proof.
  assert (He : Education.init rt_example (lit "University X") (lit "BSc CS")
                 (Date.mk (lit "01-09-2019")) None None (clock_at 2026 11 3) 0%nat =
               Ok (Education.mk (lit "University X") (lit "BSc CS")
                     (Date.mk (lit "01-09-2019")) [] None, 1%nat)) by reflexivity.
  split; [exact He|]. split.
  - exact (proj1 (Education_gpa_bounds rt_example _ _ _ _ _ _ _ _ He 4%float _ eq_refl)
             eq_refl eq_refl).
  - exact (proj1 (proj2 (Education_gpa_bounds rt_example _ _ _ _ _ _ _ _ He 4.5%float _ eq_refl))
             (or_intror eq_refl)).
Defined.

(** X8: [Education] compares the start date with the current moment by
    [>=].  A start date that names a day is accepted exactly when that day,
    at midnight, is strictly before the reading of the clock.  For the start
    date ["present"] the start is one reading of the clock and the current
    moment the next one: the entry is accepted only if the clock has advanced
    between the two readings, and never by a clock that stands still. *)
Theorem Education_start_precedes_now :
  forall (rt : Runtime) (school degree : pystr) (start : Date.t)
         (awards : option (list pystr)) (gpa : option float) (clk : clock) (i : nat),
    school <> [] -> degree <> [] -> valid_Date rt start ->
    Education.gpa_out_of_range gpa = false ->
    (Date.value start = Date.PRESENT ->
       Education.init rt school degree start awards gpa clk i =
         if dt_ge (clk i) (clk (S i))
         then Raise (ValueError (lit "Start date cannot be after end date."))
         else Ok (Education.mk school degree start
                    (match awards with Some l => l | None => [] end) gpa, S (S i))) /\
    (forall t,
       Date.value start <> Date.PRESENT -> strptime rt (Date.value start) = Ok t ->
       Education.init rt school degree start awards gpa clk i =
         if dt_ge t (clk i)
         then Raise (ValueError (lit "Start date cannot be after end date."))
         else Ok (Education.mk school degree start
                    (match awards with Some l => l | None => [] end) gpa, S i)) /\
    (forall now,
       Date.value start = Date.PRESENT ->
       Education.init rt school degree start awards gpa (fun _ => now) i =
         Raise (ValueError (lit "Start date cannot be after end date."))).
Proof.
  intros rt school degree start awards gpa clk i Hs Hd Hv Hg.
  assert (Hinit : forall c,
    Education.init rt school degree start awards gpa c i =
      (s <~ Date.to_datetime rt start ;;
       now <~ today ;;
       if dt_ge s now
       then throw (ValueError (lit "Start date cannot be after end date."))
       else ret (Education.mk school degree start
                   (match awards with Some l => l | None => [] end) gpa)) c i).
  { intros c. unfold Education.init.
    rewrite (is_empty_false degree Hd), (is_empty_false school Hs), Hg. reflexivity. }
  repeat split.
  - intros Hp. rewrite Hinit. unfold bindM.
    rewrite (to_datetime_present rt start clk i Hp). unfold today.
    now destruct (dt_ge (clk i) (clk (S i))).
  - intros t Hn Ht. rewrite Hinit. unfold bindM.
    rewrite (to_datetime_dated rt start t clk i Hn Ht). unfold today.
    now destruct (dt_ge t (clk i)).
  - intros now Hp. rewrite Hinit. unfold bindM.
    rewrite (to_datetime_present rt start (fun _ => now) i Hp). unfold today.
    assert (Hnow : dt_ge now now = true).
    { unfold dt_ge, dt_compare. now rewrite !N.compare_refl. }
    now rewrite Hnow.
Qed.

Lemma Education_start_precedes_now_witness :
  lit "University X" <> [] /\ lit "BSc CS" <> [] /\
  valid_Date rt_example (Date.mk (lit "03-11-2026")) /\
  Education.gpa_out_of_range None = false /\
  Education.init rt_example (lit "University X") (lit "BSc CS")
    (Date.mk (lit "03-11-2026")) None None (clock_at 2026 11 3) 0%nat =
    Ok (Education.mk (lit "University X") (lit "BSc CS") (Date.mk (lit "03-11-2026")) [] None,
        1%nat) /\
  Education.init rt_example (lit "University X") (lit "BSc CS")
    (Date.mk (lit "04-11-2026")) None None (clock_at 2026 11 3) 0%nat =
    Raise (ValueError (lit "Start date cannot be after end date.")).
Proof.
  assert (Hs : lit "University X" <> []) by discriminate.
  assert (Hd : lit "BSc CS" <> []) by discriminate.
  assert (Hv : valid_Date rt_example (Date.mk (lit "03-11-2026"))) by reflexivity.
  assert (Hv' : valid_Date rt_example (Date.mk (lit "04-11-2026"))) by reflexivity.
  split; [exact Hs|]. split; [exact Hd|]. split; [exact Hv|]. split; [reflexivity|].
  split.
  - exact (proj1 (proj2 (Education_start_precedes_now rt_example _ _ _ None None
                           (clock_at 2026 11 3) 0%nat Hs Hd Hv eq_refl))
             (mkdt 2026 11 3 0) ltac:(discriminate) eq_refl).
  - exact (proj1 (proj2 (Education_start_precedes_now rt_example _ _ _ None None
                           (clock_at 2026 11 3) 0%nat Hs Hd Hv' eq_refl))
             (mkdt 2026 11 4 0) ltac:(discriminate) eq_refl).
Defined.

(** ** What [from_dict] returns *)

Lemma bindM_Ok {A B : Type} (m : M A) (k : A -> M B) (clk : clock) (i j : nat) (b : B) :
  bindM m k clk i = Ok (b, j) ->
  exists a i', m clk i = Ok (a, i') /\ k a clk i' = Ok (b, j).
Proof.
  unfold bindM. destruct (m clk i) as [[a i']| |]; try discriminate.
  intros H. now exists a, i'.
Qed.

Lemma lift_Ok {A : Type} (r : result A) (clk : clock) (i j : nat) (a : A) :
  lift r clk i = Ok (a, j) -> r = Ok a /\ j = i.
Proof.
  unfold lift. destruct r; try discriminate. intros H. injection H as -> ->. now split.
Qed.

Lemma ret_Ok {A : Type} (a b : A) (clk : clock) (i j : nat) :
  ret a clk i = Ok (b, j) -> b = a /\ j = i.
Proof. unfold ret. intros H. injection H as -> ->. now split. Qed.

Lemma mapM_Forall {A B : Type} (f : A -> M B) (P : B -> Prop) (clk : clock) (l : list A) :
  (forall a i b j, f a clk i = Ok (b, j) -> P b) ->
  forall i bs j, mapM f l clk i = Ok (bs, j) -> Forall P bs.
Proof.
  intros Hf. induction l as [|a l IH]; intros i bs j H; simpl in H.
  - apply ret_Ok in H as [-> _]. constructor.
  - apply bindM_Ok in H as (b & i1 & Hb & H).
    apply bindM_Ok in H as (bs' & i2 & Hbs & H).
    apply ret_Ok in H as [-> _].
    constructor; [now apply (Hf a i b i1) | now apply (IH i1 bs' i2)].
Qed.

Lemma optional_field_valid {A : Type} (d : pyval) (k : string)
    (make : pyval -> result A) (P : A -> Prop) (x : option A) :
  (forall v a, make v = Ok a -> P a) ->
  Resume.optional_field d k make = Ok x -> valid_opt P x.
Proof.
  intros Hmake H. unfold Resume.optional_field in H.
  apply bind_Ok in H as (present & _ & H).
  destruct (truthy present).
  - apply bind_Ok in H as (v & _ & H). apply bind_Ok in H as (a & Ha & H).
    apply Ok_inj in H. subst x. simpl. now apply (Hmake v).
  - apply Ok_inj in H. now subst x.
Qed.

Lemma Email_init_valid (rt : Runtime) (s : pystr) (e : Email.t) :
  Email.init rt s = Ok e -> valid_Email rt e.
Proof.
  intros H. unfold valid_Email. unfold Email.init in H.
  destruct (negb (re_match_anchored (Email._regex rt) s)) eqn:Hm; [discriminate|].
  apply Ok_inj in H. subst e. unfold Email.init. simpl. now rewrite Hm.
Qed.

Lemma PhoneNumber_init_valid (rt : Runtime) (s : pystr) (n : PhoneNumber.t) :
  PhoneNumber.init rt s = Ok n -> valid_PhoneNumber rt n.
Proof.
  intros H. unfold valid_PhoneNumber. unfold PhoneNumber.init in H.
  destruct (negb (re_match_anchored (PhoneNumber._regex rt) s)) eqn:Hm; [discriminate|].
  apply Ok_inj in H. subst n. unfold PhoneNumber.init. simpl. now rewrite Hm.
Qed.

Lemma Website_init_valid (rt : Runtime) (s : pystr) (w : Website.t) :
  Website.init rt s = Ok w -> valid_Website rt w.
Proof.
  intros H. unfold valid_Website. unfold Website.init in H.
  destruct (negb (re_match_anchored (Website._url_regex rt) s)) eqn:Hm; [discriminate|].
  apply Ok_inj in H. subst w. unfold Website.init. simpl. now rewrite Hm.
Qed.

Lemma Website_init_value (rt : Runtime) (s : pystr) (w : Website.t) :
  Website.init rt s = Ok w -> w = Website.mk s.
Proof.
  unfold Website.init.
  destruct (negb (re_match_anchored (Website._url_regex rt) s)); [discriminate|].
  intros H. apply Ok_inj in H. now subst w.
Qed.

Lemma LinkedIn_init_valid (rt : Runtime) (s : pystr) (w : Website.t) :
  LinkedIn.init rt s = Ok w -> valid_LinkedIn rt w.
Proof.
  intros H. unfold valid_LinkedIn.
  assert (Hw : w = Website.mk s).
  { unfold LinkedIn.init in H.
    destruct (negb (startswith s (lit "https://www.linkedin.com/"))); [discriminate|].
    now apply (Website_init_value rt). }
  subst w. exact H.
Qed.

Lemma GitHub_init_valid (rt : Runtime) (s : pystr) (w : Website.t) :
  GitHub.init rt s = Ok w -> valid_GitHub rt w.
Proof.
  intros H. unfold valid_GitHub.
  assert (Hw : w = Website.mk s).
  { unfold GitHub.init in H.
    destruct (negb (startswith s (lit "https://github.com/"))); [discriminate|].
    now apply (Website_init_value rt). }
  subst w. exact H.
Qed.

Lemma Date_init_valid (rt : Runtime) (s : pystr) (d : Date.t) :
  Date.init rt s = Ok d -> valid_Date rt d.
Proof.
  intros H. unfold valid_Date.
  assert (Hd : d = Date.mk Date.PRESENT \/ d = Date.mk s).
  { unfold Date.init in H.
    destruct (str_eqb (lower rt s) Date.PRESENT).
    - left. apply Ok_inj in H. now subst d.
    - right. destruct (strptime rt s) as [t|e|]; [|destruct e; discriminate|discriminate].
      apply Ok_inj in H. now subst d. }
  destruct Hd as [-> | ->]; [apply Date_init_present | exact H].
Qed.

Lemma BulletPoint_init_valid (text : pystr) (b : BulletPoint.t) :
  BulletPoint.init text = Ok b -> valid_BulletPoint b.
Proof.
  intros H. unfold valid_BulletPoint.
  assert (Hb : b = BulletPoint.mk text).
  { unfold BulletPoint.init in H.
    destruct (is_empty text); [discriminate|].
    destruct (255 <? List.length text)%nat; [discriminate|].
    apply Ok_inj in H. now subst b. }
  subst b. exact H.
Qed.

Lemma make_BulletPoint_valid (v : pyval) (b : BulletPoint.t) :
  Resume.make_BulletPoint v = Ok b -> valid_BulletPoint b.
Proof.
  unfold Resume.make_BulletPoint.
  destruct v as [|s|x|items|entries]; try (apply BulletPoint_init_valid);
    repeat match goal with
           | |- context [if ?c then _ else _] => destruct c
           end; discriminate.
Qed.

Lemma from_dict_description_valid (d : pyval) (l : list BulletPoint.t) :
  Resume.from_dict_description d = Ok l -> Forall valid_BulletPoint l.
Proof.
  intros H. unfold Resume.from_dict_description in H.
  apply bind_Ok in H as (description & _ & H).
  apply bind_Ok in H as (items & _ & H).
  apply (map_result_Forall _ valid_BulletPoint) in H; [assumption|].
  intros bp b Hb. apply bind_Ok in Hb as (text & _ & Hb).
  now apply (make_BulletPoint_valid text).
Qed.

Lemma make_Email_valid (rt : Runtime) (v : pyval) (e : Email.t) :
  Resume.make_Email rt v = Ok e -> valid_Email rt e.
Proof.
  intros H. apply bind_Ok in H as (s & _ & H). now apply (Email_init_valid rt s).
Qed.

Lemma make_PhoneNumber_valid (rt : Runtime) (v : pyval) (n : PhoneNumber.t) :
  Resume.make_PhoneNumber rt v = Ok n -> valid_PhoneNumber rt n.
Proof.
  intros H. apply bind_Ok in H as (s & _ & H). now apply (PhoneNumber_init_valid rt s).
Qed.

Lemma make_Website_valid (rt : Runtime) (v : pyval) (w : Website.t) :
  Resume.make_Website rt v = Ok w -> valid_Website rt w.
Proof.
  intros H. apply bind_Ok in H as (s & _ & H). now apply (Website_init_valid rt s).
Qed.

Lemma make_LinkedIn_valid (rt : Runtime) (v : pyval) (w : Website.t) :
  Resume.make_LinkedIn rt v = Ok w -> valid_LinkedIn rt w.
Proof.
  intros H. apply bind_Ok in H as (s & _ & H). now apply (LinkedIn_init_valid rt s).
Qed.

Lemma make_GitHub_valid (rt : Runtime) (v : pyval) (w : Website.t) :
  Resume.make_GitHub rt v = Ok w -> valid_GitHub rt w.
Proof.
  intros H. apply bind_Ok in H as (s & _ & H). now apply (GitHub_init_valid rt s).
Qed.

Lemma make_Date_valid (rt : Runtime) (v : pyval) (d : Date.t) :
  Resume.make_Date rt v = Ok d -> valid_Date rt d.
Proof.
  intros H. apply bind_Ok in H as (s & _ & H). now apply (Date_init_valid rt s).
Qed.

Lemma from_dict_header_valid (rt : Runtime) (data : pyval) (h : Header.t) :
  Resume.from_dict_header rt data = Ok h -> valid_Header rt h.
Proof.
  intros H. unfold Resume.from_dict_header in H.
  apply bind_Ok in H as (header_data & _ & H).
  apply bind_Ok in H as (name & _ & H).
  apply bind_Ok in H as (email & Hemail & H).
  apply bind_Ok in H as (number & Hnumber & H).
  apply bind_Ok in H as (linkedin & Hlinkedin & H).
  apply bind_Ok in H as (portfolio & Hportfolio & H).
  apply bind_Ok in H as (github & Hgithub & H).
  apply bind_Ok in H as (name' & _ & H).
  unfold Header.init in H. apply Ok_inj in H. subst h.
  unfold valid_Header. simpl. repeat split.
  - exact (optional_field_valid _ _ _ _ _ (make_Email_valid rt) Hemail).
  - exact (optional_field_valid _ _ _ _ _ (make_PhoneNumber_valid rt) Hnumber).
  - exact (optional_field_valid _ _ _ _ _ (make_LinkedIn_valid rt) Hlinkedin).
  - exact (optional_field_valid _ _ _ _ _ (make_Website_valid rt) Hportfolio).
  - exact (optional_field_valid _ _ _ _ _ (make_GitHub_valid rt) Hgithub).
Qed.

Lemma SkillType_init_valid (name : pystr) (skills : list pystr) (st : SkillType.t) :
  SkillType.init name skills = Ok st -> valid_SkillType st.
Proof.
  intros H. unfold valid_SkillType.
  assert (Hst : st = SkillType.mk name skills).
  { unfold SkillType.init in H. destruct (is_empty skills); [discriminate|].
    apply Ok_inj in H. now subst st. }
  subst st. exact H.
Qed.

Lemma from_dict_skills_valid (rt : Runtime) (data : pyval) (sk : option SkillSection.t) :
  Resume.from_dict_skills rt data = Ok sk ->
  valid_opt (fun s => Forall valid_SkillType (SkillSection.skill_types s)) sk.
Proof.
  intros H. unfold Resume.from_dict_skills in H.
  apply bind_Ok in H as (present & _ & H).
  destruct (truthy present); [|apply Ok_inj in H; now subst sk].
  apply bind_Ok in H as (skills & _ & H).
  apply bind_Ok in H as (skill_types & _ & H).
  apply bind_Ok in H as (items & _ & H).
  apply bind_Ok in H as (sts & Hsts & H).
  apply bind_Ok in H as (section & Hsec & H).
  apply Ok_inj in H. subst sk. apply Ok_inj in Hsec. subst section. simpl.
  apply (map_result_Forall _ valid_SkillType) in Hsts; [assumption|].
  intros st s Hs. unfold Resume.from_dict_skill_type in Hs.
  apply bind_Ok in Hs as (name & _ & Hs).
  apply bind_Ok in Hs as (skills' & _ & Hs).
  apply bind_Ok in Hs as (elements & _ & Hs).
  apply bind_Ok in Hs as (elements' & _ & Hs).
  apply bind_Ok in Hs as (name' & _ & Hs).
  now apply (SkillType_init_valid name' (set_order rt elements')).
Qed.

(** A constructor that returns holds the arguments it was given. *)
Lemma Experience_init_fields (rt : Runtime) (position company : pystr)
    (description : list BulletPoint.t) (start end_date : Date.t) (clk : clock)
    (i j : nat) (e : Experience.t) :
  Experience.init rt position company description start (Some end_date) clk i = Ok (e, j) ->
  e = Experience.mk position company description start end_date.
Proof.
  unfold Experience.init.
  destruct (is_empty position || is_empty company); [discriminate|].
  destruct (is_empty description); [discriminate|].
  intros H.
  apply bindM_Ok in H as (en & i1 & Hen & H). apply ret_Ok in Hen as [-> ->].
  apply bindM_Ok in H as (s & i2 & _ & H).
  apply bindM_Ok in H as (t & i3 & _ & H).
  destruct (dt_ge s t); [discriminate|].
  apply bindM_Ok in H as (s' & i4 & _ & H).
  apply bindM_Ok in H as (now & i5 & _ & H).
  destruct (dt_gt s' now); [discriminate|].
  now apply ret_Ok in H as [-> _].
Qed.

Lemma Education_init_fields (rt : Runtime) (school degree : pystr) (start : Date.t)
    (awards : option (list pystr)) (gpa : option float) (clk : clock) (i j : nat)
    (ed : Education.t) :
  Education.init rt school degree start awards gpa clk i = Ok (ed, j) ->
  ed = Education.mk school degree start (match awards with Some l => l | None => [] end) gpa /\
  Education.init rt school degree start (Some (Education.awards ed)) gpa clk i = Ok (ed, j).
Proof.
  unfold Education.init.
  destruct (is_empty degree || is_empty school); [discriminate|].
  unfold bindM, ret, throw, today.
  destruct (Date.to_datetime rt start clk i) as [[s i1]| |]; try discriminate.
  destruct (dt_ge s (clk i1)); [discriminate|].
  destruct (Education.gpa_out_of_range gpa); [discriminate|].
  intros H. injection H as <- <-. now split.
Qed.

Lemma Project_init_valid (rt : Runtime) (name : pystr) (skills : list pystr)
    (description : list BulletPoint.t) (link : option Website.t) (p : Project.t) :
  Forall valid_BulletPoint description -> valid_opt (valid_Website rt) link ->
  Project.init name skills description link = Ok p -> valid_Project rt p.
Proof.
  intros Hd Hl H.
  assert (Hp : p = Project.mk name skills description link).
  { unfold Project.init in H.
    destruct (is_empty name || is_empty skills); [discriminate|].
    destruct (is_empty description); [discriminate|].
    apply Ok_inj in H. now subst p. }
  subst p. unfold valid_Project. simpl. now repeat split.
Qed.

Lemma from_dict_experience_valid (rt : Runtime) (exp : pyval) (clk : clock) (i j : nat)
    (e : Experience.t) :
  Resume.from_dict_experience rt exp clk i = Ok (e, j) -> valid_Experience rt clk e.
Proof.
  intros H. unfold Resume.from_dict_experience in H.
  apply bindM_Ok in H as (position & i1 & H1 & H). apply lift_Ok in H1 as [_ ->].
  apply bindM_Ok in H as (company & i2 & H2 & H). apply lift_Ok in H2 as [_ ->].
  apply bindM_Ok in H as (description & i3 & H3 & H). apply lift_Ok in H3 as [Hdesc ->].
  apply bindM_Ok in H as (start & i4 & H4 & H). apply lift_Ok in H4 as [Hstart ->].
  apply bindM_Ok in H as (en & i5 & H5 & H). apply lift_Ok in H5 as [Hend ->].
  apply bindM_Ok in H as (position' & i6 & H6 & H). apply lift_Ok in H6 as [_ ->].
  apply bindM_Ok in H as (company' & i7 & H7 & H). apply lift_Ok in H7 as [_ ->].
  pose proof (Experience_init_fields rt _ _ _ _ _ _ _ _ _ H) as He. subst e.
  unfold valid_Experience. simpl.
  split; [now apply (from_dict_description_valid exp)|].
  split.
  { apply bind_Ok in Hstart as (v & _ & Hstart). now apply (make_Date_valid rt v). }
  split.
  { apply bind_Ok in Hend as (present & _ & Hend).
    destruct (truthy present).
    - apply bind_Ok in Hend as (v & _ & Hend). now apply (make_Date_valid rt v).
    - now apply (Date_init_valid rt (lit "present")). }
  exists i. now rewrite H.
Qed.

Lemma from_dict_experiences_valid (rt : Runtime) (data : pyval) (clk : clock) (i j : nat)
    (ex : option ExperienceSection.t) :
  Resume.from_dict_experiences rt data clk i = Ok (ex, j) ->
  valid_opt (fun s => Forall (valid_Experience rt clk) (ExperienceSection.experiences s)) ex.
Proof.
  intros H. unfold Resume.from_dict_experiences in H.
  apply bindM_Ok in H as (present & i1 & H1 & H). apply lift_Ok in H1 as [_ ->].
  destruct (truthy present); [|apply ret_Ok in H as [-> _]; exact I].
  apply bindM_Ok in H as (experience & i2 & H2 & H). apply lift_Ok in H2 as [_ ->].
  apply bindM_Ok in H as (experiences & i3 & H3 & H). apply lift_Ok in H3 as [_ ->].
  apply bindM_Ok in H as (items & i4 & H4 & H). apply lift_Ok in H4 as [_ ->].
  apply bindM_Ok in H as (es & i5 & Hes & H).
  apply bindM_Ok in H as (section & i6 & Hsec & H). apply lift_Ok in Hsec as [Hsec ->].
  apply ret_Ok in H as [-> _]. apply Ok_inj in Hsec. subst section. simpl.
  apply (mapM_Forall (Resume.from_dict_experience rt) (valid_Experience rt clk) clk items)
    with (i := i) (j := i5); [|assumption].
  intros a i0 b j0. apply from_dict_experience_valid.
Qed.

Lemma from_dict_projects_valid (rt : Runtime) (data : pyval) (pr : option ProjectSection.t) :
  Resume.from_dict_projects rt data = Ok pr ->
  valid_opt (fun s => Forall (valid_Project rt) (ProjectSection.projects s)) pr.
Proof.
  intros H. unfold Resume.from_dict_projects in H.
  apply bind_Ok in H as (present & _ & H).
  destruct (truthy present); [|apply Ok_inj in H; now subst pr].
  apply bind_Ok in H as (projects & _ & H).
  apply bind_Ok in H as (project_list & _ & H).
  apply bind_Ok in H as (items & _ & H).
  apply bind_Ok in H as (ps & Hps & H).
  apply bind_Ok in H as (section & Hsec & H).
  apply Ok_inj in H. subst pr. apply Ok_inj in Hsec. subst section. simpl.
  apply (map_result_Forall _ (valid_Project rt)) in Hps; [assumption|].
  intros proj p Hp. unfold Resume.from_dict_project in Hp.
  apply bind_Ok in Hp as (name & _ & Hp).
  apply bind_Ok in Hp as (skills & _ & Hp).
  apply bind_Ok in Hp as (description & Hdesc & Hp).
  apply bind_Ok in Hp as (link & Hlink & Hp).
  apply bind_Ok in Hp as (name' & _ & Hp).
  apply bind_Ok in Hp as (skills' & _ & Hp).
  apply (Project_init_valid rt name' skills' description link); [| |assumption].
  - now apply (from_dict_description_valid proj).
  - exact (optional_field_valid _ _ _ _ _ (make_Website_valid rt) Hlink).
Qed.

Lemma from_dict_education_valid (rt : Runtime) (edu : pyval) (clk : clock) (i j : nat)
    (ed : Education.t) :
  Resume.from_dict_education rt edu clk i = Ok (ed, j) -> valid_Education rt clk ed.
Proof.
  intros H. unfold Resume.from_dict_education in H.
  apply bindM_Ok in H as (school & i1 & H1 & H). apply lift_Ok in H1 as [_ ->].
  apply bindM_Ok in H as (degree & i2 & H2 & H). apply lift_Ok in H2 as [_ ->].
  apply bindM_Ok in H as (start & i3 & H3 & H). apply lift_Ok in H3 as [Hstart ->].
  apply bindM_Ok in H as (awards & i4 & H4 & H). apply lift_Ok in H4 as [_ ->].
  apply bindM_Ok in H as (gpa & i5 & H5 & H). apply lift_Ok in H5 as [_ ->].
  apply bindM_Ok in H as (school' & i6 & H6 & H). apply lift_Ok in H6 as [_ ->].
  apply bindM_Ok in H as (degree' & i7 & H7 & H). apply lift_Ok in H7 as [_ ->].
  apply bindM_Ok in H as (awards' & i8 & H8 & H). apply lift_Ok in H8 as [_ ->].
  apply bindM_Ok in H as (gpa' & i9 & H9 & H). apply lift_Ok in H9 as [_ ->].
  destruct (Education_init_fields rt _ _ _ _ _ _ _ _ _ H) as [He Hinit].
  unfold valid_Education. split.
  - rewrite He. simpl.
    apply bind_Ok in Hstart as (v & _ & Hstart). now apply (make_Date_valid rt v).
  - exists i. rewrite He in Hinit |- *. simpl in Hinit |- *. now rewrite Hinit.
Qed.

Lemma from_dict_educations_valid (rt : Runtime) (data : pyval) (clk : clock) (i j : nat)
    (ed : option EducationSection.t) :
  Resume.from_dict_educations rt data clk i = Ok (ed, j) ->
  valid_opt (fun s => Forall (valid_Education rt clk) (EducationSection.educations s)) ed.
Proof.
  intros H. unfold Resume.from_dict_educations in H.
  apply bindM_Ok in H as (present & i1 & H1 & H). apply lift_Ok in H1 as [_ ->].
  destruct (truthy present); [|apply ret_Ok in H as [-> _]; exact I].
  apply bindM_Ok in H as (education & i2 & H2 & H). apply lift_Ok in H2 as [_ ->].
  apply bindM_Ok in H as (educations & i3 & H3 & H). apply lift_Ok in H3 as [_ ->].
  apply bindM_Ok in H as (items & i4 & H4 & H). apply lift_Ok in H4 as [_ ->].
  apply bindM_Ok in H as (es & i5 & Hes & H).
  apply bindM_Ok in H as (section & i6 & Hsec & H). apply lift_Ok in Hsec as [Hsec ->].
  apply ret_Ok in H as [-> _]. apply Ok_inj in Hsec. subst section. simpl.
  apply (mapM_Forall (Resume.from_dict_education rt) (valid_Education rt clk) clk items)
    with (i := i) (j := i5); [|assumption].
  intros a i0 b j0. apply from_dict_education_valid.
Qed.

(** X9: [from_dict] runs every validator again: whatever record it is given,
    a document that it returns is validated.  Every contact value, date and
    bullet is one that its constructor accepts, no skill group is empty, and
    every experience, project and education is one that its constructor
    accepts at a reading of the clock taken during the call. *)
Theorem from_dict_returns_validated_documents :
  forall (rt : Runtime) (data : pyval) (clk : clock) (i j : nat) (d : Resume.t),
    Resume.from_dict rt data clk i = Ok (d, j) -> valid_Resume rt clk d.
Proof.
  intros rt data clk i j d H. unfold Resume.from_dict in H.
  apply bindM_Ok in H as (header & i1 & H1 & H). apply lift_Ok in H1 as [Hh ->].
  apply bindM_Ok in H as (skills & i2 & H2 & H). apply lift_Ok in H2 as [Hsk ->].
  apply bindM_Ok in H as (experience & i3 & Hex & H).
  apply bindM_Ok in H as (projects & i4 & H4 & H). apply lift_Ok in H4 as [Hpr ->].
  apply bindM_Ok in H as (education & i5 & Hed & H).
  apply lift_Ok in H as [H _]. unfold Resume.init in H. apply Ok_inj in H. subst d.
  unfold valid_Resume. simpl.
  split; [now apply (from_dict_header_valid rt data)|].
  split; [now apply (from_dict_skills_valid rt data)|].
  split; [now apply (from_dict_experiences_valid rt data clk i i3)|].
  split; [now apply (from_dict_projects_valid rt data)|].
  now apply (from_dict_educations_valid rt data clk i3 i5).
Qed.

Lemma from_dict_returns_validated_documents_witness :
  exists d j,
    Resume.from_dict rt_example (Resume.to_dict sample_resume) (clock_at 2026 11 3) 0%nat =
      Ok (d, j) /\
    valid_Resume rt_example (clock_at 2026 11 3) d.
Proof.
  eexists. eexists.
  assert (H : Resume.from_dict rt_example (Resume.to_dict sample_resume)
                (clock_at 2026 11 3) 0%nat = Ok (sample_resume, 2%nat)) by reflexivity.
  split; [exact H|].
  exact (from_dict_returns_validated_documents rt_example _ _ _ _ _ H).
Defined.

(** ** The keys of a record *)

Lemma assoc_app (k : pystr) (entries more : list (pystr * pyval)) :
  assoc k (entries ++ more) =
    match assoc k entries with Some v => Some v | None => assoc k more end.
Proof.
  induction entries as [|[k' v] entries IH]; simpl; [reflexivity|].
  now destruct (str_eqb k' k).
Qed.

(** A key added after the others is seen only by the lookups of that key. *)
Lemma py_item_added (entries : list (pystr * pyval)) (k k' : string) (v : pyval) :
  str_eqb (lit k') (lit k) = false ->
  py_item (VDict (entries ++ [(lit k', v)])) k = py_item (VDict entries) k.
Proof.
  intros Hk. unfold py_item. rewrite assoc_app. simpl. rewrite Hk.
  now destruct (assoc (lit k) entries).
Qed.

Lemma py_get_added (entries : list (pystr * pyval)) (k k' : string) (v default : pyval) :
  str_eqb (lit k') (lit k) = false ->
  py_get (VDict (entries ++ [(lit k', v)])) k default = py_get (VDict entries) k default.
Proof.
  intros Hk. unfold py_get. rewrite assoc_app. simpl. rewrite Hk.
  now destruct (assoc (lit k) entries).
Qed.

(** X10: the keys of an experience record.  ["position"] and ["company"] are
    required: without one of them loading raises [KeyError] with the name of
    the first that is missing.  ["end_date"] is optional: a record without it
    loads as the same record with the end date ["present"].  ["description"]
    may be left out of the record, but then it is read as the empty list,
    which [Experience] rejects. *)
Theorem experience_record_keys :
  forall (rt : Runtime) (entries : list (pystr * pyval)) (clk : clock) (i : nat),
    (assoc (lit "position") entries = None ->
       Resume.from_dict_experience rt (VDict entries) clk i =
         Raise (KeyError (lit "position"))) /\
    (assoc (lit "position") entries <> None -> assoc (lit "company") entries = None ->
       Resume.from_dict_experience rt (VDict entries) clk i =
         Raise (KeyError (lit "company"))) /\
    (assoc (lit "end_date") entries = None ->
       Resume.from_dict_experience rt (VDict entries) clk i =
       Resume.from_dict_experience rt
         (VDict (entries ++ [(lit "end_date", VStr (lit "present"))])) clk i) /\
    (assoc (lit "description") entries = None ->
       Resume.from_dict_experience rt (VDict entries) clk i =
       Resume.from_dict_experience rt
         (VDict (entries ++ [(lit "description", VList [])])) clk i) /\
    (forall position company start_date start end_date,
       assoc (lit "position") entries = Some (VStr position) -> position <> [] ->
       assoc (lit "company") entries = Some (VStr company) -> company <> [] ->
       assoc (lit "start_date") entries = Some (VStr start_date) ->
       Date.init rt start_date = Ok start ->
       assoc (lit "end_date") entries = Some (VStr end_date) ->
       (exists d, Date.init rt end_date = Ok d) ->
       assoc (lit "description") entries = None ->
       Resume.from_dict_experience rt (VDict entries) clk i =
         Raise (ValueError (lit "Description cannot be empty."))).
Proof.
  intros rt entries clk i. repeat split.
  - intros Hp. unfold Resume.from_dict_experience, bindM, lift, py_item. now rewrite Hp.
  - intros Hp Hc. unfold Resume.from_dict_experience, bindM, lift, py_item.
    destruct (assoc (lit "position") entries); [|congruence]. now rewrite Hc.
  - intros He. unfold Resume.from_dict_experience, Resume.from_dict_description.
    rewrite !(py_item_added entries _ "end_date") by reflexivity.
    rewrite !(py_get_added entries "description" "end_date") by reflexivity.
    unfold py_get at 2 4. unfold py_item at 5 10. rewrite assoc_app, He. reflexivity.
  - intros Hd. unfold Resume.from_dict_experience, Resume.from_dict_description.
    rewrite !(py_item_added entries _ "description") by reflexivity.
    rewrite !(py_get_added entries "end_date" "description") by reflexivity.
    unfold py_get at 1 3. rewrite assoc_app, Hd. reflexivity.
  - intros position company start_date start end_date Hp Hpn Hc Hcn Hs Hstart He [d Hend] Hd.
    unfold Resume.from_dict_experience, Resume.from_dict_description, bindM, lift,
      py_item, py_get.
    rewrite Hp, Hc, Hs, He, Hd. cbn [bind py_iter map_result Resume.make_Date method_arg].
    rewrite Hstart. cbn [bind truthy]. rewrite (is_empty_false end_date).
    + cbn [negb bind]. rewrite Hend. cbn [as_str]. unfold Experience.init.
      rewrite (is_empty_false position Hpn), (is_empty_false company Hcn). reflexivity.
    + intros ->. unfold Date.init in Hend. simpl in Hend.
      destruct (lower rt []) eqn:Hl; simpl in Hend; discriminate.
Qed.

(** ** Escaping *)

Lemma is_special_In (c : char) : is_special c = true <-> In c special_chars.
Proof.
  unfold is_special. rewrite existsb_exists. split.
  - intros (x & Hx & E). apply N.eqb_eq in E. now subst x.
  - intros H. exists c. split; [assumption | apply N.eqb_refl].
Qed.

Lemma esc_char_special (c : char) :
  is_special c = true -> exists y rest, esc_char c = BACKSLASH :: y :: rest.
Proof.
  intros H. apply is_special_In in H.
  destruct (esc_char_cases c) as [[_ Hc]|[Hn _]]; [|contradiction].
  simpl in Hc.
  repeat (destruct Hc as [Hc|Hc];
          [apply pair_equal_spec in Hc as [_ <-]; eexists; eexists; reflexivity|]).
  destruct Hc.
Qed.

Lemma esc_char_plain (c : char) : is_special c = false -> esc_char c = [c].
Proof.
  intros H. apply esc_char_other. intros Hin. apply is_special_In in Hin. congruence.
Qed.

Lemma esc_length (s : pystr) : (List.length s <= List.length (esc (Some s)))%nat.
Proof.
  induction s as [|c s IH]; [simpl; lia|].
  rewrite esc_cons, length_app. cbn [List.length].
  destruct (is_special c) eqn:Hc.
  - destruct (esc_char_special c Hc) as (y & rest & ->). cbn [List.length]. lia.
  - rewrite (esc_char_plain c Hc). cbn [List.length]. lia.
Qed.

Lemma no_specials_cons (c : char) (s : pystr) :
  no_specials (c :: s) = negb (is_special c) && no_specials s.
Proof. reflexivity. Qed.

Lemma no_specials_app (a b : pystr) :
  no_specials (a ++ b) = no_specials a && no_specials b.
Proof. apply forallb_app. Qed.

Lemma esc_fixed_iff (s : pystr) : esc (Some s) = s <-> no_specials s = true.
Proof.
  induction s as [|c s IH]; [now split|].
  rewrite esc_cons, no_specials_cons.
  destruct (is_special c) eqn:Hc; cbn [negb andb].
  - split; [|discriminate]. intros H.
    apply (f_equal (@List.length char)) in H. rewrite length_app in H.
    destruct (esc_char_special c Hc) as (y & rest & E). rewrite E in H.
    cbn [List.length] in H. pose proof (esc_length s). lia.
  - rewrite (esc_char_plain c Hc). cbn [app]. rewrite <- IH. split; congruence.
Qed.

Lemma esc_longer (s : pystr) :
  no_specials s = false -> (List.length s < List.length (esc (Some s)))%nat.
Proof.
  induction s as [|c s IH]; [discriminate|].
  rewrite esc_cons, no_specials_cons, length_app. cbn [List.length].
  pose proof (esc_length s) as Hle.
  destruct (is_special c) eqn:Hc; cbn [negb andb].
  - intros _. destruct (esc_char_special c Hc) as (y & rest & ->).
    cbn [List.length]. lia.
  - intros H. rewrite (esc_char_plain c Hc). cbn [List.length].
    specialize (IH H). lia.
Qed.

Lemma no_specials_esc (s : pystr) : no_specials (esc (Some s)) = no_specials s.
Proof.
  induction s as [|c s IH]; [reflexivity|].
  rewrite esc_cons, no_specials_app, no_specials_cons, IH.
  destruct (is_special c) eqn:Hc; cbn [negb andb].
  - destruct (esc_char_special c Hc) as (y & rest & ->). reflexivity.
  - rewrite (esc_char_plain c Hc), no_specials_cons, Hc. reflexivity.
Qed.

(** X11: [esc] returns a text as it is exactly when the text holds none of
    the ten special characters; otherwise the result is longer.  It is
    therefore not idempotent: escaping a second time changes every text in
    which the first escaping changed something.  It distributes over
    concatenation, and [None] is escaped as the empty text. *)
Theorem esc_changes_only_special_text :
  forall (s t : pystr),
    (esc (Some s) = s <-> no_specials s = true) /\
    (List.length s <= List.length (esc (Some s)))%nat /\
    (no_specials s = false -> (List.length s < List.length (esc (Some s)))%nat) /\
    (esc (Some (esc (Some s))) = esc (Some s) <-> esc (Some s) = s) /\
    esc (Some (s ++ t)) = esc (Some s) ++ esc (Some t) /\
    esc None = [].
Proof.
  intros s t.
  split; [apply esc_fixed_iff|]. split; [apply esc_length|].
  split; [apply esc_longer|].
  split; [|split; [apply esc_app | reflexivity]].
  rewrite !esc_fixed_iff. now rewrite no_specials_esc.
Qed.

(** Two characters are written differently, and no writing starts another. *)
Lemma esc_char_prefix_free (a b : char) (u v : pystr) :
  esc_char a ++ u = esc_char b ++ v -> a = b.
Proof.
  intros H.
  destruct (esc_char_cases a) as [[_ Ha]|[Hna Ea]];
    destruct (esc_char_cases b) as [[_ Hb]|[Hnb Eb]].
  - simpl in Ha, Hb.
    repeat (destruct Ha as [Ha|Ha]; [apply pair_equal_spec in Ha as [<- Ea]|]);
      try destruct Ha;
      repeat (destruct Hb as [Hb|Hb]; [apply pair_equal_spec in Hb as [<- Eb]|]);
      try destruct Hb;
      try reflexivity; rewrite <- Ea in H; rewrite <- Eb in H; discriminate H.
  - rewrite Eb in H. simpl in Ha.
    repeat (destruct Ha as [Ha|Ha]; [apply pair_equal_spec in Ha as [<- Ea]|]);
      try destruct Ha;
      rewrite <- Ea in H; injection H as <-; exfalso; apply Hnb; simpl; tauto.
  - rewrite Ea in H. simpl in Hb.
    repeat (destruct Hb as [Hb|Hb]; [apply pair_equal_spec in Hb as [<- Eb]|]);
      try destruct Hb;
      rewrite <- Eb in H; injection H as ->; exfalso; apply Hna; simpl; tauto.
  - rewrite Ea, Eb in H. now injection H.
Qed.

Lemma esc_char_nonempty (c : char) : esc_char c <> [].
Proof.
  destruct (is_special c) eqn:Hc.
  - destruct (esc_char_special c Hc) as (y & rest & ->). discriminate.
  - rewrite (esc_char_plain c Hc). discriminate.
Qed.

(** X12: [esc] loses nothing: two different texts are never escaped to the
    same text. *)
Theorem esc_is_injective :
  forall (s t : pystr), esc (Some s) = esc (Some t) <-> s = t.
Proof.
  intros s t. split; [|now intros ->].
  revert t. induction s as [|a s IH]; intros [|b t].
  - reflexivity.
  - rewrite esc_cons. change (esc (Some [])) with (@nil char). intros H. symmetry in H.
    apply app_eq_nil in H as [H _]. now apply esc_char_nonempty in H.
  - rewrite esc_cons. change (esc (Some [])) with (@nil char). intros H.
    apply app_eq_nil in H as [H _]. now apply esc_char_nonempty in H.
  - rewrite !esc_cons. intros H.
    pose proof (esc_char_prefix_free a b _ _ H) as <-.
    apply app_inv_head in H. now rewrite (IH t H).
Qed.

Lemma bare_after_esc_char (c x : char) (rest : pystr) :
  In c [ord "&"; ord "%"; ord "$"; ord "#"; ord "_"] ->
  bare_after c false (esc_char x ++ rest) = bare_after c false rest.
Proof.
  intros Hc.
  destruct (esc_char_cases x) as [[_ Hx]|[Hn Ex]].
  - simpl in Hx, Hc.
    repeat (destruct Hx as [Hx|Hx]; [apply pair_equal_spec in Hx as [_ <-]|]);
      try destruct Hx;
      repeat (destruct Hc as [<-|Hc]; [reflexivity|]); destruct Hc.
  - rewrite Ex. cbn [app bare_after negb].
    assert (Hxc : (x =? c) = false).
    { apply N.eqb_neq. intros ->. apply Hn. simpl in Hc |- *. tauto. }
    assert (Hxb : (x =? BACKSLASH) = false).
    { apply N.eqb_neq. intros ->. apply Hn. simpl. tauto. }
    now rewrite Hxc, Hxb.
Qed.

Lemma esc_char_without (c x : char) :
  In c [ord "~"; ord "^"] -> ~ In c (esc_char x).
Proof.
  intros Hc.
  destruct (esc_char_cases x) as [[_ Hx]|[Hn Ex]].
  - simpl in Hx, Hc.
    repeat (destruct Hx as [Hx|Hx]; [apply pair_equal_spec in Hx as [_ <-]|]);
      try destruct Hx;
      repeat (destruct Hc as [<-|Hc];
              [simpl; intros H; repeat (destruct H as [H|H]; [discriminate H|]); exact H|]);
      destruct Hc.
  - rewrite Ex. intros [->|[]]. apply Hn. simpl in Hc |- *. tauto.
Qed.

(** X13: in escaped text every ["&"], ["%"], ["$"], ["#"] and ["_"] directly
    follows a backslash, there is no ["~"] and no ["^"], and every backslash
    is followed by one of [& % $ # _ { } t], so none of them escapes another
    backslash. *)
Theorem esc_leaves_no_bare_special :
  forall (s : pystr),
    (forall c, In c [ord "&"; ord "%"; ord "$"; ord "#"; ord "_"] ->
               bare c (esc (Some s)) = false) /\
    (forall c, In c [ord "~"; ord "^"] -> ~ In c (esc (Some s))) /\
    escaped_form (esc (Some s)) = true.
Proof.
  intros s. split; [|split; [|apply escaped_form_esc]].
  - intros c Hc. unfold bare. induction s as [|x s IH]; [reflexivity|].
    rewrite esc_cons. now rewrite (bare_after_esc_char c x _ Hc).
  - intros c Hc. induction s as [|x s IH]; [intros []|].
    rewrite esc_cons. intros H. apply in_app_or in H as [H|H].
    + now apply (esc_char_without c x Hc).
    + now apply IH.
Qed.

(** ** Icons *)

(** X14: an icon inferred from a role is always one that [fa] knows: the
    name is one of the five of the heuristic, [fa] writes it as [\fa] and the
    name, and [blue_icon] wraps it, so an inferred icon is never dropped. *)
Theorem inferred_icons_are_known :
  forall (rt : Runtime) (role name : pystr),
    maybe_icon_from_role rt role = Some name ->
    In name [lit "Train"; lit "Heartbeat"; lit "Trophy"; lit "Dragon"; lit "Plus"] /\
    fa (Some name) = lit "\fa" ++ name /\
    blue_icon (Some name) =
      lit "{\textcolor{vibrantblue}\fa" ++ name ++ lit "\hspace{0.5mm}} ".
Proof.
  intros rt role name. unfold maybe_icon_from_role.
  repeat match goal with
         | |- context [if ?c then _ else _] => destruct c
         end;
    intros H; try discriminate H; injection H as <-;
    (split; [simpl; tauto | split; reflexivity]).
Qed.

Lemma inferred_icons_are_known_witness :
  maybe_icon_from_role rt_example (lit "QA Test Engineer") = Some (lit "Train") /\
  fa (Some (lit "Train")) = lit "\faTrain".
Proof.
  assert (H : maybe_icon_from_role rt_example (lit "QA Test Engineer") = Some (lit "Train"))
    by reflexivity.
  split; [exact H|].
  exact (proj1 (proj2 (inferred_icons_are_known rt_example _ _ H))).
Defined.

(** ** The rendered document *)

(** X15: a section that holds no entry is rendered as an absent one: no
    heading and no separator is written for it, for each of the four
    sections and for any combination of them. *)
Theorem empty_sections_render_as_absent :
  forall (rt : Runtime) (d : Resume.t),
    resume_to_latex rt (prune d) = resume_to_latex rt d /\
    build_skills (Some (SkillSection.mk [])) = [] /\
    build_experience rt (Some (ExperienceSection.mk [])) = Ok [] /\
    build_projects (Some (ProjectSection.mk [])) = Ok [] /\
    build_education rt (Some (EducationSection.mk [])) = Ok [].
Proof.
  intros rt d. split; [|repeat split].
  unfold resume_to_latex, resume_parts, prune.
  cbn [Resume.header Resume.skills Resume.experience Resume.projects Resume.education].
  assert (Hsk : build_skills
                  (match Resume.skills d with
                   | Some s => if is_empty (SkillSection.skill_types s) then None else Some s
                   | None => None
                   end) = build_skills (Resume.skills d)).
  { destruct (Resume.skills d) as [s|]; [|reflexivity].
    unfold build_skills. now destruct (is_empty (SkillSection.skill_types s)) eqn:E; rewrite ?E. }
  assert (Hex : build_experience rt
                  (match Resume.experience d with
                   | Some s => if is_empty (ExperienceSection.experiences s) then None else Some s
                   | None => None
                   end) = build_experience rt (Resume.experience d)).
  { destruct (Resume.experience d) as [s|]; [|reflexivity].
    unfold build_experience.
    now destruct (is_empty (ExperienceSection.experiences s)) eqn:E; rewrite ?E. }
  assert (Hpr : build_projects
                  (match Resume.projects d with
                   | Some s => if is_empty (ProjectSection.projects s) then None else Some s
                   | None => None
                   end) = build_projects (Resume.projects d)).
  { destruct (Resume.projects d) as [s|]; [|reflexivity].
    unfold build_projects.
    now destruct (is_empty (ProjectSection.projects s)) eqn:E; rewrite ?E. }
  assert (Hed : build_education rt
                  (match Resume.education d with
                   | Some s => if is_empty (EducationSection.educations s) then None else Some s
                   | None => None
                   end) = build_education rt (Resume.education d)).
  { destruct (Resume.education d) as [s|]; [|reflexivity].
    unfold build_education.
    now destruct (is_empty (EducationSection.educations s)) eqn:E; rewrite ?E. }
  now rewrite Hsk, Hex, Hpr, Hed.
Qed.

Lemma drop_empties_last (parts : list pystr) (z : pystr) :
  is_empty z = false -> drop_empties (parts ++ [z]) <> [].
Proof.
  intros Hz. unfold drop_empties. rewrite filter_app. simpl. rewrite Hz. simpl.
  intros H. apply app_eq_nil in H as [_ H]. discriminate.
Qed.

(** The non-empty parts joined by newlines, written out. *)
Lemma join_drop_empties (parts : list pystr) (z : pystr) :
  is_empty z = false ->
  join NL (drop_empties (parts ++ [z])) = List.concat (map segment parts) ++ z.
Proof.
  intros Hz. induction parts as [|p parts IH].
  - simpl. unfold drop_empties. simpl. now rewrite Hz.
  - cbn [app map List.concat]. unfold segment at 1.
    destruct (is_empty p) eqn:Hp.
    + destruct p; [|discriminate]. rewrite drop_empties_cons_empty. exact IH.
    + rewrite (drop_empties_cons _ _ Hp).
      pose proof (drop_empties_last parts z Hz) as Hne.
      destruct (drop_empties (parts ++ [z])) as [|q l] eqn:E; [congruence|].
      change (join NL (p :: q :: l)) with (p ++ NL ++ join NL (q :: l)).
      rewrite IH. now rewrite <- !app_assoc.
Qed.

Lemma LATEX_END_nonempty : is_empty LATEX_END = false.
Proof. reflexivity. Qed.

(** X16: the layout of a rendered document.  It is the preamble, the header
    and then the sections always in the order skills, experience, projects,
    education, each non-empty part followed by one newline, and it ends with
    [\end{document}] with no newline after it. *)
Theorem rendered_document_layout :
  forall (rt : Runtime) (d : Resume.t) (out : pystr),
    resume_to_latex rt d = Ok out ->
    exists header experience projects education,
      build_header rt (Resume.header d) = Ok header /\
      build_experience rt (Resume.experience d) = Ok experience /\
      build_projects (Resume.projects d) = Ok projects /\
      build_education rt (Resume.education d) = Ok education /\
      out = LATEX_PREAMBLE ++ NL ++ header ++ NL ++
            segment (build_skills (Resume.skills d)) ++ segment experience ++
            segment projects ++ segment education ++ LATEX_END.
Proof.
  intros rt d out H. unfold resume_to_latex in H.
  apply bind_Ok in H as (parts & Hparts & H). apply Ok_inj in H. subst out.
  unfold resume_parts in Hparts.
  apply bind_Ok in Hparts as (header & Hh & Hparts).
  apply bind_Ok in Hparts as (experience & Hex & Hparts).
  apply bind_Ok in Hparts as (projects & Hpr & Hparts).
  apply bind_Ok in Hparts as (education & Hed & Hparts).
  apply Ok_inj in Hparts. subst parts.
  exists header, experience, projects, education.
  repeat (split; [assumption|]).
  change [LATEX_PREAMBLE; header; build_skills (Resume.skills d); experience; projects;
          education; LATEX_END]
    with ([LATEX_PREAMBLE; header; build_skills (Resume.skills d); experience; projects;
           education] ++ [LATEX_END]).
  rewrite (join_drop_empties _ _ LATEX_END_nonempty).
  cbn [map List.concat]. unfold segment at 1 2.
  rewrite LATEX_PREAMBLE_nonempty, (build_header_nonempty rt _ _ Hh).
  rewrite app_nil_r. now rewrite <- !app_assoc.
Qed.

Lemma rendered_document_layout_witness :
  exists out header experience projects education,
    resume_to_latex rt_example (skills_resume [lit "Python"; lit "C++"]) = Ok out /\
    build_header rt_example (Resume.header (skills_resume [lit "Python"; lit "C++"])) =
      Ok header /\
    build_experience rt_example None = Ok experience /\
    build_projects None = Ok projects /\
    build_education rt_example None = Ok education /\
    out = LATEX_PREAMBLE ++ NL ++ header ++ NL ++
          segment (build_skills (Resume.skills (skills_resume [lit "Python"; lit "C++"]))) ++
          segment experience ++ segment projects ++ segment education ++ LATEX_END.
Proof.
  destruct (resume_to_latex rt_example (skills_resume [lit "Python"; lit "C++"]))
    as [out| |] eqn:Hout; [|discriminate Hout|discriminate Hout].
  destruct (rendered_document_layout rt_example _ out Hout)
    as (header & experience & projects & education & H).
  exists out, header, experience, projects, education. split; [reflexivity | exact H].
Defined.

Lemma map_project_lines_linked (l : list Project.t) (p : Project.t) :
  In p l -> Project.link p <> None -> map_result project_lines l = Raise TypeError.
Proof.
  intros Hin Hp. induction l as [|q l IH]; [destruct Hin|].
  cbn [map_result]. destruct Hin as [->|Hin].
  - destruct (project_lines_cases p) as [[Hn _]|[_ ->]]; [contradiction | reflexivity].
  - destruct (project_lines_cases q) as [[_ [ls ->]]|[_ ->]]; [|reflexivity].
    cbn [bind]. now rewrite (IH Hin).
Qed.

(** X17: rendering fails exactly on the documents in which some project
    carries a link: [build_projects] hands the [Website] object to [href],
    which adds it to a string.  The error is a [TypeError]; every other
    document is rendered.  A record with a project link is loaded into such
    a document, so exporting it fails in the same way. *)
Theorem rendering_fails_on_linked_projects :
  forall (rt : Runtime) (d : Resume.t),
    (resume_to_latex rt d = Raise TypeError <-> has_linked_project d) /\
    ((exists out, resume_to_latex rt d = Ok out) <-> ~ has_linked_project d) /\
    (forall data clk i j,
        Resume.from_dict rt data clk i = Ok (d, j) -> has_linked_project d ->
        load_json_and_generate_latex rt data clk i = Raise TypeError).
Proof.
  intros rt d.
  assert (Hfail : has_linked_project d -> resume_to_latex rt d = Raise TypeError).
  { intros (sec & p & Hsec & Hin & Hp).
    unfold resume_to_latex, resume_parts.
    destruct (build_header_total rt (Resume.header d)) as [h ->].
    destruct (build_experience_total rt (Resume.experience d)) as [e ->].
    cbn [bind]. rewrite Hsec. unfold build_projects.
    destruct (ProjectSection.projects sec) as [|q l] eqn:El; [destruct Hin|].
    cbn [is_empty]. now rewrite (map_project_lines_linked (q :: l) p Hin Hp). }
  split; [|split].
  - split; [|exact Hfail]. intros H.
    destruct (resume_to_latex_cases rt d) as [[out Hout]|[_ Hl]]; [congruence | exact Hl].
  - split.
    + intros [out Hout] Hl. apply Hfail in Hl. congruence.
    + intros Hn. destruct (resume_to_latex_cases rt d) as [Hout|[_ Hl]];
        [exact Hout | contradiction].
  - intros data clk i j Hload Hl. unfold load_json_and_generate_latex, bindM.
    rewrite Hload. unfold lift. now rewrite (Hfail Hl).
Qed.

(** ** Saving, loading and rendering *)

Lemma from_dict_skills_reiterated (rt : Runtime) (d : Resume.t) :
  set_order_sound rt ->
  valid_opt (fun s => Forall valid_SkillType (SkillSection.skill_types s)) (Resume.skills d) ->
  Resume.from_dict_skills rt (Resume.to_dict d) = Ok (Resume.skills (reiterated rt d)).
Proof.
  intros Hs Hv. unfold Resume.from_dict_skills.
  change (py_get (Resume.to_dict d) "skills" VNone)
    with (Ok (Resume.opt_dict SkillSection.to_dict (Resume.skills d))).
  change (py_item (Resume.to_dict d) "skills")
    with (Ok (Resume.opt_dict SkillSection.to_dict (Resume.skills d))).
  unfold reiterated. cbn [Resume.skills].
  destruct (Resume.skills d) as [[l]|]; [|reflexivity].
  simpl in Hv.
  assert (Hl : map_result (Resume.from_dict_skill_type rt)
                 (map (fun st => VDict [ (lit "name", VStr (SkillType.name st));
                                         (lit "skills", VList (map VStr (SkillType.skills st))) ])
                      l) =
               Ok (map (fun st => SkillType.mk (SkillType.name st)
                                    (set_order rt (SkillType.skills st))) l)).
  { induction Hv as [|st l Hst _ IH]; [reflexivity|].
    cbn [map map_result].
    assert (Hst' : Resume.from_dict_skill_type rt
                     (VDict [ (lit "name", VStr (SkillType.name st));
                              (lit "skills", VList (map VStr (SkillType.skills st))) ]) =
                   Ok (SkillType.mk (SkillType.name st) (set_order rt (SkillType.skills st)))).
    { unfold Resume.from_dict_skill_type.
      match goal with |- context [py_item ?x "name"] =>
        change (py_item x "name") with (Ok (VStr (SkillType.name st)));
        change (py_item x "skills") with (Ok (VList (map VStr (SkillType.skills st)))) end.
      cbn [bind py_iter]. rewrite set_elements_roundtrip. cbn [bind as_str].
      assert (Hne : SkillType.skills st <> []).
      { unfold valid_SkillType, SkillType.init in Hst. intros E. rewrite E in Hst.
        discriminate. }
      unfold SkillType.init.
      now rewrite (is_empty_false _ (set_order_nonempty rt _ Hs Hne)). }
    rewrite Hst'. cbn [bind]. rewrite IH. reflexivity. }
  cbn [Resume.opt_dict truthy SkillSection.to_dict is_empty negb bind py_get assoc
       SkillSection.skill_types].
  change (str_eqb (lit "skill_types") (lit "skill_types")) with true.
  cbn [py_iter bind]. rewrite Hl. reflexivity.
Qed.

Lemma reiterated_order_kept (rt : Runtime) (d : Resume.t) :
  order_kept rt d -> reiterated rt d = d.
Proof.
  unfold order_kept, reiterated. destruct d as [h [[l]|] ex pr ed]; simpl; [|reflexivity].
  intros H. do 2 f_equal. f_equal.
  induction H as [|st l Hst _ IH]; [reflexivity|].
  simpl. rewrite IH, Hst. now destruct st.
Qed.

(** X18: saving, loading and rendering.  For a validated document with no
    ["present"] start date, exporting its saved record at the time of
    validation or later gives what rendering gives for the document in which
    every skill set iterates in the order the set rebuilt from its list has;
    where that order is the order the document has, it gives what rendering
    the document itself gives, be it the text or the [TypeError] of a linked
    project. *)
Theorem export_of_saved_document :
  forall (rt : Runtime) (c0 c1 : clock) (j : nat) (d : Resume.t),
    set_order_sound rt -> valid_Resume rt c0 d ->
    clock_after c0 c1 -> starts_dated d ->
    value_of (load_json_and_generate_latex rt (Resume.to_dict d) c1 j) =
      resume_to_latex rt (reiterated rt d) /\
    (order_kept rt d ->
     value_of (load_json_and_generate_latex rt (Resume.to_dict d) c1 j) =
       resume_to_latex rt d).
Proof.
  intros rt c0 c1 j d Hset (Hh & Hsk & Hex & Hpr & Hed) Hafter (Dex & Ded).
  assert (Hload : exists j',
            Resume.from_dict rt (Resume.to_dict d) c1 j = Ok (reiterated rt d, j')).
  { unfold Resume.from_dict, bindM, lift.
    rewrite (from_dict_header_roundtrip rt d Hh).
    rewrite (from_dict_skills_reiterated rt d Hset Hsk).
    destruct (from_dict_experiences_roundtrip rt c0 c1 j d Hafter Hex Dex) as [j1 ->].
    rewrite (from_dict_projects_roundtrip rt d Hpr).
    destruct (from_dict_educations_roundtrip rt c0 c1 j1 d Hafter Hed Ded) as [j2 ->].
    exists j2. reflexivity. }
  destruct Hload as [j' Hload].
  assert (Hexport : value_of (load_json_and_generate_latex rt (Resume.to_dict d) c1 j) =
                    resume_to_latex rt (reiterated rt d)).
  { unfold load_json_and_generate_latex, bindM. rewrite Hload. unfold lift.
    now destruct (resume_to_latex rt (reiterated rt d)). }
  split; [exact Hexport|].
  intros Hkept. now rewrite Hexport, (reiterated_order_kept rt d Hkept).
Qed.

Lemma export_of_saved_document_witness :
  set_order_sound rt_example /\
  valid_Resume rt_example (clock_at 2026 11 3) unlinked_sample /\
  clock_after (clock_at 2026 11 3) (clock_at 2026 11 4) /\
  starts_dated unlinked_sample /\
  order_kept rt_example unlinked_sample /\
  value_of (load_json_and_generate_latex rt_example (Resume.to_dict unlinked_sample)
              (clock_at 2026 11 4) 0%nat) =
    resume_to_latex rt_example unlinked_sample.
Proof.
  assert (Hset : set_order_sound rt_example) by exact insertion_order_sound.
  assert (Hafter : clock_after (clock_at 2026 11 3) (clock_at 2026 11 4))
    by (apply clock_at_after; discriminate).
  assert (Hvalid : valid_Resume rt_example (clock_at 2026 11 3) unlinked_sample).
  { split; [repeat split|]. split; [repeat constructor|].
    split; [|split].
    - constructor; [|constructor].
      split; [repeat constructor|]. split; [reflexivity|]. split; [reflexivity|].
      exists 0%nat. reflexivity.
    - exact I.
    - constructor; [|constructor].
      split; [reflexivity|]. exists 0%nat. reflexivity. }
  assert (Hdated : starts_dated unlinked_sample).
  { split; (constructor; [discriminate | constructor]). }
  assert (Hkept : order_kept rt_example unlinked_sample).
  { repeat constructor. }
  repeat (split; [assumption|]).
  exact (proj2 (export_of_saved_document rt_example (clock_at 2026 11 3) (clock_at 2026 11 4)
                  0%nat unlinked_sample Hset Hvalid Hafter Hdated) Hkept).
Defined.

(** ** The form *)

Lemma lstrip_head (rt : Runtime) (l t : pystr) (c : char) :
  lstrip rt l = c :: t -> re_s rt c = false.
Proof.
  induction l as [|x l IH]; simpl; [discriminate|].
  destruct (re_s rt x) eqn:Hx; [exact IH|].
  intros H. injection H as <- _. exact Hx.
Qed.

(** A stripped string does not end with white space. *)
Lemma strip_last (rt : Runtime) (s b : pystr) (c : char) :
  strip rt s = b ++ [c] -> re_s rt c = false.
Proof.
  unfold strip. intros H.
  apply (f_equal (@rev char)) in H. rewrite rev_involutive, rev_unit in H.
  now apply lstrip_head in H.
Qed.

Lemma header_field_valid {A : Type} (rt : Runtime) (var : pystr)
    (make : pystr -> result A) (P : A -> Prop) (x : option A) :
  (forall s a, make s = Ok a -> P a) ->
  UI.header_field rt var make = Ok x -> valid_opt P x.
Proof.
  intros Hmake. unfold UI.header_field.
  destruct (negb (is_empty (strip rt var))).
  - intros H. apply bind_Ok in H as (a & Ha & H). apply Ok_inj in H. subst x.
    simpl. now apply (Hmake (strip rt var)).
  - intros H. apply Ok_inj in H. now subst x.
Qed.

(** The number of the form is stripped before it is checked, so an accepted
    one is ten digits and nothing else. *)
Lemma header_field_phone (rt : Runtime) (var : pystr) (x : option PhoneNumber.t) :
  UI.header_field rt var (PhoneNumber.init rt) = Ok x ->
  valid_opt (fun n => ten_digits rt (PhoneNumber.value n) = true) x.
Proof.
  unfold UI.header_field.
  destruct (negb (is_empty (strip rt var))).
  - intros H. apply bind_Ok in H as (n & Hn & H). apply Ok_inj in H. subst x. simpl.
    apply PhoneNumber_accepted_shape in Hn as (-> & ds & Hds & [E|E]); simpl.
    + now rewrite E.
    + apply strip_last in E. discriminate.
  - intros H. apply Ok_inj in H. now subst x.
Qed.

Lemma section_of_cases {A B : Type} (mk : list A -> B) (entries : list A) (x : option B) :
  UI.section_of (fun l => Ok (mk l)) entries = Ok x ->
  (entries = [] /\ x = None) \/ (entries <> [] /\ x = Some (mk entries)).
Proof.
  unfold UI.section_of. destruct entries as [|a l]; simpl; intros H; apply Ok_inj in H.
  - now left.
  - right. split; [discriminate | now subst x].
Qed.

Lemma map_BulletPoint_valid (texts : list pystr) (desc : list BulletPoint.t) :
  map_result BulletPoint.init texts = Ok desc -> Forall valid_BulletPoint desc.
Proof.
  apply (map_result_Forall BulletPoint.init valid_BulletPoint).
  intros a b. apply BulletPoint_init_valid.
Qed.

Lemma build_experience_valid (rt : Runtime) (entry : UI.ExperienceEntry.t) (clk : clock)
    (i j : nat) (e : Experience.t) :
  UI.build_experience rt entry clk i = Ok (e, j) -> valid_Experience rt clk e.
Proof.
  intros H. unfold UI.build_experience in H.
  apply bindM_Ok in H as (desc & i1 & H1 & H). apply lift_Ok in H1 as [Hdesc ->].
  apply bindM_Ok in H as (start & i2 & H2 & H). apply lift_Ok in H2 as [Hstart ->].
  apply bindM_Ok in H as (en & i3 & H3 & H). apply lift_Ok in H3 as [Hend ->].
  pose proof (Experience_init_fields rt _ _ _ _ _ _ _ _ _ H) as He. subst e.
  unfold valid_Experience. simpl.
  split; [now apply (map_BulletPoint_valid (UI.ExperienceEntry.description entry))|].
  split; [now apply (Date_init_valid rt (UI.ExperienceEntry.start_date entry))|].
  split.
  { destruct (negb (is_empty (UI.ExperienceEntry.end_date entry))).
    - now apply (Date_init_valid rt (UI.ExperienceEntry.end_date entry)).
    - now apply (Date_init_valid rt (lit "present")). }
  exists i. now rewrite H.
Qed.

Lemma build_project_valid (rt : Runtime) (entry : UI.ProjectEntry.t) (p : Project.t) :
  UI.build_project rt entry = Ok p -> valid_Project rt p.
Proof.
  intros H. unfold UI.build_project in H.
  apply bind_Ok in H as (desc & Hdesc & H).
  apply bind_Ok in H as (link & Hlink & H).
  apply (Project_init_valid rt (UI.ProjectEntry.name entry) (UI.ProjectEntry.skills entry)
           desc link); [| |exact H].
  - now apply (map_BulletPoint_valid (UI.ProjectEntry.description entry)).
  - destruct (UI.ProjectEntry.link entry) as [l|]; [|apply Ok_inj in Hlink; now subst link].
    destruct (negb (is_empty l)); [|apply Ok_inj in Hlink; now subst link].
    apply bind_Ok in Hlink as (w & Hw & Hlink). apply Ok_inj in Hlink. subst link.
    simpl. now apply (Website_init_valid rt l).
Qed.

Lemma build_education_valid (rt : Runtime) (entry : UI.EducationEntry.t) (clk : clock)
    (i j : nat) (ed : Education.t) :
  UI.build_education rt entry clk i = Ok (ed, j) -> valid_Education rt clk ed.
Proof.
  intros H. unfold UI.build_education in H.
  apply bindM_Ok in H as (start & i1 & H1 & H). apply lift_Ok in H1 as [Hstart ->].
  destruct (Education_init_fields rt _ _ _ _ _ _ _ _ _ H) as [He Hinit].
  unfold valid_Education. split.
  - rewrite He. simpl. now apply (Date_init_valid rt (UI.EducationEntry.start_date entry)).
  - exists i. rewrite He in Hinit |- *. simpl in Hinit |- *. now rewrite Hinit.
Qed.

(** X19: what the form builds.  A document that [_build_resume_object]
    returns is validated, its name is the stripped name of the form and is
    not empty, none of its sections is empty, and its phone number is
    exactly ten digits: the checks that the model leaves out are made
    here. *)
Theorem form_builds_validated_documents :
  forall (rt : Runtime) (f : UI.form) (clk : clock) (i : nat) (r : Resume.t),
    UI._build_resume_object rt f clk i = Ok (Some r) ->
    valid_Resume rt clk r /\
    Header.name (Resume.header r) = strip rt (UI.name_var f) /\
    Header.name (Resume.header r) <> [] /\
    prune r = r /\
    valid_opt (fun n => ten_digits rt (PhoneNumber.value n) = true)
      (Header.number (Resume.header r)).
Proof.
  intros rt f clk i r H. unfold UI._build_resume_object in H.
  destruct (UI.build_resume rt f clk i) as [[r' j]|e|] eqn:Hb; try discriminate.
  apply Ok_inj in H. injection H as ->.
  unfold UI.build_resume in Hb.
  destruct (is_empty (strip rt (UI.name_var f))) eqn:Hname; [discriminate|].
  apply bindM_Ok in Hb as (header & i1 & H1 & Hb). apply lift_Ok in H1 as [Hh ->].
  apply bindM_Ok in Hb as (sts & i2 & H2 & Hb). apply lift_Ok in H2 as [Hsts ->].
  apply bindM_Ok in Hb as (sk & i3 & H3 & Hb). apply lift_Ok in H3 as [Hsk ->].
  apply bindM_Ok in Hb as (exps & i4 & Hexps & Hb).
  apply bindM_Ok in Hb as (ex & i5 & H5 & Hb). apply lift_Ok in H5 as [Hex ->].
  apply bindM_Ok in Hb as (projs & i6 & H6 & Hb). apply lift_Ok in H6 as [Hprojs ->].
  apply bindM_Ok in Hb as (pr & i7 & H7 & Hb). apply lift_Ok in H7 as [Hpr ->].
  apply bindM_Ok in Hb as (edus & i8 & Hedus & Hb).
  apply bindM_Ok in Hb as (ed & i9 & H9 & Hb). apply lift_Ok in H9 as [Hed ->].
  apply lift_Ok in Hb as [Hb _]. unfold Resume.init in Hb. apply Ok_inj in Hb. subst r.
  apply bind_Ok in Hh as (email & Hemail & Hh).
  apply bind_Ok in Hh as (number & Hnumber & Hh).
  apply bind_Ok in Hh as (linkedin & Hlinkedin & Hh).
  apply bind_Ok in Hh as (portfolio & Hportfolio & Hh).
  apply bind_Ok in Hh as (github & Hgithub & Hh).
  unfold Header.init in Hh. apply Ok_inj in Hh. subst header.
  apply (section_of_cases SkillSection.mk) in Hsk.
  apply (section_of_cases ExperienceSection.mk) in Hex.
  apply (section_of_cases ProjectSection.mk) in Hpr.
  apply (section_of_cases EducationSection.mk) in Hed.
  assert (Vsts : Forall valid_SkillType sts).
  { apply (map_result_Forall (UI.build_skill_type rt) valid_SkillType) in Hsts; [assumption|].
    intros a b. apply SkillType_init_valid. }
  assert (Vexps : Forall (valid_Experience rt clk) exps).
  { apply (mapM_Forall (UI.build_experience rt) (valid_Experience rt clk) clk _
             ltac:(intros a i0 b j0; apply build_experience_valid) _ _ _ Hexps). }
  assert (Vprojs : Forall (valid_Project rt) projs).
  { apply (map_result_Forall (UI.build_project rt) (valid_Project rt)) in Hprojs;
      [assumption|]. intros a b. apply build_project_valid. }
  assert (Vedus : Forall (valid_Education rt clk) edus).
  { apply (mapM_Forall (UI.build_education rt) (valid_Education rt clk) clk _
             ltac:(intros a i0 b j0; apply build_education_valid) _ _ _ Hedus). }
  split; [|split; [reflexivity|split; [|split]]].
  - unfold valid_Resume, valid_Header. cbn [Resume.header Resume.skills Resume.experience
      Resume.projects Resume.education Header.email Header.number Header.linkedin
      Header.portfolio Header.github].
    split.
    { split; [exact (header_field_valid rt _ _ _ _ (Email_init_valid rt) Hemail)|].
      split; [exact (header_field_valid rt _ _ _ _ (PhoneNumber_init_valid rt) Hnumber)|].
      split; [exact (header_field_valid rt _ _ _ _ (LinkedIn_init_valid rt) Hlinkedin)|].
      split; [exact (header_field_valid rt _ _ _ _ (Website_init_valid rt) Hportfolio)|].
      exact (header_field_valid rt _ _ _ _ (GitHub_init_valid rt) Hgithub). }
    split; [destruct Hsk as [[_ ->]|[_ ->]]; [exact I | exact Vsts]|].
    split; [destruct Hex as [[_ ->]|[_ ->]]; [exact I | exact Vexps]|].
    split; [destruct Hpr as [[_ ->]|[_ ->]]; [exact I | exact Vprojs]|].
    destruct Hed as [[_ ->]|[_ ->]]; [exact I | exact Vedus].
  - cbn [Resume.header Header.name]. intros E. rewrite E in Hname. discriminate.
  - unfold prune. cbn [Resume.header Resume.skills Resume.experience Resume.projects
      Resume.education].
    f_equal.
    + destruct Hsk as [[_ ->]|[Hne ->]]; [reflexivity|]. simpl.
      now rewrite (is_empty_false _ Hne).
    + destruct Hex as [[_ ->]|[Hne ->]]; [reflexivity|]. simpl.
      now rewrite (is_empty_false _ Hne).
    + destruct Hpr as [[_ ->]|[Hne ->]]; [reflexivity|]. simpl.
      now rewrite (is_empty_false _ Hne).
    + destruct Hed as [[_ ->]|[Hne ->]]; [reflexivity|]. simpl.
      now rewrite (is_empty_false _ Hne).
  - cbn [Resume.header Header.number]. exact (header_field_phone rt _ _ Hnumber).
Qed.

Lemma form_builds_validated_documents_witness :
  UI._build_resume_object rt_example sample_form (clock_at 2026 11 3) 0%nat =
    Ok (Some sample_form_resume) /\
  valid_Resume rt_example (clock_at 2026 11 3) sample_form_resume /\
  Header.name (Resume.header sample_form_resume) = strip rt_example (UI.name_var sample_form) /\
  Header.name (Resume.header sample_form_resume) <> [] /\
  prune sample_form_resume = sample_form_resume /\
  valid_opt (fun n => ten_digits rt_example (PhoneNumber.value n) = true)
    (Header.number (Resume.header sample_form_resume)).
Proof.
  assert (Hr : UI._build_resume_object rt_example sample_form (clock_at 2026 11 3) 0%nat =
               Ok (Some sample_form_resume)) by (vm_compute; reflexivity).
  split; [exact Hr|].
  exact (form_builds_validated_documents rt_example sample_form (clock_at 2026 11 3) 0%nat
           sample_form_resume Hr).
Defined.

(** *** Moving an entry *)

Lemma assign_length {A : Type} (l : list A) (i : nat) (v : A) :
  List.length (UI.assign l i v) = List.length l.
Proof.
  revert i. induction l as [|x l IH]; intros [|i]; simpl; try reflexivity.
  now rewrite IH.
Qed.

Lemma nth_error_assign {A : Type} (l : list A) (i k : nat) (v : A) :
  nth_error (UI.assign l i v) k =
    if (k =? i)%nat then (if (i <? List.length l)%nat then Some v else None)
    else nth_error l k.
Proof.
  revert i k. induction l as [|x l IH]; intros i k.
  - simpl. destruct i, k; simpl; try reflexivity.
    now destruct (k =? i)%nat.
  - destruct i as [|i], k as [|k]; simpl; try reflexivity.
    rewrite IH. reflexivity.
Qed.

Lemma assign_head_Permutation {A : Type} (l : list A) (j : nat) (x b : A) :
  nth_error l j = Some b -> Permutation (x :: l) (b :: UI.assign l j x).
Proof.
  revert j. induction l as [|y l IH]; intros [|j]; simpl; try discriminate.
  - intros H. injection H as ->. apply perm_swap.
  - intros H. apply IH in H.
    apply perm_trans with (y :: x :: l); [apply perm_swap|].
    apply perm_trans with (y :: b :: UI.assign l j x); [now apply perm_skip|].
    apply perm_swap.
Qed.

(** The two assignments of a move exchange two entries. *)
Lemma exchange_Permutation {A : Type} (l : list A) (i j : nat) (a b : A) :
  nth_error l i = Some a -> nth_error l j = Some b ->
  Permutation l (UI.assign (UI.assign l i b) j a).
Proof.
  revert i j. induction l as [|x l IH]; intros [|i] [|j]; simpl; try discriminate.
  - intros Ha Hb. injection Ha as ->. injection Hb as ->. apply Permutation_refl.
  - intros Ha Hb. injection Ha as ->. now apply assign_head_Permutation.
  - intros Ha Hb. injection Hb as ->. now apply assign_head_Permutation.
  - intros Ha Hb. apply perm_skip. now apply IH.
Qed.

Lemma new_index_bound (len idx : nat) (delta : Z) :
  (idx < len)%nat -> (UI.new_index len idx delta < len)%nat.
Proof. unfold UI.new_index. lia. Qed.

(** X20: moving an entry of a list of the form.  With a selected index in
    range the move never fails; it either leaves the list as it is, when the
    clamped target is the selected index itself, or exchanges the selected
    entry with the one at the target and selects the target.  The list keeps
    its length and its entries; every other position keeps its entry.  One
    place up from the top or down from the bottom changes nothing, and one
    place down followed by one place up restores the list. *)
Theorem move_exchanges_two_entries :
  forall (A : Type) (items : list A) (idx : nat) (delta : Z),
    (idx < List.length items)%nat ->
    match UI.move items [idx] delta with
    | UI.Unmoved => UI.new_index (List.length items) idx delta = idx
    | UI.Moved items' sel =>
        sel = UI.new_index (List.length items) idx delta /\ sel <> idx /\
        (sel < List.length items)%nat /\
        Permutation items items' /\
        List.length items' = List.length items /\
        nth_error items' sel = nth_error items idx /\
        nth_error items' idx = nth_error items sel /\
        (forall k, k <> idx -> k <> sel -> nth_error items' k = nth_error items k)
    | UI.MoveIndexError => False
    end /\
    (idx = 0%nat -> UI.move items [idx] (-1) = UI.Unmoved) /\
    (S idx = List.length items -> UI.move items [idx] 1 = UI.Unmoved) /\
    (forall items' sel,
        UI.move items [idx] 1 = UI.Moved items' sel ->
        sel = S idx /\ UI.move items' [sel] (-1) = UI.Moved items idx) /\
    UI.move items [] delta = UI.Unmoved.
Proof.
  intros A items idx delta Hidx.
  assert (Hmove : forall d,
    match UI.move items [idx] d with
    | UI.Unmoved => UI.new_index (List.length items) idx d = idx
    | UI.Moved items' sel =>
        sel = UI.new_index (List.length items) idx d /\ sel <> idx /\
        (sel < List.length items)%nat /\
        Permutation items items' /\
        List.length items' = List.length items /\
        nth_error items' sel = nth_error items idx /\
        nth_error items' idx = nth_error items sel /\
        (forall k, k <> idx -> k <> sel -> nth_error items' k = nth_error items k)
    | UI.MoveIndexError => False
    end).
  { intros d. unfold UI.move.
    pose proof (new_index_bound (List.length items) idx d Hidx) as Hn.
    destruct (Nat.eqb_spec (UI.new_index (List.length items) idx d) idx) as [E|E];
      [exact E|].
    set (n := UI.new_index (List.length items) idx d) in *.
    destruct (nth_error items n) as [a|] eqn:Ea;
      [|apply nth_error_None in Ea; lia].
    destruct (nth_error items idx) as [b|] eqn:Eb;
      [|apply nth_error_None in Eb; lia].
    split; [reflexivity|]. split; [exact E|]. split; [exact Hn|].
    split; [now apply exchange_Permutation|].
    split; [now rewrite !assign_length|].
    assert (Hlt : forall x y : nat, (x < y)%nat -> (x <? y)%nat = true)
      by (intros x y; apply Nat.ltb_lt).
    split; [|split].
    - rewrite nth_error_assign, Nat.eqb_refl, assign_length. now rewrite (Hlt _ _ Hn).
    - rewrite !nth_error_assign, Nat.eqb_refl.
      rewrite (proj2 (Nat.eqb_neq idx n)) by congruence.
      now rewrite (Hlt _ _ Hidx).
    - intros k Hk1 Hk2. rewrite !nth_error_assign.
      rewrite (proj2 (Nat.eqb_neq k n)) by assumption.
      now rewrite (proj2 (Nat.eqb_neq k idx)) by assumption. }
  split; [apply Hmove|]. split; [|split; [|split]].
  - intros ->. unfold UI.move, UI.new_index.
    replace (Z.to_nat _) with 0%nat by lia. reflexivity.
  - intros Hlast. unfold UI.move, UI.new_index.
    replace (Z.to_nat _) with idx by lia. now rewrite Nat.eqb_refl.
  - intros items' sel Hdown.
    pose proof (Hmove 1%Z) as H1. rewrite Hdown in H1.
    destruct H1 as (Hsel & Hne & Hlt & _ & Hlen & Hat_sel & Hat_idx & Hrest).
    assert (Hs : sel = S idx) by (unfold UI.new_index in Hsel; lia).
    split; [exact Hs|]. clear Hsel. subst sel.
    unfold UI.move, UI.new_index. rewrite Hlen.
    replace (Z.to_nat _) with idx by lia.
    rewrite (proj2 (Nat.eqb_neq idx (S idx))) by lia.
    rewrite Hat_idx, Hat_sel.
    destruct (nth_error items (S idx)) as [a|] eqn:Ea;
      [|apply nth_error_None in Ea; lia].
    destruct (nth_error items idx) as [b|] eqn:Eb;
      [|apply nth_error_None in Eb; lia].
    f_equal. apply nth_error_ext. intros k.
    rewrite !nth_error_assign, assign_length, Hlen.
    destruct (Nat.eqb_spec k idx) as [->|Hk1].
    + rewrite (proj2 (Nat.ltb_lt idx (List.length items)) Hidx). now symmetry.
    + destruct (Nat.eqb_spec k (S idx)) as [->|Hk2].
      * rewrite (proj2 (Nat.ltb_lt (S idx) (List.length items)) Hlt). now symmetry.
      * now apply Hrest.
  - reflexivity.
Qed.

Lemma move_exchanges_two_entries_witness :
  UI.move [lit "a"; lit "b"; lit "c"] [1%nat] 1 = UI.Moved [lit "a"; lit "c"; lit "b"] 2%nat /\
  UI.move [lit "a"; lit "c"; lit "b"] [2%nat] (-1) =
    UI.Moved [lit "a"; lit "b"; lit "c"] 1%nat.
Proof.
  assert (H : UI.move [lit "a"; lit "b"; lit "c"] [1%nat] 1 =
              UI.Moved [lit "a"; lit "c"; lit "b"] 2%nat) by reflexivity.
  split; [exact H|].
  exact (proj2 (proj1 (proj2 (proj2 (proj2
           (move_exchanges_two_entries pystr [lit "a"; lit "b"; lit "c"] 1%nat 1
              ltac:(simpl; lia)))))
           _ _ H)).
Defined.

(** *** Adding a bullet *)

(** X21: the bullets editor, with the limit of 255 characters that both
    dialogs use, adds the stripped text exactly when [BulletPoint] accepts
    it, at the end of the list, and otherwise leaves the list as it is: a
    list of accepted texts stays one. *)
Theorem add_bullet_adds_accepted_text :
  forall (rt : Runtime) (bullets : list pystr) (new_var : pystr),
    (BulletPoint.init (strip rt new_var) = Ok (BulletPoint.mk (strip rt new_var)) /\
     UI.add_bullet rt 255 bullets new_var = bullets ++ [strip rt new_var]) \/
    ((exists msg, BulletPoint.init (strip rt new_var) = Raise (ValueError msg)) /\
     UI.add_bullet rt 255 bullets new_var = bullets).
Proof.
  intros rt bullets new_var. unfold UI.add_bullet, BulletPoint.init.
  destruct (is_empty (strip rt new_var)).
  - right. split; [now eexists | reflexivity].
  - destruct (255 <? List.length (strip rt new_var))%nat.
    + right. split; [now eexists | reflexivity].
    + left. now split.
Qed.

(** *** Loading into the form and building again *)

Lemma map_result_map_Ok {A B : Type} (f : B -> result A) (g : A -> B) (l : list A) :
  Forall (fun a => f (g a) = Ok a) l -> map_result f (map g l) = Ok l.
Proof.
  induction 1 as [|a l Ha _ IH]; [reflexivity|].
  cbn [map map_result]. rewrite Ha. cbn [bind]. rewrite IH. reflexivity.
Qed.

Lemma mapM_map_Ok {A B : Type} (f : B -> M A) (g : A -> B) (clk : clock) (l : list A) :
  Forall (fun a => forall j, exists j', f (g a) clk j = Ok (a, j')) l ->
  forall j, exists j', mapM f (map g l) clk j = Ok (l, j').
Proof.
  induction 1 as [|a l Ha _ IH]; intros j.
  - exists j. reflexivity.
  - cbn [map mapM]. unfold bindM at 1. destruct (Ha j) as [j1 ->].
    unfold bindM at 1. destruct (IH j1) as [j2 ->]. exists j2. reflexivity.
Qed.

Lemma filter_included {A B : Type} (include : B -> bool) (g : A -> B) (l : list A) :
  (forall a, include (g a) = true) -> filter include (map g l) = map g l.
Proof.
  intros H. induction l as [|a l IH]; [reflexivity|].
  cbn [map filter]. now rewrite H, IH.
Qed.

Lemma header_field_populated {A : Type} (rt : Runtime) (str : A -> pystr)
    (make : pystr -> result A) (x : option A) :
  valid_opt (fun a => str a <> [] /\ strip rt (str a) = str a /\ make (str a) = Ok a) x ->
  UI.header_field rt (UI.opt_text str x) make = Ok x.
Proof.
  unfold UI.header_field. destruct x as [a|]; simpl.
  - intros (Hne & Hs & Hm). rewrite Hs, (is_empty_false _ Hne). simpl. now rewrite Hm.
  - intros _. reflexivity.
Qed.

Lemma section_of_populated {A B : Type} (mk : list A -> B) (unmk : B -> list A)
    (sec : option B) (l : list A) :
  (forall s, mk (unmk s) = s) ->
  l = match sec with Some s => unmk s | None => [] end ->
  match sec with
  | Some s => if is_empty (unmk s) then None else Some s
  | None => None
  end = sec ->
  UI.section_of (fun l => Ok (mk l)) l = Ok sec.
Proof.
  intros Hmk -> Hp. unfold UI.section_of. destruct sec as [s|]; [|reflexivity].
  destruct (is_empty (unmk s)); [discriminate|]. simpl. now rewrite Hmk.
Qed.

Lemma map_BulletPoint_populated (desc : list BulletPoint.t) :
  Forall valid_BulletPoint desc ->
  map_result BulletPoint.init (map BulletPoint.text desc) = Ok desc.
Proof. intros H. now apply map_result_map_Ok. Qed.

(** X22: loading and building again.  A validated document whose name and
    contact values hold no white space at either end, with a name, without
    an empty section and without a ["present"] start date, when [on_load]
    has put it into the form, is built again by [_build_resume_object], at
    the time of validation or later, as the same document, each skill set in
    the order in which the set rebuilt from its list iterates. *)
Theorem loaded_document_is_built_again :
  forall (rt : Runtime) (c0 c1 : clock) (j : nat) (r : Resume.t),
    set_order_sound rt -> valid_Resume rt c0 r ->
    clock_after c0 c1 -> starts_dated r ->
    stripped rt r -> prune r = r ->
    UI._build_resume_object rt (UI.populate r) c1 j = Ok (Some (reiterated rt r)) /\
    (forall f data i i',
        Resume.from_dict rt data c0 i = Ok (r, i') ->
        UI.on_load rt f data c0 i = Ok (UI.populate r)).
Proof.
  intros rt c0 c1 j r Hset (Hh & Hsk & Hex & Hpr & Hed) Hafter (Dex & Ded)
    (Hname & Sname & Semail & Snumber & Slinkedin & Sportfolio & Sgithub) Hprune.
  split; [|intros f data i i' Hload; unfold UI.on_load; now rewrite Hload].
  destruct r as [[name email number linkedin portfolio github] sk ex pr ed].
  unfold prune in Hprune. cbn [Resume.header Resume.skills Resume.experience
    Resume.projects Resume.education Header.name Header.email Header.number
    Header.linkedin Header.portfolio Header.github] in *.
  injection Hprune as Psk Pex Ppr Ped.
  destruct Hh as (Vemail & Vnumber & Vlinkedin & Vportfolio & Vgithub).
  cbn [Resume.header Header.email Header.number Header.linkedin Header.portfolio
    Header.github] in *.
  unfold UI._build_resume_object, UI.build_resume.
  cbn [UI.populate UI.name_var UI.email_var UI.phone_var UI.linkedin_var UI.portfolio_var
    UI.github_var UI.skill_types UI.experiences UI.projects UI.educations
    Resume.header Resume.skills Resume.experience Resume.projects Resume.education
    Header.name Header.email Header.number Header.linkedin Header.portfolio Header.github].
  rewrite Sname, (is_empty_false _ Hname).
  unfold bindM at 1.
  assert (Femail : UI.header_field rt (UI.opt_text Email.str email) (Email.init rt) = Ok email).
  { apply header_field_populated. destruct email as [e|]; [|exact I]. simpl in *.
    split; [now apply (valid_Email_nonempty rt) | now split]. }
  assert (Fnumber : UI.header_field rt (UI.opt_text PhoneNumber.str number)
                      (PhoneNumber.init rt) = Ok number).
  { apply header_field_populated. destruct number as [n|]; [|exact I]. simpl in *.
    split; [now apply (valid_PhoneNumber_nonempty rt) | now split]. }
  assert (Flinkedin : UI.header_field rt (UI.opt_text Website.str linkedin)
                        (LinkedIn.init rt) = Ok linkedin).
  { apply header_field_populated. destruct linkedin as [w|]; [|exact I]. simpl in *.
    split; [now apply (valid_LinkedIn_nonempty rt) | now split]. }
  assert (Fportfolio : UI.header_field rt (UI.opt_text Website.str portfolio)
                         (Website.init rt) = Ok portfolio).
  { apply header_field_populated. destruct portfolio as [w|]; [|exact I]. simpl in *.
    split; [now apply (valid_Website_nonempty rt) | now split]. }
  assert (Fgithub : UI.header_field rt (UI.opt_text Website.str github)
                      (GitHub.init rt) = Ok github).
  { apply header_field_populated. destruct github as [w|]; [|exact I]. simpl in *.
    split; [now apply (valid_GitHub_nonempty rt) | now split]. }
  replace (lift
             (email0 <- UI.header_field rt (UI.opt_text Email.str email) (Email.init rt) ;;
              number0 <- UI.header_field rt (UI.opt_text PhoneNumber.str number)
                           (PhoneNumber.init rt) ;;
              linkedin0 <- UI.header_field rt (UI.opt_text Website.str linkedin)
                             (LinkedIn.init rt) ;;
              portfolio0 <- UI.header_field rt (UI.opt_text Website.str portfolio)
                              (Website.init rt) ;;
              github0 <- UI.header_field rt (UI.opt_text Website.str github)
                           (GitHub.init rt) ;;
              Header.init name email0 number0 linkedin0 portfolio0 github0) c1 j)
    with (@Ok (Header.t * nat)
            (Header.mk name email number linkedin portfolio github, j))
    by (unfold lift; rewrite Femail; cbn [bind]; rewrite Fnumber; cbn [bind];
        rewrite Flinkedin; cbn [bind]; rewrite Fportfolio; cbn [bind];
        rewrite Fgithub; reflexivity).
  (* skills *)
  unfold bindM at 1.
  assert (Hsts : exists sts,
    map_result (UI.build_skill_type rt)
      (filter UI.SkillEntry.include
         match sk with
         | Some sec =>
             map (fun st => UI.SkillEntry.mk (SkillType.name st) (SkillType.skills st) true)
                 (SkillSection.skill_types sec)
         | None => []
         end) = Ok sts /\
    UI.section_of SkillSection.init sts = Ok (Resume.skills (reiterated rt
      (Resume.mk (Header.mk name email number linkedin portfolio github) sk ex pr ed)))).
  { unfold reiterated. cbn [Resume.skills]. destruct sk as [[l]|].
    - cbn [SkillSection.skill_types valid_opt] in *.
      rewrite filter_included by reflexivity.
      exists (map (fun st => SkillType.mk (SkillType.name st)
                               (set_order rt (SkillType.skills st))) l).
      split.
      + clear Psk. induction Hsk as [|st l0 Hst _ IH]; [reflexivity|].
        cbn [map map_result]. unfold UI.build_skill_type at 1.
        cbn [UI.SkillEntry.name UI.SkillEntry.skills]. unfold SkillType.init at 1.
        assert (Hne : SkillType.skills st <> []).
        { unfold valid_SkillType, SkillType.init in Hst. intros E. rewrite E in Hst.
          discriminate. }
        rewrite (is_empty_false _ (set_order_nonempty rt _ Hset Hne)).
        cbn [bind]. rewrite IH. reflexivity.
      + unfold UI.section_of, SkillSection.init.
        destruct l as [|st l]; [discriminate Psk | reflexivity].
    - exists []. split; reflexivity. }
  destruct Hsts as (sts & -> & Hsec). unfold lift at 1. unfold bindM at 1.
  rewrite Hsec. unfold lift at 1.
  (* experience *)
  unfold bindM at 1.
  assert (Hexps : exists j1,
    mapM (UI.build_experience rt)
      (filter UI.ExperienceEntry.include
         match ex with
         | Some sec =>
             map (fun exp =>
                    UI.ExperienceEntry.mk (Experience.position exp) (Experience.company exp)
                      (Date.str (Experience.start_date exp))
                      (Date.str (Experience.end_date exp))
                      (map BulletPoint.text (Experience.description exp)) true)
                 (ExperienceSection.experiences sec)
         | None => []
         end) c1 j =
      Ok (match ex with Some sec => ExperienceSection.experiences sec | None => [] end, j1)).
  { destruct ex as [[l]|]; [|exists j; reflexivity].
    cbn [ExperienceSection.experiences valid_opt] in *.
    rewrite filter_included by reflexivity.
    apply mapM_map_Ok. rewrite Forall_forall in *. intros e He j0.
    destruct (Hex e He) as (Hb & Hs & Hen & i & Hinit).
    unfold UI.build_experience. cbn [UI.ExperienceEntry.description
      UI.ExperienceEntry.start_date UI.ExperienceEntry.end_date
      UI.ExperienceEntry.position UI.ExperienceEntry.company].
    unfold bindM at 1. rewrite (map_BulletPoint_populated _ Hb). unfold lift at 1.
    unfold bindM at 1. unfold Date.str. unfold valid_Date in Hs, Hen. rewrite Hs.
    unfold lift at 1. unfold bindM at 1.
    rewrite (is_empty_false _ (valid_Date_nonempty rt _ Hen)). cbn [negb]. rewrite Hen.
    unfold lift at 1.
    exact (Experience_init_later rt c0 c1 i j0 _ _ _ _ _ e Hafter Hs Hen (Dex e He) Hinit). }
  destruct Hexps as (j1 & ->). unfold bindM at 1.
  assert (Sex : UI.section_of ExperienceSection.init
                   (match ex with Some sec => ExperienceSection.experiences sec | None => [] end) = Ok ex).
  { apply (section_of_populated ExperienceSection.mk ExperienceSection.experiences); [now intros [] | reflexivity | exact Pex]. }
  rewrite Sex.
  unfold lift at 1.
  (* projects *)
  unfold bindM at 1.
  assert (Hprojs :
    map_result (UI.build_project rt)
      (filter UI.ProjectEntry.include
         match pr with
         | Some sec =>
             map (fun p =>
                    UI.ProjectEntry.mk (Project.name p) (Project.skills p)
                      (match Project.link p with
                       | Some w => Some (Website.str w)
                       | None => None
                       end)
                      (map BulletPoint.text (Project.description p)) true)
                 (ProjectSection.projects sec)
         | None => []
         end) =
      Ok (match pr with Some sec => ProjectSection.projects sec | None => [] end)).
  { destruct pr as [[l]|]; [|reflexivity].
    cbn [ProjectSection.projects valid_opt] in *.
    rewrite filter_included by reflexivity.
    apply map_result_map_Ok. rewrite Forall_forall in *. intros p Hp.
    destruct (Hpr p Hp) as (Hb & Hl & Hinit).
    unfold UI.build_project. cbn [UI.ProjectEntry.description UI.ProjectEntry.link
      UI.ProjectEntry.name UI.ProjectEntry.skills].
    rewrite (map_BulletPoint_populated _ Hb). cbn [bind].
    destruct (Project.link p) as [w|] eqn:El.
    - simpl in Hl. unfold Website.str.
      rewrite (is_empty_false _ (valid_Website_nonempty rt _ Hl)). cbn [negb].
      unfold valid_Website in Hl. rewrite Hl. cbn [bind]. exact Hinit.
    - cbn [bind]. exact Hinit. }
  rewrite Hprojs. unfold lift at 1. unfold bindM at 1.
  assert (Spr : UI.section_of ProjectSection.init
                   (match pr with Some sec => ProjectSection.projects sec | None => [] end) = Ok pr).
  { apply (section_of_populated ProjectSection.mk ProjectSection.projects); [now intros [] | reflexivity | exact Ppr]. }
  rewrite Spr.
  unfold lift at 1.
  (* education *)
  unfold bindM at 1.
  assert (Hedus : exists j2,
    mapM (UI.build_education rt)
      (filter UI.EducationEntry.include
         match ed with
         | Some sec =>
             map (fun e =>
                    UI.EducationEntry.mk (Education.school e) (Education.degree e)
                      (Date.str (Education.start_date e)) (Education.gpa e)
                      (Education.awards e) true)
                 (EducationSection.educations sec)
         | None => []
         end) c1 j1 =
      Ok (match ed with Some sec => EducationSection.educations sec | None => [] end, j2)).
  { destruct ed as [[l]|]; [|exists j1; reflexivity].
    cbn [EducationSection.educations valid_opt] in *.
    rewrite filter_included by reflexivity.
    apply mapM_map_Ok. rewrite Forall_forall in *. intros e He j0.
    destruct (Hed e He) as (Hs & i & Hinit).
    unfold UI.build_education. cbn [UI.EducationEntry.start_date UI.EducationEntry.school
      UI.EducationEntry.degree UI.EducationEntry.awards UI.EducationEntry.gpa].
    unfold bindM at 1. unfold Date.str. unfold valid_Date in Hs. rewrite Hs.
    unfold lift at 1.
    exact (Education_init_later rt c0 c1 i j0 _ _ _ _ _ e Hafter Hs (Ded e He) Hinit). }
  destruct Hedus as (j2 & ->). unfold bindM at 1.
  assert (Sed : UI.section_of EducationSection.init
                   (match ed with Some sec => EducationSection.educations sec | None => [] end) = Ok ed).
  { apply (section_of_populated EducationSection.mk EducationSection.educations); [now intros [] | reflexivity | exact Ped]. }
  rewrite Sed.
  unfold lift at 1. unfold lift, Resume.init. reflexivity.
Qed.

Lemma loaded_document_is_built_again_witness :
  set_order_sound rt_example /\
  valid_Resume rt_example (clock_at 2026 11 3) unlinked_sample /\
  clock_after (clock_at 2026 11 3) (clock_at 2026 11 4) /\
  starts_dated unlinked_sample /\
  stripped rt_example unlinked_sample /\
  prune unlinked_sample = unlinked_sample /\
  UI._build_resume_object rt_example (UI.populate unlinked_sample) (clock_at 2026 11 4) 0%nat =
    Ok (Some (reiterated rt_example unlinked_sample)).
Proof.
  assert (Hset : set_order_sound rt_example) by exact insertion_order_sound.
  assert (Hafter : clock_after (clock_at 2026 11 3) (clock_at 2026 11 4))
    by (apply clock_at_after; discriminate).
  assert (Hvalid : valid_Resume rt_example (clock_at 2026 11 3) unlinked_sample).
  { split; [repeat split|]. split; [repeat constructor|].
    split; [|split].
    - constructor; [|constructor].
      split; [repeat constructor|]. split; [reflexivity|]. split; [reflexivity|].
      exists 0%nat. reflexivity.
    - exact I.
    - constructor; [|constructor].
      split; [reflexivity|]. exists 0%nat. reflexivity. }
  assert (Hdated : starts_dated unlinked_sample).
  { split; (constructor; [discriminate | constructor]). }
  assert (Hstripped : stripped rt_example unlinked_sample).
  { split; [discriminate|]. repeat split. }
  assert (Hprune : prune unlinked_sample = unlinked_sample) by reflexivity.
  repeat (split; [assumption|]).
  exact (proj1 (loaded_document_is_built_again rt_example (clock_at 2026 11 3)
                  (clock_at 2026 11 4) 0%nat unlinked_sample Hset Hvalid Hafter Hdated
                  Hstripped Hprune)).
Defined.

(** *** The skill dialog *)

Lemma lstrip_idempotent (rt : Runtime) (s : pystr) : lstrip rt (lstrip rt s) = lstrip rt s.
Proof.
  destruct (lstrip rt s) as [|c t] eqn:E; [reflexivity|].
  apply lstrip_head in E. simpl. now rewrite E.
Qed.

Lemma lstrip_fixed (rt : Runtime) (c : char) (t : pystr) :
  re_s rt c = false -> lstrip rt (c :: t) = c :: t.
Proof. intros H. simpl. now rewrite H. Qed.

Lemma lstrip_spaces (rt : Runtime) (ws s : pystr) :
  forallb (re_s rt) ws = true -> lstrip rt (ws ++ s) = lstrip rt s.
Proof.
  induction ws as [|c ws IH]; [reflexivity|]. simpl.
  intros H. apply andb_true_iff in H as [Hc Hws]. rewrite Hc. now apply IH.
Qed.

(** What [strip] keeps starts with no white space. *)
Lemma strip_head (rt : Runtime) (s t : pystr) (c : char) :
  strip rt s = c :: t -> re_s rt c = false.
Proof.
  unfold strip. intros H.
  destruct (lstrip_split rt (rev (lstrip rt s))) as (ws & Hsplit & Hws).
  apply (f_equal (@rev char)) in Hsplit. rewrite rev_involutive, rev_app_distr, H in Hsplit.
  simpl in Hsplit. now apply lstrip_head in Hsplit.
Qed.

Lemma strip_idempotent (rt : Runtime) (s : pystr) : strip rt (strip rt s) = strip rt s.
Proof.
  destruct (strip rt s) as [|c t] eqn:E; [reflexivity|].
  pose proof (strip_head rt s t c E) as Hc.
  unfold strip at 1. rewrite (lstrip_fixed rt c t Hc). rewrite <- E.
  unfold strip. rewrite rev_involutive, lstrip_idempotent. reflexivity.
Qed.

Lemma strip_leading_space (rt : Runtime) (s : pystr) : strip rt (32 :: s) = strip rt s.
Proof. reflexivity. Qed.

Lemma strip_without (rt : Runtime) (c : char) (s : pystr) :
  ~ In c s -> ~ In c (strip rt s).
Proof.
  intros H Hin. apply H.
  destruct (strip_split rt s) as (pre & post & E & _). rewrite E.
  apply in_or_app. right. apply in_or_app. now left.
Qed.

Lemma split_nonempty (sep : char) (s : pystr) : UI.split sep s <> [].
Proof.
  destruct s as [|c s]; simpl; [discriminate|].
  destruct (c =? sep); [discriminate|].
  destruct (UI.split sep s); discriminate.
Qed.

Lemma split_without (sep : char) (s : pystr) :
  Forall (fun p => ~ In sep p) (UI.split sep s).
Proof.
  induction s as [|c s IH]; simpl.
  - constructor; [intros []|constructor].
  - destruct (N.eqb_spec c sep) as [->|Hc].
    + constructor; [intros []|exact IH].
    + destruct (UI.split sep s) as [|p ps].
      * constructor; [|constructor]. intros [E|[]]. congruence.
      * inversion IH as [|? ? Hp Hps]; subst.
        constructor; [|exact Hps]. intros [E|Hin]; [congruence | now apply Hp].
Qed.

Lemma split_one (sep : char) (s : pystr) : ~ In sep s -> UI.split sep s = [s].
Proof.
  induction s as [|c s IH]; [reflexivity|]. intros H. simpl.
  destruct (N.eqb_spec c sep) as [->|Hc]; [exfalso; apply H; now left|].
  rewrite IH; [reflexivity|]. intros Hin. apply H. now right.
Qed.

Lemma split_app_sep (sep : char) (a t : pystr) :
  ~ In sep a -> UI.split sep (a ++ sep :: t) = a :: UI.split sep t.
Proof.
  induction a as [|c a IH]; intros H.
  - simpl. now rewrite N.eqb_refl.
  - cbn [app UI.split].
    destruct (N.eqb_spec c sep) as [->|Hc]; [exfalso; apply H; now left|].
    rewrite IH; [reflexivity|]. intros Hin. apply H. now right.
Qed.

(** The line that the dialog shows for a list of skills is split again into
    the skills, each but the first after the space of the separator. *)
Lemma split_join (pre a : pystr) (rest : list pystr) :
  ~ In UI.COMMA pre -> Forall (fun s => ~ In UI.COMMA s) (a :: rest) ->
  UI.split UI.COMMA (pre ++ join (lit ", ") (a :: rest)) =
    (pre ++ a) :: map (cons 32) rest.
Proof.
  revert pre a. induction rest as [|b rest IH]; intros pre a Hpre Hl.
  - inversion Hl as [|? ? Ha _]; subst. cbn [join map].
    apply split_one. intros Hin. apply in_app_or in Hin as [Hin|Hin]; tauto.
  - inversion Hl as [|? ? Ha Hrest]; subst.
    change (join (lit ", ") (a :: b :: rest))
      with (a ++ UI.COMMA :: ([32] ++ join (lit ", ") (b :: rest))).
    rewrite app_assoc, split_app_sep.
    + f_equal. apply (IH [32] b); [|assumption].
      intros [E|[]]. discriminate.
    + intros Hin. apply in_app_or in Hin as [Hin|Hin]; tauto.
Qed.

Lemma parse_skills_join (rt : Runtime) (skills : list pystr) :
  Forall (fun s => s <> [] /\ strip rt s = s /\ ~ In UI.COMMA s) skills ->
  UI.parse_skills rt (join (lit ", ") skills) = skills.
Proof.
  intros H. destruct skills as [|a rest]; [reflexivity|].
  unfold UI.parse_skills.
  assert (Hsplit : UI.split UI.COMMA (join (lit ", ") (a :: rest)) = a :: map (cons 32) rest).
  { apply (split_join [] a rest); [intros []|].
    apply Forall_impl with (2 := H). now intros s (_ & _ & Hs). }
  rewrite Hsplit.
  assert (Hkeep : forall l, Forall (fun s => s <> [] /\ strip rt s = s /\ ~ In UI.COMMA s) l ->
            map (strip rt)
              (filter (fun s => negb (is_empty (strip rt s))) (map (cons 32) l)) = l).
  { induction 1 as [|s l (Hne & Hs & _) _ IH]; [reflexivity|].
    cbn [map filter]. rewrite strip_leading_space, Hs, (is_empty_false _ Hne).
    cbn [negb map]. now rewrite strip_leading_space, Hs, IH. }
  inversion H as [|? ? (Hne & Hs & _) Hrest]; subst.
  cbn [filter]. rewrite Hs, (is_empty_false _ Hne). cbn [negb map].
  now rewrite Hs, (Hkeep rest Hrest).
Qed.

Lemma parse_skills_tidy (rt : Runtime) (text : pystr) :
  Forall (fun s => s <> [] /\ strip rt s = s /\ ~ In UI.COMMA s) (UI.parse_skills rt text).
Proof.
  unfold UI.parse_skills.
  pose proof (split_without UI.COMMA text) as H.
  induction H as [|p ps Hp _ IH]; [constructor|].
  cbn [filter]. destruct (is_empty (strip rt p)) eqn:E; cbn [negb]; [exact IH|].
  cbn [map]. constructor; [|exact IH].
  split; [intros E'; rewrite E' in E; discriminate|].
  split; [apply strip_idempotent | now apply strip_without].
Qed.

(** X23: the skill dialog.  An entry that [_save] makes is tidy: its name
    and every skill are stripped and not empty, there is at least one skill,
    and no skill holds a comma; it is included, and [SkillType] accepts it
    when the form is built.  Opened on a tidy entry and saved with nothing
    changed, the dialog makes the same entry, and [edit_skilltype] leaves the
    list as it was. *)
Theorem skill_dialog_keeps_tidy_entries :
  forall (rt : Runtime) (name_var skills_var : pystr) (entry : UI.SkillEntry.t),
    (UI.SkillTypeDialog._save rt name_var skills_var = Some entry ->
       tidy rt entry /\ UI.SkillEntry.include entry = true /\
       UI.SkillEntry.name entry = strip rt name_var /\
       (set_order_sound rt ->
        UI.build_skill_type rt entry =
          Ok (SkillType.mk (UI.SkillEntry.name entry)
                (set_order rt (UI.SkillEntry.skills entry))))) /\
    (tidy rt entry ->
       UI.SkillTypeDialog._save rt (fst (UI.SkillTypeDialog.init (Some entry)))
         (snd (UI.SkillTypeDialog.init (Some entry))) =
         Some (UI.SkillEntry.mk (UI.SkillEntry.name entry) (UI.SkillEntry.skills entry) true) /\
       (forall skill_types idx,
           nth_error skill_types idx = Some entry ->
           UI.edit_skilltype rt skill_types [idx]
             (Some (UI.SkillTypeDialog.init (Some entry))) = Some skill_types)).
Proof.
  intros rt name_var skills_var entry. split.
  - unfold UI.SkillTypeDialog._save.
    destruct (is_empty (strip rt name_var)) eqn:En; [discriminate|].
    destruct (is_empty (UI.parse_skills rt skills_var)) eqn:Es; [discriminate|].
    intros H. injection H as <-. cbn [UI.SkillEntry.name UI.SkillEntry.skills
      UI.SkillEntry.include].
    assert (Hs : UI.parse_skills rt skills_var <> []).
    { intros E. rewrite E in Es. discriminate. }
    split; [|split; [reflexivity | split; [reflexivity|]]].
    + unfold tidy. cbn [UI.SkillEntry.name UI.SkillEntry.skills].
      split; [intros E; rewrite E in En; discriminate|].
      split; [apply strip_idempotent|]. split; [exact Hs | apply parse_skills_tidy].
    + intros Hset. unfold UI.build_skill_type, SkillType.init.
      cbn [UI.SkillEntry.name UI.SkillEntry.skills].
      now rewrite (is_empty_false _ (set_order_nonempty rt _ Hset Hs)).
  - intros (Hne & Hname & Hsk & Hskills).
    assert (Hsave :
      UI.SkillTypeDialog._save rt (fst (UI.SkillTypeDialog.init (Some entry)))
        (snd (UI.SkillTypeDialog.init (Some entry))) =
      Some (UI.SkillEntry.mk (UI.SkillEntry.name entry) (UI.SkillEntry.skills entry) true)).
    { unfold UI.SkillTypeDialog.init, UI.SkillTypeDialog._save. cbn [fst snd].
      rewrite Hname, (parse_skills_join rt _ Hskills).
      now rewrite (is_empty_false _ Hne), (is_empty_false _ Hsk). }
    split; [exact Hsave|].
    intros skill_types idx Hidx. unfold UI.edit_skilltype. rewrite Hidx.
    destruct (UI.SkillTypeDialog.init (Some entry)) as [n s] eqn:Ei.
    cbn [fst snd] in Hsave. rewrite Hsave. cbn [UI.SkillEntry.name UI.SkillEntry.skills].
    f_equal. apply nth_error_ext. intros k. rewrite nth_error_assign.
    destruct (Nat.eqb_spec k idx) as [->|Hk]; [|reflexivity].
    assert (Hlt : (idx < List.length skill_types)%nat).
    { apply nth_error_Some. congruence. }
    rewrite (proj2 (Nat.ltb_lt _ _) Hlt), Hidx. now destruct entry.
Qed.


(** ** The date format of the dialogs *)

Lemma mapM_In {A B : Type} (f : A -> M B) (clk : clock) (l : list A) (a : A) :
  In a l ->
  forall i bs j, mapM f l clk i = Ok (bs, j) ->
  exists b i' j', f a clk i' = Ok (b, j').
Proof.
  induction l as [|x l IH]; intros Hin i bs j H; [destruct Hin|].
  simpl in H. apply bindM_Ok in H as (b & i1 & Hb & H).
  apply bindM_Ok in H as (bs' & i2 & Hbs & H).
  destruct Hin as [->|Hin].
  - now exists b, i, i1.
  - now apply (IH Hin i1 bs' i2).
Qed.

Lemma ascii_digit_range (c : char) : ascii_digit c = true -> 48 <= c <= 57.
Proof. unfold ascii_digit. apply in_range_iff. Qed.

Lemma year_month_not_a_date (rt : Runtime) (s : pystr) :
  year_month s = true -> strptime_match rt s = None.
Proof.
  unfold year_month.
  destruct s as [|y1 [|y2 [|y3 [|y4 [|h [|m1 [|m2 [|x s]]]]]]]]; try discriminate.
  intros H. apply andb_true_iff in H as [Hd Hh]. apply N.eqb_eq in Hh. subst h.
  simpl in Hd.
  repeat match type of Hd with
         | _ && _ = true => apply andb_true_iff in Hd as [? Hd]
         end.
  repeat match goal with
         | D : ascii_digit _ = true |- _ => apply ascii_digit_range in D
         end.
  assert (Ey2 : (y2 =? HYPHEN) = false) by (apply N.eqb_neq; unfold HYPHEN; lia).
  assert (Ey3 : (y3 =? HYPHEN) = false) by (apply N.eqb_neq; unfold HYPHEN; lia).
  unfold strptime_match, day_alts.
  repeat match goal with
         | |- context [if ?c then _ else _] =>
             lazymatch c with
             | (_ =? HYPHEN) => fail
             | _ => destruct c
             end
         | |- context [match digit_value rt ?c with Some _ => _ | None => _ end] =>
             destruct (digit_value rt c)
         end;
    cbn [app first_some]; rewrite ?Ey2, ?Ey3; reflexivity.
Qed.

Lemma year_month_lower (rt : Runtime) (s : pystr) :
  year_month s = true -> str_eqb (lower rt s) Date.PRESENT = false.
Proof.
  unfold year_month.
  destruct s as [|y1 [|y2 [|y3 [|y4 [|h [|m1 [|m2 [|x s]]]]]]]]; try discriminate.
  intros H. apply andb_true_iff in H as [Hd Hh]. apply N.eqb_eq in Hh. subst h.
  simpl in Hd.
  repeat match type of Hd with
         | _ && _ = true => apply andb_true_iff in Hd as [? Hd]
         end.
  repeat match goal with
         | D : ascii_digit _ = true |- _ => apply ascii_digit_range in D
         end.
  assert (Hascii : forall c, 48 <= c <= 57 -> is_ascii c = true /\ ascii_lower c = c).
  { intros c Hc. unfold is_ascii, ascii_lower, in_range. split.
    - apply N.ltb_lt. lia.
    - destruct (65 <=? c) eqn:E; [apply N.leb_le in E; lia | reflexivity]. }
  unfold lower. cbn [forallb map].
  repeat match goal with
         | D : 48 <= ?c <= 57 |- _ =>
             destruct (Hascii c D) as [-> ->]; clear D
         end.
  cbn [andb is_ascii ascii_lower]. unfold Date.PRESENT.
  apply str_eqb_neq. intros E. injection E as _ _ _ _ E _ _. discriminate.
Qed.

(** X25: the dialogs ask for dates as in ["2023-06"] and ["2022-09"], but no
    string of that form, four digits, a hyphen and two digits, is a [Date]:
    the validator wants day, month and year.  An experience or education
    entry with such a start date, if it is included, keeps
    [_build_resume_object] from returning a document. *)
Theorem suggested_date_format_is_rejected :
  forall (rt : Runtime) (s : pystr),
    year_month s = true ->
    Date.init rt s = Raise (ValueError (lit "Invalid date (expected dd-mm-yyyy): " ++ s)) /\
    (forall f clk i r,
        (exists e, In e (UI.experiences f) /\ UI.ExperienceEntry.include e = true /\
                   UI.ExperienceEntry.start_date e = s) \/
        (exists e, In e (UI.educations f) /\ UI.EducationEntry.include e = true /\
                   UI.EducationEntry.start_date e = s) ->
        UI._build_resume_object rt f clk i <> Ok (Some r)).
Proof.
  intros rt s Hs.
  assert (Hdate : Date.init rt s =
                  Raise (ValueError (lit "Invalid date (expected dd-mm-yyyy): " ++ s))).
  { unfold Date.init, strptime.
    now rewrite (year_month_lower rt s Hs), (year_month_not_a_date rt s Hs). }
  split; [exact Hdate|].
  intros f clk i r Hentry H. unfold UI._build_resume_object in H.
  destruct (UI.build_resume rt f clk i) as [[r' j]|e|] eqn:Hb; try discriminate.
  unfold UI.build_resume in Hb.
  destruct (is_empty (strip rt (UI.name_var f))); [discriminate|].
  apply bindM_Ok in Hb as (header & i1 & _ & Hb).
  apply bindM_Ok in Hb as (sts & i2 & _ & Hb).
  apply bindM_Ok in Hb as (sk & i3 & _ & Hb).
  apply bindM_Ok in Hb as (exps & i4 & Hexps & Hb).
  apply bindM_Ok in Hb as (ex & i5 & _ & Hb).
  apply bindM_Ok in Hb as (projs & i6 & _ & Hb).
  apply bindM_Ok in Hb as (pr & i7 & _ & Hb).
  apply bindM_Ok in Hb as (edus & i8 & Hedus & _).
  destruct Hentry as [(e & Hin & Hincl & Hstart)|(e & Hin & Hincl & Hstart)].
  - assert (Hin' : In e (filter UI.ExperienceEntry.include (UI.experiences f)))
      by (apply filter_In; now split).
    destruct (mapM_In (UI.build_experience rt) clk _ e Hin' _ _ _ Hexps)
      as (b & i' & j' & Hbuild).
    unfold UI.build_experience in Hbuild.
    apply bindM_Ok in Hbuild as (desc & k1 & _ & Hbuild).
    apply bindM_Ok in Hbuild as (start & k2 & Hd & _).
    apply lift_Ok in Hd as [Hd _]. rewrite Hstart, Hdate in Hd. discriminate.
  - assert (Hin' : In e (filter UI.EducationEntry.include (UI.educations f)))
      by (apply filter_In; now split).
    destruct (mapM_In (UI.build_education rt) clk _ e Hin' _ _ _ Hedus)
      as (b & i' & j' & Hbuild).
    unfold UI.build_education in Hbuild.
    apply bindM_Ok in Hbuild as (start & k2 & Hd & _).
    apply lift_Ok in Hd as [Hd _]. rewrite Hstart, Hdate in Hd. discriminate.
Qed.

Lemma suggested_date_format_is_rejected_witness :
  year_month (lit "2023-06") = true /\
  Date.init rt_example (lit "2023-06") =
    Raise (ValueError (lit "Invalid date (expected dd-mm-yyyy): 2023-06")).
Proof.
  assert (H : year_month (lit "2023-06") = true) by reflexivity.
  split; [exact H|].
  exact (proj1 (suggested_date_format_is_rejected rt_example (lit "2023-06") H)).
Defined.

(** ** Deleting the selected entries *)

Lemma pop_length :
  forall (A : Type) (items r : list A) (i : nat),
    UI.pop items i = Some r -> S (List.length r) = List.length items.
Proof.
  induction items as [|x rest IH]; intros r i H; simpl in H.
  - discriminate H.
  - destruct i as [|i'].
    + injection H as <-. reflexivity.
    + destruct (UI.pop rest i') as [r'|] eqn:E; [|discriminate H].
      injection H as <-. simpl. f_equal. exact (IH r' i' E).
Qed.

Lemma pop_each_length :
  forall (A : Type) (idxs : list nat) (items r : list A),
    UI.pop_each items idxs = Some r ->
    (List.length r + List.length idxs = List.length items)%nat.
Proof.
  induction idxs as [|i more IH]; intros items r H; simpl in H.
  - injection H as <-. simpl. lia.
  - destruct (UI.pop items i) as [r'|] eqn:E; [|discriminate H].
    apply IH in H. apply pop_length in E. simpl. lia.
Qed.

Lemma pop_each_app :
  forall (A : Type) (a b : list nat) (items : list A),
    UI.pop_each items (a ++ b) =
      match UI.pop_each items a with
      | Some r => UI.pop_each r b
      | None => None
      end.
Proof.
  induction a as [|i a IH]; intros b items; simpl.
  - reflexivity.
  - destruct (UI.pop items i) as [r|]; [apply IH | reflexivity].
Qed.

Lemma existsb_eqb_above :
  forall (k : nat) (s : list nat),
    Forall (fun j => (k < j)%nat) s -> existsb (Nat.eqb k) s = false.
Proof.
  intros k s H. induction H as [|j s Hj _ IH]; simpl.
  - reflexivity.
  - rewrite IH. destruct (Nat.eqb_spec k j); [lia | reflexivity].
Qed.

Lemma kept_from_below :
  forall (A : Type) (items : list A) (k j : nat) (s : list nat),
    (j < k)%nat -> kept_from k items (j :: s) = kept_from k items s.
Proof.
  induction items as [|x rest IH]; intros k j s H; simpl.
  - reflexivity.
  - destruct (Nat.eqb_spec k j); [lia|]. simpl.
    rewrite (IH (S k) j s) by lia. reflexivity.
Qed.

Lemma pop_kept :
  forall (A : Type) (items : list A) (k i : nat) (s : list nat),
    (i < List.length items)%nat -> Forall (fun j => (k + i < j)%nat) s ->
    UI.pop (kept_from k items s) i = Some (kept_from k items ((k + i)%nat :: s)).
Proof.
  induction items as [|x rest IH]; intros k i s Hi Hs; simpl in Hi.
  - lia.
  - assert (Hk : existsb (Nat.eqb k) s = false).
    { apply existsb_eqb_above. eapply Forall_impl; [|exact Hs].
      simpl. intros; lia. }
    cbn [kept_from existsb]. rewrite Hk.
    destruct i as [|i'].
    + replace (k + 0)%nat with k by lia. rewrite Nat.eqb_refl. simpl.
      rewrite kept_from_below by lia. reflexivity.
    + destruct (Nat.eqb_spec k (k + S i')); [lia|]. simpl.
      rewrite (IH (S k) i' s).
      * replace (S k + i')%nat with (k + S i')%nat by lia. reflexivity.
      * lia.
      * eapply Forall_impl; [|exact Hs]. simpl. intros; lia.
Qed.

Lemma pop_each_rev_sorted :
  forall (A : Type) (items : list A) (sel : list nat),
    selection_of items sel ->
    UI.pop_each items (rev sel) = Some (unselected items sel).
Proof.
  intros A items sel [Hs Hr]. unfold unselected.
  induction Hs as [|i s Hs IH Hi]; simpl.
  - clear Hr. generalize 0%nat.
    induction items as [|x rest IHi]; intros k; simpl; [reflexivity|].
    specialize (IHi (S k)). injection IHi as IHi. rewrite <- IHi. reflexivity.
  - inversion Hr as [|? ? Hlt Hr']; subst.
    rewrite pop_each_app, (IH Hr'). simpl.
    rewrite (pop_kept A items 0 i s Hlt Hi). reflexivity.
Qed.

Lemma kept_from_In :
  forall (A : Type) (items : list A) (k : nat) (s : list nat) (x : A),
    In x (kept_from k items s) -> In x items.
Proof.
  induction items as [|y rest IH]; intros k s x H; simpl in H.
  - exact H.
  - destruct (existsb (Nat.eqb k) s).
    + right. exact (IH _ _ _ H).
    + destruct H as [->|H]; [left; reflexivity | right; exact (IH _ _ _ H)].
Qed.

(** X26: deleting the selected entries.  For a selection as a list box
    reports it, positions of the list in increasing order, the deletion
    never raises an [IndexError] and leaves exactly the entries at the
    positions that were not selected, in their order: as the entries are
    popped from the last selected one to the first, no pop moves an entry
    that is still to be popped.  The list gets shorter by the number of
    selected positions and gains no entry; with nothing selected it stays as
    it is. *)
Theorem delete_selected_removes_the_selection :
  forall (A : Type) (items : list A) (sel : list nat),
    selection_of items sel ->
    UI.delete_selected items sel = Some (unselected items sel) /\
    (List.length (unselected items sel) + List.length sel = List.length items)%nat /\
    (forall x, In x (unselected items sel) -> In x items) /\
    UI.delete_selected items [] = Some items.
Proof.
  intros A items sel Hsel.
  assert (Hpop := pop_each_rev_sorted A items sel Hsel).
  split; [|split; [|split]].
  - destruct sel as [|i s]; [|exact Hpop].
    simpl in Hpop. simpl. exact Hpop.
  - apply pop_each_length in Hpop. rewrite length_rev in Hpop. exact Hpop.
  - intros x. apply kept_from_In.
  - reflexivity.
Qed.

Lemma delete_selected_removes_the_selection_witness :
  selection_of [10; 20; 30; 40; 50]%nat [1; 3; 4]%nat /\
  UI.delete_selected [10; 20; 30; 40; 50]%nat [1; 3; 4]%nat = Some [10; 30]%nat.
Proof.
  assert (H : selection_of [10; 20; 30; 40; 50]%nat [1; 3; 4]%nat).
  { split.
    - repeat (constructor; [|repeat (constructor; try lia)]). constructor.
    - repeat (constructor; [simpl; lia|]). constructor. }
  split; [exact H|].
  exact (proj1 (delete_selected_removes_the_selection nat _ _ H)).
Defined.

(** ** Two runs of the program *)










